(** * Copy-trading bot: order builder, trade monitor and redemption timer

    Shallow embedding of [src/order-builder/builder.ts]
    ([TradeOrderBuilder.copyTrade]) and of [src/index.ts] ([main],
    [onMessage], [performRedemption]).

    JavaScript numbers are idealised: a [number] is either [NaN] or an exact
    rational; IEEE rounding and the two infinities are outside the model.
    Asynchronous calls are run to completion in program order; a call to a
    collaborator either returns or throws an error message. *)

From Stdlib Require Import Ascii String QArith Qcanon.
From stdpp Require Import gmap strings list fin_maps numbers pretty.

Local Open Scope string_scope.

(** ** JavaScript values *)

Module Js.

Inductive number :=
| NaN
| Num (q : Qc).

Definition zero : number := Num 0%Qc.
Definition one : number := Num 1%Qc.
Definition ofZ (z : Z) : number := Num (Q2Qc (inject_Z z)).

(** [a > b], [a <= b], [a < b], [a >= b]: every comparison with NaN is false. *)
Definition gt (a b : number) : bool :=
  match a, b with
  | Num x, Num y => bool_decide (y < x)%Qc
  | _, _ => false
  end.

Definition le (a b : number) : bool :=
  match a, b with
  | Num x, Num y => bool_decide (x <= y)%Qc
  | _, _ => false
  end.

Definition lt (a b : number) : bool := gt b a.
Definition ge (a b : number) : bool := le b a.

Definition add (a b : number) : number :=
  match a, b with
  | Num x, Num y => Num (x + y)%Qc
  | _, _ => NaN
  end.

Definition sub (a b : number) : number :=
  match a, b with
  | Num x, Num y => Num (x - y)%Qc
  | _, _ => NaN
  end.

Definition mul (a b : number) : number :=
  match a, b with
  | Num x, Num y => Num (x * y)%Qc
  | _, _ => NaN
  end.

(** Division; a zero divisor (an infinity or NaN in JavaScript) is mapped to
    NaN.  The only division of the program guards its divisor with [|| 1]. *)
Definition div (a b : number) : number :=
  match a, b with
  | Num x, Num y => if bool_decide (y = 0%Qc) then NaN else Num (x / y)%Qc
  | _, _ => NaN
  end.

(** [Math.max] and [Math.min]. *)
Definition max (a b : number) : number :=
  match a, b with
  | Num x, Num y => if bool_decide (x <= y)%Qc then Num y else Num x
  | _, _ => NaN
  end.

Definition min (a b : number) : number :=
  match a, b with
  | Num x, Num y => if bool_decide (x <= y)%Qc then Num x else Num y
  | _, _ => NaN
  end.

(** Truthiness: [0] and [NaN] are falsy, the empty string is falsy,
    [undefined] and [null] are falsy. *)
Definition truthy (a : number) : bool :=
  match a with
  | NaN => false
  | Num x => negb (bool_decide (x = 0%Qc))
  end.

Definition truthyStr (s : string) : bool :=
  match s with
  | EmptyString => false
  | String _ _ => true
  end.

Definition truthyOptStr (o : option string) : bool :=
  match o with
  | None => false
  | Some s => truthyStr s
  end.

Definition truthyOptNum (o : option number) : bool :=
  match o with
  | None => false
  | Some n => truthy n
  end.

(** [a || b] on numbers and on optional strings. *)
Definition orNum (a b : number) : number := if truthy a then a else b.

Definition orStr (o : option string) (d : string) : string :=
  match o with
  | Some s => if truthyStr s then s else d
  | None => d
  end.

(** *** Strings

    A string is kept as the bytes of its UTF-8 encoding, so that a side or
    an address with characters outside ASCII is a string of the model too. *)

Definition upperAscii (c : ascii) : ascii :=
  let n := nat_of_ascii c in
  if (97 <=? n)%nat && (n <=? 122)%nat then ascii_of_nat (n - 32) else c.

Definition lowerAscii (c : ascii) : ascii :=
  let n := nat_of_ascii c in
  if (65 <=? n)%nat && (n <=? 90)%nat then ascii_of_nat (n + 32) else c.

Fixpoint mapString (f : ascii -> ascii) (s : string) : string :=
  match s with
  | EmptyString => EmptyString
  | String c r => String (f c) (mapString f r)
  end.

(** A string given by the codes of its bytes. *)
Definition bytes (l : list nat) : string :=
  fold_right (fun n r => String (ascii_of_nat n) r) EmptyString l.

(** The characters outside ASCII whose upper case holds an ASCII character,
    from UnicodeData and SpecialCasing, by the bytes of their encoding: the
    character and the bytes of its upper case.  With two bytes: sharp s
    (U+00DF), dotless i (U+0131), U+0149, long s (U+017F), U+01F0. *)
Definition upperOfTwo (c1 c2 : ascii) : option string :=
  match nat_of_ascii c1, nat_of_ascii c2 with
  | 195, 159 => Some "SS"
  | 196, 177 => Some "I"
  | 197, 137 => Some (bytes [202; 188; 78])
  | 197, 191 => Some "S"
  | 199, 176 => Some (bytes [74; 204; 140])
  | _, _ => None
  end%nat.

(** With three bytes: U+1E96 to U+1E9A and the ligatures U+FB00 to U+FB06. *)
Definition upperOfThree (c1 c2 c3 : ascii) : option string :=
  match nat_of_ascii c1, nat_of_ascii c2, nat_of_ascii c3 with
  | 225, 186, 150 => Some (bytes [72; 204; 177])
  | 225, 186, 151 => Some (bytes [84; 204; 136])
  | 225, 186, 152 => Some (bytes [87; 204; 138])
  | 225, 186, 153 => Some (bytes [89; 204; 138])
  | 225, 186, 154 => Some (bytes [65; 202; 190])
  | 239, 172, 128 => Some "FF"
  | 239, 172, 129 => Some "FI"
  | 239, 172, 130 => Some "FL"
  | 239, 172, 131 => Some "FFI"
  | 239, 172, 132 => Some "FFL"
  | 239, 172, 133 => Some "ST"
  | 239, 172, 134 => Some "ST"
  | _, _, _ => None
  end%nat.

(** [String.prototype.toUpperCase].  It is exact on ASCII and on every
    character whose upper case holds an ASCII character; any other character
    is copied, and its upper case in JavaScript holds no ASCII character
    either, so a comparison of the result with an ASCII string is the
    comparison JavaScript makes. *)
Fixpoint toUpperCase (s : string) : string :=
  match s with
  | EmptyString => EmptyString
  | String c1 r1 =>
      match r1 with
      | String c2 r2 =>
          match upperOfTwo c1 c2 with
          | Some u => u ++ toUpperCase r2
          | None =>
              match r2 with
              | String c3 r3 =>
                  match upperOfThree c1 c2 c3 with
                  | Some u => u ++ toUpperCase r3
                  | None => String (upperAscii c1) (toUpperCase r1)
                  end
              | EmptyString => String (upperAscii c1) (toUpperCase r1)
              end
          end
      | EmptyString => String (upperAscii c1) EmptyString
      end
  end.

(** The characters outside ASCII whose lower case holds an ASCII character:
    capital I with dot (U+0130) and the Kelvin sign (U+212A). *)
Definition lowerOfTwo (c1 c2 : ascii) : option string :=
  match nat_of_ascii c1, nat_of_ascii c2 with
  | 196, 176 => Some (bytes [105; 204; 135])
  | _, _ => None
  end%nat.

Definition lowerOfThree (c1 c2 c3 : ascii) : option string :=
  match nat_of_ascii c1, nat_of_ascii c2, nat_of_ascii c3 with
  | 226, 132, 170 => Some "k"
  | _, _, _ => None
  end%nat.

(** [String.prototype.toLowerCase], exact in the same sense. *)
Fixpoint toLowerCase (s : string) : string :=
  match s with
  | EmptyString => EmptyString
  | String c1 r1 =>
      match r1 with
      | String c2 r2 =>
          match lowerOfTwo c1 c2 with
          | Some u => u ++ toLowerCase r2
          | None =>
              match r2 with
              | String c3 r3 =>
                  match lowerOfThree c1 c2 c3 with
                  | Some u => u ++ toLowerCase r3
                  | None => String (lowerAscii c1) (toLowerCase r1)
                  end
              | EmptyString => String (lowerAscii c1) (toLowerCase r1)
              end
          end
      | EmptyString => String (lowerAscii c1) EmptyString
      end
  end.

(** [String.prototype.includes]. *)
Fixpoint includes (hay needle : string) : bool :=
  String.prefix needle hay ||
  match hay with
  | EmptyString => false
  | String _ r => includes r needle
  end.

(** *** [parseFloat] and [parseInt] *)

Definition digitOf (c : ascii) : option N :=
  let n := N_of_ascii c in
  if (48 <=? n)%N && (n <=? 57)%N then Some (n - 48)%N else None.

Definition isWhite (c : ascii) : bool :=
  let n := nat_of_ascii c in
  (n =? 32)%nat || ((9 <=? n)%nat && (n <=? 13)%nat).

(** The white space outside ASCII: the no-break space (U+00A0), by its two
    bytes, and with three bytes U+1680, U+2000 to U+200A, the line and
    paragraph separators (U+2028, U+2029), U+202F, U+205F, U+3000 and the
    byte order mark (U+FEFF). *)
Definition isWhiteTwo (c1 c2 : ascii) : bool :=
  (nat_of_ascii c1 =? 194)%nat && (nat_of_ascii c2 =? 160)%nat.

Definition isWhiteThree (c1 c2 c3 : ascii) : bool :=
  let n1 := nat_of_ascii c1 in
  let n2 := nat_of_ascii c2 in
  let n3 := nat_of_ascii c3 in
  ((n1 =? 225) && (n2 =? 154) && (n3 =? 128))%nat
  || ((n1 =? 226) && (n2 =? 128)
      && (((128 <=? n3) && (n3 <=? 138)) || (n3 =? 168) || (n3 =? 169) || (n3 =? 175)))%nat
  || ((n1 =? 226) && (n2 =? 129) && (n3 =? 159))%nat
  || ((n1 =? 227) && (n2 =? 128) && (n3 =? 128))%nat
  || ((n1 =? 239) && (n2 =? 187) && (n3 =? 191))%nat.

Fixpoint skipWhite (s : string) : string :=
  match s with
  | String c1 r1 =>
      if isWhite c1 then skipWhite r1
      else
        match r1 with
        | String c2 r2 =>
            if isWhiteTwo c1 c2 then skipWhite r2
            else
              match r2 with
              | String c3 r3 => if isWhiteThree c1 c2 c3 then skipWhite r3 else s
              | EmptyString => s
              end
        | EmptyString => s
        end
  | EmptyString => s
  end.

(** Reads a maximal run of decimal digits: its value, its length, the rest. *)
Fixpoint readDigits (s : string) (acc : N) (len : nat) : N * nat * string :=
  match s with
  | String c r =>
      match digitOf c with
      | Some d => readDigits r (10 * acc + d)%N (S len)
      | None => (acc, len, s)
      end
  | EmptyString => (acc, len, s)
  end.

Definition readSign (s : string) : bool * string :=
  match s with
  | String "-" r => (true, r)
  | String "+" r => (false, r)
  | _ => (false, s)
  end.

Definition ofN (n : N) : Qc := Q2Qc (inject_Z (Z.of_N n)).

Definition pow10 (e : Z) : Qc :=
  match e with
  | Z0 => 1%Qc
  | Zpos p => Qcpower (ofN 10) (Pos.to_nat p)
  | Zneg p => (/ Qcpower (ofN 10) (Pos.to_nat p))%Qc
  end.

Definition readExponent (s : string) : Z :=
  match s with
  | String c r =>
      if (nat_of_ascii c =? 101)%nat || (nat_of_ascii c =? 69)%nat then
        let '(neg, r1) := readSign r in
        let '(v, len, _) := readDigits r1 0%N 0%nat in
        match len with
        | O => 0%Z
        | S _ => if neg : bool then (- Z.of_N v)%Z else Z.of_N v
        end
      else 0%Z
  | EmptyString => 0%Z
  end.

(** [parseFloat]: leading white space, an optional sign, a decimal literal
    with optional fraction and exponent; what follows is ignored; no digit at
    all gives NaN. *)
Definition parseFloat (s : string) : number :=
  let '(neg, s0) := readSign (skipWhite s) in
  let '(ip, ni, s1) := readDigits s0 0%N 0%nat in
  let '(fp, nf, s2) :=
    match s1 with
    | String "." r => readDigits r 0%N 0%nat
    | _ => (0%N, 0%nat, s1)
    end in
  match (ni + nf)%nat with
  | O => NaN
  | S _ =>
      let m := ((ofN ip + ofN fp * pow10 (- Z.of_nat nf)) * pow10 (readExponent s2))%Qc in
      Num (if neg : bool then (- m)%Qc else m)
  end.

(** [parseInt(s, 10)]. *)
Definition parseInt (s : string) : number :=
  let '(neg, s0) := readSign (skipWhite s) in
  let '(v, len, _) := readDigits s0 0%N 0%nat in
  match len with
  | O => NaN
  | S _ => ofZ (if neg : bool then (- Z.of_N v)%Z else Z.of_N v)
  end.

End Js.

Import Js.

(** ** Data model *)

(** [Side] and [OrderType] of the exchange client; [CopyTradeOptions] admits
    the two market order types only. *)
Inductive Side := BUY | SELL.
Inductive OrderType := FOK | FAK.

(** [TradePayload] ([src/utils/types.ts]), with the fields the program reads. *)
Record TradePayload := {
  proxyWallet : option string;
  conditionId : string;
  asset : string;
  side : string;
  price : number;
  size : number;
  outcome : string;
  timestamp : number;
  transactionHash : string;
  title : option string;
  slug : option string;
}.

Record CopyTradeOptions := {
  trade : TradePayload;
  sizeMultiplier : option number;
  maxAmount : option number;
  orderType : option OrderType;
  tickSize : option string;
  negRisk : option bool;
  feeRateBps : option number;
}.

Record UserMarketOrder := {
  tokenID : string;
  orderSide : Side;
  amount : number;
  orderPrice : option number;
  moOrderType : option OrderType;
}.

Record CreateOrderOptions := {
  optTickSize : string;
  optNegRisk : bool;
}.

Record CopyTradeResult := {
  success : bool;
  orderID : option string;
  error : option string;
  transactionHashes : option (list string);
  marketOrder : option UserMarketOrder;
}.

(** Response of [createAndPostMarketOrder]. *)
Record OrderResponse := {
  status : option string;
  respOrderID : option string;
  makingAmount : option string;
  takingAmount : option string;
  transactionsHashes : option (list string);
}.

(** Result of [validateBuyOrderBalance]. *)
Record BalanceCheck := {
  valid : bool;
  required : number;
  available : number;
}.

(** Result of [autoRedeemResolvedMarkets]. *)
Record RedemptionResult := {
  total : nat;
  resolved : nat;
  redeemed : nat;
  failed : nat;
}.

Definition failure (msg : string) : CopyTradeResult :=
  {| success := false; orderID := None; error := Some msg;
     transactionHashes := None; marketOrder := None |}.

Definition succeeded (r : OrderResponse) (mo : UserMarketOrder) : CopyTradeResult :=
  {| success := true; orderID := respOrderID r; error := None;
     transactionHashes := transactionsHashes r; marketOrder := Some mo |}.

Definition withAmount (mo : UserMarketOrder) (a : number) : UserMarketOrder :=
  {| tokenID := tokenID mo; orderSide := orderSide mo; amount := a;
     orderPrice := orderPrice mo; moOrderType := moOrderType mo |}.

(** ** Holdings ledger *)

Module Holdings.

(** Modelled from the spec: [src/utils/holdings.ts] ([getHoldings],
    [addHoldings], [removeHoldings]) is not among the sources.  The persisted
    document maps market identifier to token identifier to quantity;
    [get] is 0 for an absent key, [add] increments, [remove] decrements and
    clamps at 0. *)
Abbreviation Ledger := (gmap string (gmap string number)).

Definition tokensOf (l : Ledger) (marketId : string) : gmap string number :=
  default ∅ (l !! marketId).

Definition getHoldings (l : Ledger) (marketId tokenId : string) : number :=
  default zero (tokensOf l marketId !! tokenId).

Definition setHoldings (l : Ledger) (marketId tokenId : string) (q : number) : Ledger :=
  <[marketId := <[tokenId := q]> (tokensOf l marketId)]> l.

Definition addHoldings (l : Ledger) (marketId tokenId : string) (a : number) : Ledger :=
  setHoldings l marketId tokenId (add (getHoldings l marketId tokenId) a).

Definition removeHoldings (l : Ledger) (marketId tokenId : string) (a : number) : Ledger :=
  match tokensOf l marketId !! tokenId with
  | None => l
  | Some q => setHoldings l marketId tokenId (max zero (sub q a))
  end.

End Holdings.

Import Holdings.

(** ** Effects: collaborators, trace, log *)

Inductive completion (A : Type) :=
| Ret (a : A)
| Throw (msg : string).
Arguments Ret {A} a.
Arguments Throw {A} msg.

Inductive Level := Info | Warning | Error | Success.

(** A log line, one per call of the logger: its level and the fixed text of
    its template (interpolated values and pictographs are left out; a ruled
    line is written [rule]). *)
Definition LogEntry : Type := Level * string.

Definition rule : string := "=====".

(** The calls issued to collaborators, in program order.  [CallCopyTrade]
    marks the invocation of [orderBuilder.copyTrade] by [onMessage]. *)
Inductive Call :=
| CallCopyTrade (o : CopyTradeOptions)
| CallCreateAndPostMarketOrder (mo : UserMarketOrder) (oo : CreateOrderOptions) (ot : OrderType)
| CallUpdateBalanceAllowance
| CallDisplayWalletBalance
| CallValidateBuyOrderBalance (required : number)
| CallApproveTokensAfterBuy
| CallAutoRedeemResolvedMarkets (maxRetries : nat)
| CallCreateCredential
| CallMcpServerRip
| CallGetClobClient
| CallApproveUSDCAllowance
| CallConnect.

(** The collaborators of the order builder and of [main]: the exchange
    client, the balance and allowance helpers and the order conversion
    helper.  [G] is the state of the outside world; a call returns or throws.
    [createAndPostMarketOrder] may return [null] ([None]). *)
Class Collaborators (G : Type) := {
  createAndPostMarketOrder :
    UserMarketOrder -> CreateOrderOptions -> OrderType -> G -> completion (option OrderResponse) * G;
  updateBalanceAllowance : G -> completion unit * G;
  displayWalletBalance : G -> completion unit * G;
  validateBuyOrderBalance : number -> G -> completion BalanceCheck * G;
  approveTokensAfterBuy : G -> completion unit * G;
  tradeToMarketOrder : CopyTradeOptions -> completion UserMarketOrder;
  createCredential : G -> bool * G;
  mcpServerRip : G -> completion unit * G;
  getClobClient : G -> completion unit * G;
  approveUSDCAllowance : G -> completion unit * G;
  connect : G -> completion unit * G;
  autoRedeemResolvedMarkets : nat -> Ledger -> G -> completion RedemptionResult * (Ledger * G);
  (** [String(n)], the message of the TypeError raised by reading a property
      of [null], and the message of the RangeError raised by [toISOString]
      on an invalid date. *)
  showNumber : number -> string;
  nullPropertyMessage : string -> string;
  invalidTimeMessage : string;
}.

(** The mutable state: the persisted ledger, the outside world, the trace of
    calls, the log, and the two pieces of state owned by [main]: the variable
    [isCopyTradingPaused] and the periods (ms) passed to [setInterval]. *)
Record World (G : Type) := {
  ledger : Ledger;
  outside : G;
  calls : list Call;
  logs : list LogEntry;
  isCopyTradingPaused : bool;
  intervals : list number;
}.
Arguments ledger {G} _.
Arguments isCopyTradingPaused {G} _.
Arguments intervals {G} _.
Arguments outside {G} _.
Arguments calls {G} _.
Arguments logs {G} _.

(** State and exception monad over the world. *)
Definition M (G A : Type) : Type := World G -> completion A * World G.

Definition ret {G A} (a : A) : M G A := fun w => (Ret a, w).
Definition throw {G A} (msg : string) : M G A := fun w => (Throw msg, w).

Definition bind {G A B} (m : M G A) (k : A -> M G B) : M G B :=
  fun w =>
    match m w with
    | (Ret a, w') => k a w'
    | (Throw e, w') => (Throw e, w')
    end.

(** [try m catch (e) h], where [e] is bound to the error message. *)
Definition tryCatch {G A} (m : M G A) (h : string -> M G A) : M G A :=
  fun w =>
    match m w with
    | (Ret a, w') => (Ret a, w')
    | (Throw e, w') => h e w'
    end.

#[global] Instance M_ret {G} : MRet (M G) := fun A => @ret G A.
#[global] Instance M_bind {G} : MBind (M G) := fun A B k m => @bind G A B m k.

Definition modify {G} (f : World G -> World G) : M G unit :=
  fun w => (Ret tt, f w).

Definition withLedger {G} (l : Ledger) (w : World G) : World G :=
  {| ledger := l; outside := outside w; calls := calls w; logs := logs w;
     isCopyTradingPaused := isCopyTradingPaused w; intervals := intervals w |}.

Definition withOutside {G} (g : G) (w : World G) : World G :=
  {| ledger := ledger w; outside := g; calls := calls w; logs := logs w;
     isCopyTradingPaused := isCopyTradingPaused w; intervals := intervals w |}.

Definition withCall {G} (c : Call) (w : World G) : World G :=
  {| ledger := ledger w; outside := outside w; calls := calls w ++ [c]; logs := logs w;
     isCopyTradingPaused := isCopyTradingPaused w; intervals := intervals w |}.

Definition withLog {G} (e : LogEntry) (w : World G) : World G :=
  {| ledger := ledger w; outside := outside w; calls := calls w; logs := logs w ++ [e];
     isCopyTradingPaused := isCopyTradingPaused w; intervals := intervals w |}.

Definition withPaused {G} (b : bool) (w : World G) : World G :=
  {| ledger := ledger w; outside := outside w; calls := calls w; logs := logs w;
     isCopyTradingPaused := b; intervals := intervals w |}.

Definition withInterval {G} (ms : number) (w : World G) : World G :=
  {| ledger := ledger w; outside := outside w; calls := calls w; logs := logs w;
     isCopyTradingPaused := isCopyTradingPaused w; intervals := intervals w ++ [ms] |}.

Definition logAt {G} (lv : Level) (text : string) : M G unit :=
  modify (withLog (lv, text)).

Definition record {G} (c : Call) : M G unit :=
  modify (withCall c).

(** Runs a collaborator on the outside world, after recording the call. *)
Definition perform {G A} (c : Call) (f : G -> completion A * G) : M G A :=
  fun w =>
    let (r, g') := f (outside w) in
    (r, withOutside g' (withCall c w)).

Definition readWorld {G A} (f : World G -> A) : M G A :=
  fun w => (Ret (f w), w).

Definition writeLedger {G} (f : Ledger -> Ledger) : M G unit :=
  modify (fun w => withLedger (f (ledger w)) w).

(** [try m finally f]. *)
Definition tryFinally {G A} (m : M G A) (f : M G unit) : M G A :=
  fun w =>
    let (r, w') := m w in
    match f w' with
    | (Ret _, w'') => (r, w'')
    | (Throw e, w'') => (Throw e, w'')
    end.

Definition when_ {G} (b : bool) (m : M G unit) : M G unit :=
  if b then m else ret tt.

(** Modelled from the spec: [getDefaultOrderOptions] of
    [src/order-builder/helpers.ts] is not among the sources; it packs the
    tick size and the risk mode. *)
Definition getDefaultOrderOptions (tickSize : string) (negRisk : bool) : CreateOrderOptions :=
  {| optTickSize := tickSize; optNegRisk := negRisk |}.

(** ** Order builder ([TradeOrderBuilder]) *)

Section OrderBuilder.
Context {G : Type} `{Collaborators G}.

(** Reading a property of the response; the response may be [null]. *)
Definition property {A} (response : option OrderResponse) (name : string)
    (f : OrderResponse -> A) : M G A :=
  match response with
  | Some r => ret (f r)
  | None => throw (nullPropertyMessage name)
  end.

(** [!response || (response.status && response.status !== "FILLED" &&
    response.status !== "PARTIALLY_FILLED")]. *)
Definition mayNotHaveSucceeded (response : option OrderResponse) : bool :=
  match response with
  | None => true
  | Some r =>
      truthyOptStr (status r)
      && bool_decide (status r ≠ Some "FILLED")
      && bool_decide (status r ≠ Some "PARTIALLY_FILLED")
  end.

Definition isSell (t : TradePayload) : bool :=
  bool_decide (toUpperCase (side t) = "SELL").

(** The SELL branch of [copyTrade]. *)
Definition copyTradeSell (marketId tokenId tickSize : string) (negRisk : bool)
    (orderType : OrderType) : M G CopyTradeResult :=
  holdingsAmount ← readWorld (fun w => getHoldings (ledger w) marketId tokenId);
  if le holdingsAmount zero then
    logAt Warning "No holdings found for token. Skipping SELL order.";;
    ret (failure "No holdings available to sell")
  else
    let sellAmount := holdingsAmount in
    let marketOrder :=
      {| tokenID := tokenId; orderSide := SELL; amount := sellAmount;
         orderPrice := None; moOrderType := Some orderType |} in
    let orderOptions := getDefaultOrderOptions tickSize negRisk in
    logAt Info "Placing SELL market order";;
    response ← perform (CallCreateAndPostMarketOrder marketOrder orderOptions orderType)
                 (createAndPostMarketOrder marketOrder orderOptions orderType);
    when_ (mayNotHaveSucceeded response)
      (logAt Warning "Order may not have been fully successful.");;
    reported ← property response "makingAmount" makingAmount;
    let tokensSold :=
      if truthyOptStr reported then parseFloat (default "" reported) else sellAmount in
    (if gt tokensSold zero then
       writeLedger (fun l => removeHoldings l marketId tokenId tokensSold);;
       logAt Info "Removed tokens from holdings"
     else
       logAt Warning "No tokens were sold - not removing from holdings");;
    logAt Success "SELL order executed!";;
    r ← property response "orderID" id;
    ret (succeeded r marketOrder).

(** The end of the BUY branch, from the order options on: the order is
    submitted and the ledger reconciled.  [marketOrder] carries the amount
    the balance validation left in it. *)
Definition copyTradeBuySubmit (options : CopyTradeOptions) (marketId tokenId tickSize : string)
    (negRisk : bool) (orderType : OrderType) (marketOrder : UserMarketOrder)
    : M G CopyTradeResult :=
  let trade := trade options in
  let orderOptions := getDefaultOrderOptions tickSize negRisk in
  logAt Info "Placing market order";;
  response ← perform (CallCreateAndPostMarketOrder marketOrder orderOptions orderType)
               (createAndPostMarketOrder marketOrder orderOptions orderType);
  when_ (mayNotHaveSucceeded response)
    (logAt Warning "Order may not have been fully successful.");;
  reported ← property response "takingAmount" takingAmount;
  let tokensReceived :=
    if truthyOptStr reported then parseFloat (default "" reported) else zero in
  (if gt tokensReceived zero then
     writeLedger (fun l => addHoldings l marketId tokenId tokensReceived);;
     logAt Info "Added tokens to holdings"
   else
     let estimatedTokens := div (amount marketOrder) (orNum (price trade) one) in
     if gt estimatedTokens zero then
       writeLedger (fun l => addHoldings l marketId tokenId estimatedTokens);;
       logAt Warning "Using estimated token amount (actual amount not in response)"
     else
       logAt Warning "No tokens received and cannot estimate - not adding to holdings");;
  tryCatch
    (perform CallApproveTokensAfterBuy approveTokensAfterBuy)
    (fun _ => logAt Warning "Failed to approve tokens after buy");;
  logAt Success "BUY order executed!";;
  r ← property response "orderID" id;
  ret (succeeded r marketOrder).

(** The rest of the [try] block of [copyTrade]: BUY orders. *)
Definition copyTradeBuy (options : CopyTradeOptions) (marketId tokenId tickSize : string)
    (negRisk : bool) (orderType : OrderType) : M G CopyTradeResult :=
  logAt Info "Building order to copy trade";;
  marketOrder ← (fun w => (tradeToMarketOrder options, w));
  tryCatch
    (perform CallUpdateBalanceAllowance updateBalanceAllowance)
    (fun _ => logAt Warning "Failed to update balance allowance");;
  perform CallDisplayWalletBalance displayWalletBalance;;
  balanceCheck ← perform (CallValidateBuyOrderBalance (amount marketOrder))
                   (validateBuyOrderBalance (amount marketOrder));
  if negb (valid balanceCheck) then
    logAt Warning "Insufficient USDC balance for BUY order. Adjusting order amount to available balance.";;
    if le (available balanceCheck) zero then
      ret (failure ("Insufficient USDC balance. Available: "
                    ++ showNumber (available balanceCheck)))
    else
      let marketOrder := withAmount marketOrder (available balanceCheck) in
      logAt Info "Adjusted order amount to available balance";;
      copyTradeBuySubmit options marketId tokenId tickSize negRisk orderType marketOrder
  else
    copyTradeBuySubmit options marketId tokenId tickSize negRisk orderType marketOrder.

(** The [catch] block of [copyTrade]. *)
Definition copyTradeCatch (errorMessage : string) : M G CopyTradeResult :=
  when_ (includes errorMessage "not enough balance" || includes errorMessage "allowance")
    (logAt Error rule;;
     logAt Error "ORDER FAILED: Balance/Allowance Error";;
     logAt Error rule;;
     tryCatch
       (perform CallDisplayWalletBalance displayWalletBalance;;
        logAt Info "Attempting to update balance allowance...";;
        perform CallUpdateBalanceAllowance updateBalanceAllowance)
       (fun _ => logAt Error "Failed to get balance");;
     logAt Error rule);;
  logAt Error "Failed to copy trade";;
  ret (failure errorMessage).

(** The [try] block of [copyTrade]. *)
Definition copyTradeTry (options : CopyTradeOptions) : M G CopyTradeResult :=
  let tickSize := default "0.01" (tickSize options) in
  let negRisk := default false (negRisk options) in
  let orderType := default FAK (orderType options) in
  let marketId := conditionId (trade options) in
  let tokenId := asset (trade options) in
  if isSell (trade options) then
    copyTradeSell marketId tokenId tickSize negRisk orderType
  else
    copyTradeBuy options marketId tokenId tickSize negRisk orderType.

Definition copyTrade (options : CopyTradeOptions) : M G CopyTradeResult :=
  tryCatch (copyTradeTry options) copyTradeCatch.

End OrderBuilder.

(** ** The bot ([src/index.ts]) *)

(** The environment variables read by [main]. *)
Record Env := {
  TARGET_WALLET : option string;
  SIZE_MULTIPLIER : option string;
  MAX_ORDER_AMOUNT : option string;
  ORDER_TYPE : option string;
  TICK_SIZE : option string;
  NEG_RISK : option string;
  ENABLE_COPY_TRADING : option string;
  REDEEM_DURATION : option string;
}.

(** The constants bound by [main] and captured by its callbacks;
    [orderBuilder] tells whether the builder is non-null. *)
Record Bot := {
  targetWalletAddress : string;
  botSizeMultiplier : number;
  botMaxAmount : option number;
  botOrderType : OrderType;
  botTickSize : string;
  botNegRisk : bool;
  enableCopyTrading : bool;
  redeemDurationMinutes : option number;
  orderBuilder : bool;
}.

Record Message := {
  topic : string;
  type : string;
  payload : TradePayload;
}.

(** Largest time value of a [Date], in milliseconds. *)
Definition maxTimeValue : number := ofZ 8640000000000000.

(** [new Date(ms).toISOString()] throws a RangeError on an invalid date. *)
Definition validTime (ms : number) : bool :=
  le (ofZ (-8640000000000000)) ms && le ms maxTimeValue.

Section Index.
Context {G : Type} `{Collaborators G}.

Definition toISOString (ms : number) : M G unit :=
  if validTime ms then ret tt else throw invalidTimeMessage.

Definition fromTarget (b : Bot) (p : TradePayload) : bool :=
  bool_decide (toLowerCase <$> proxyWallet p = Some (toLowerCase (targetWalletAddress b))).

Definition optionsFor (b : Bot) (p : TradePayload) : CopyTradeOptions :=
  {| trade := p;
     sizeMultiplier := Some (botSizeMultiplier b);
     maxAmount := botMaxAmount b;
     orderType := Some (botOrderType b);
     tickSize := Some (botTickSize b);
     negRisk := Some (botNegRisk b);
     feeRateBps := None |}.

Definition onMessage (b : Bot) (message : Message) : M G unit :=
  let payload := payload message in
  if bool_decide (topic message ≠ "activity") || bool_decide (type message ≠ "trades") then
    ret tt
  else if fromTarget b payload then
    logAt Warning "Trade detected!";;
    toISOString (mul (timestamp payload) (ofZ 1000));;
    logAt Info "Transaction, Outcome, Timestamp";;
    paused ← readWorld isCopyTradingPaused;
    if orderBuilder b && enableCopyTrading b && negb paused then
      tryCatch
        (logAt Info "Copying trade with multiplier...";;
         record (CallCopyTrade (optionsFor b payload));;
         result ← copyTrade (optionsFor b payload);
         if success result then
           logAt Success "Trade copied successfully!";;
           when_ (bool_decide (0 < length (default [] (transactionHashes result)))%nat)
             (logAt Info "Transactions")
         else
           logAt Error "Failed to copy trade")
        (fun _ => logAt Error "Error copying trade")
    else if enableCopyTrading b && paused then
      logAt Info "Copy trading is paused during redemption - trade not copied"
    else if enableCopyTrading b then
      logAt Warning "Order builder not available - trade not copied"
    else ret tt
  else ret tt.

(** [performRedemption], in the three parts its [await] and its [finally]
    cut it into. *)
Definition redemptionBegin : M G unit :=
  logAt Info rule;;
  logAt Info "STARTING AUTOMATIC REDEMPTION";;
  logAt Info rule;;
  modify (withPaused true);;
  logAt Info "Copy trading PAUSED";;
  logAt Info "Running redemption from token-holding.json...".

Definition redemptionSweep : M G unit :=
  redemptionResult ←
    (fun w =>
       let '(r, (l, g)) := autoRedeemResolvedMarkets 3 (ledger w) (outside w) in
       (r, withLedger l (withOutside g (withCall (CallAutoRedeemResolvedMarkets 3) w))));
  logAt Info "Redemption Summary:";;
  logAt Info "Total markets checked";;
  logAt Info "Resolved markets";;
  logAt Info "Successfully redeemed";;
  logAt Info "Failed";;
  when_ (bool_decide (0 < redeemed redemptionResult)%nat)
    (logAt Success "Successfully redeemed market(s)!");;
  when_ (bool_decide (0 < failed redemptionResult)%nat)
    (logAt Warning "market(s) failed to redeem");;
  logAt Info rule.

Definition redemptionCatch (_ : string) : M G unit :=
  logAt Error "Error during automatic redemption".

Definition redemptionFinally : M G unit :=
  modify (withPaused false);;
  logAt Info "Copy trading RESUMED";;
  logAt Info rule.

Definition performRedemption : M G unit :=
  tryFinally (tryCatch (redemptionBegin;; redemptionSweep) redemptionCatch) redemptionFinally.

(** What remains of [performRedemption] once the sweep is under way. *)
Definition redemptionResume : M G unit :=
  tryFinally (tryCatch redemptionSweep redemptionCatch) redemptionFinally.

(** [updateClobBalanceAllowance] ([src/security/allowance.ts]). *)
Definition updateClobBalanceAllowance : M G unit :=
  tryCatch
    (logAt Info "Updating CLOB API balance allowance for USDC...";;
     perform CallUpdateBalanceAllowance updateBalanceAllowance;;
     logAt Success "CLOB API balance allowance updated for USDC")
    (fun e => logAt Error "Failed to update CLOB balance allowance";; throw e).

(** [main]; [None] is [process.exit(1)]. *)
Definition main (env : Env) : M G (option Bot) :=
  logAt Info "Starting the bot...";;
  if negb (truthyOptStr (TARGET_WALLET env)) then
    logAt Error "TARGET_WALLET environment variable is not set";;
    ret None
  else
    let targetWalletAddress := default "" (TARGET_WALLET env) in
    let sizeMultiplier := parseFloat (orStr (SIZE_MULTIPLIER env) "1.0") in
    let maxAmount :=
      if truthyOptStr (MAX_ORDER_AMOUNT env)
      then Some (parseFloat (default "" (MAX_ORDER_AMOUNT env))) else None in
    let orderType :=
      if bool_decide (toUpperCase <$> ORDER_TYPE env = Some "FOK") then FOK else FAK in
    let tickSize := orStr (TICK_SIZE env) "0.01" in
    let negRisk := bool_decide (NEG_RISK env = Some "true") in
    let enableCopyTrading := bool_decide (ENABLE_COPY_TRADING env ≠ Some "false") in
    let redeemDurationMinutes :=
      if truthyOptStr (REDEEM_DURATION env)
      then Some (parseInt (default "" (REDEEM_DURATION env))) else None in
    modify (withPaused false);;
    logAt Info "Configuration:";;
    logAt Info "Target Wallet";;
    logAt Info "Size Multiplier";;
    logAt Info "Max Order Amount";;
    logAt Info "Order Type";;
    logAt Info "Tick Size";;
    logAt Info "Neg Risk";;
    logAt Info "Copy Trading";;
    credential ← perform CallCreateCredential (fun g => let (c, g') := createCredential g in (Ret c, g'));
    when_ credential (logAt Info "Credentials ready");;
    perform CallMcpServerRip mcpServerRip;;
    clobClient ←
      (if enableCopyTrading then
         tryCatch
           (perform CallGetClobClient getClobClient;; ret true)
           (fun _ => logAt Error "Failed to initialize ClobClient";;
                     logAt Warning "Continuing without ClobClient - orders may fail";;
                     ret false)
       else ret false);
    when_ (enableCopyTrading && clobClient)
      (tryCatch
         (logAt Info "Approving USDC allowances to Polymarket contracts...";;
          perform CallApproveUSDCAllowance approveUSDCAllowance;;
          logAt Info "Syncing allowances with CLOB API...";;
          updateClobBalanceAllowance;;
          perform CallDisplayWalletBalance displayWalletBalance)
         (fun _ => logAt Error "Failed to approve USDC allowances";;
                   logAt Warning "Continuing without allowances - orders may fail"));;
    orderBuilder ←
      (if enableCopyTrading && clobClient then
         logAt Success "Order builder initialized";; ret true
       else ret false);
    perform CallConnect connect;;
    logAt Success "Bot started successfully";;
    when_ (truthyOptNum redeemDurationMinutes
           && gt (default NaN redeemDurationMinutes) zero)
      (let redeemIntervalMs := mul (mul (default NaN redeemDurationMinutes) (ofZ 60)) (ofZ 1000) in
       logAt Info "Auto-redemption scheduled";;
       logAt Info "First redemption will occur";;
       modify (withInterval redeemIntervalMs);;
       logAt Info "Next redemption scheduled");;
    ret (Some {| targetWalletAddress := targetWalletAddress;
                 botSizeMultiplier := sizeMultiplier;
                 botMaxAmount := maxAmount;
                 botOrderType := orderType;
                 botTickSize := tickSize;
                 botNegRisk := negRisk;
                 enableCopyTrading := enableCopyTrading;
                 redeemDurationMinutes := redeemDurationMinutes;
                 orderBuilder := orderBuilder |}).

(** A run of the started bot.  The state is the world and the number of
    sweeps under way.  A message is handled; a registered timer fires and
    [performRedemption] runs up to its [await]; a sweep under way runs to
    its end. *)
Inductive step (b : Bot) : World G * nat -> World G * nat -> Prop :=
| step_message (m : Message) (w : World G) (n : nat) :
    step b (w, n) (snd (onMessage b m w), n)
| step_timer (ms : number) (w : World G) (n : nat) :
    ms ∈ intervals w ->
    step b (w, n) (snd (redemptionBegin w), S n)
| step_sweep (w : World G) (n : nat) :
    step b (w, S n) (snd (redemptionResume w), n).

Inductive steps (b : Bot) : World G * nat -> World G * nat -> Prop :=
| steps_refl (s : World G * nat) : steps b s s
| steps_step (s1 s2 s3 : World G * nat) :
    steps b s1 s2 -> step b s2 s3 -> steps b s1 s3.

End Index.

(** ** Redemption sweep *)

Module Redeem.

Inductive Resolution :=
| Unresolved
| Resolved (heldOutcomeWins : bool).

(** The resolution and redemption gateway: the resolution status of a market
    for the tokens held in it, and one redemption attempt. *)
Class Gateway (G : Type) := {
  resolutionStatus : string -> gmap string number -> G -> Resolution * G;
  redeemPositions : string -> G -> completion unit * G;
}.

(** The state of a sweep: the counts so far, the ledger, the outside world
    and the markets of the redemption attempts made, in order. *)
Record Sweep (G : Type) := {
  counts : RedemptionResult;
  sweepLedger : Ledger;
  sweepOutside : G;
  attempts : list string;
}.
Arguments counts {G} _.
Arguments sweepLedger {G} _.
Arguments sweepOutside {G} _.
Arguments attempts {G} _.

Section Sweep.
Context {G : Type} `{Gateway G}.

(** Modelled from the spec: [src/utils/redeem.ts] is not among the sources.
    One redemption, attempted up to [n] times; [true] when an attempt
    succeeded. *)
Fixpoint redeemWithRetry (n : nat) (marketId : string) (g : G) (log : list string)
    : bool * G * list string :=
  match n with
  | O => (false, g, log)
  | S k =>
      match redeemPositions marketId g with
      | (Ret _, g') => (true, g', (log ++ [marketId])%list)
      | (Throw _, g') => redeemWithRetry k marketId g' (log ++ [marketId])%list
      end
  end.

Definition bump (c : RedemptionResult) (dResolved dRedeemed dFailed : nat) : RedemptionResult :=
  {| total := S (total c);
     resolved := resolved c + dResolved;
     redeemed := redeemed c + dRedeemed;
     failed := failed c + dFailed |}.

(** Modelled from the spec: one market of the sweep.  An unresolved market
    counts toward [total] only; a resolved market whose held outcome wins is
    redeemed with retries, and its ledger entries are removed on success. *)
Definition sweepMarket (maxRetries : nat) (st : Sweep G) (entry : string * gmap string number)
    : Sweep G :=
  let '(marketId, tokens) := entry in
  match resolutionStatus marketId tokens (sweepOutside st) with
  | (Unresolved, g) =>
      {| counts := bump (counts st) 0 0 0; sweepLedger := sweepLedger st;
         sweepOutside := g; attempts := attempts st |}
  | (Resolved false, g) =>
      {| counts := bump (counts st) 1 0 0; sweepLedger := sweepLedger st;
         sweepOutside := g; attempts := attempts st |}
  | (Resolved true, g) =>
      match redeemWithRetry maxRetries marketId g (attempts st) with
      | (true, g', log) =>
          {| counts := bump (counts st) 1 1 0;
             sweepLedger := delete marketId (sweepLedger st);
             sweepOutside := g'; attempts := log |}
      | (false, g', log) =>
          {| counts := bump (counts st) 1 0 1; sweepLedger := sweepLedger st;
             sweepOutside := g'; attempts := log |}
      end
  end.

(** Modelled from the spec: the sweep over every market of the ledger. *)
Definition sweep (maxRetries : nat) (l : Ledger) (g : G) : Sweep G :=
  foldl (sweepMarket maxRetries)
    {| counts := {| total := 0; resolved := 0; redeemed := 0; failed := 0 |};
       sweepLedger := l; sweepOutside := g; attempts := [] |}
    (map_to_list l).

Definition autoRedeemResolvedMarkets (maxRetries : nat) (l : Ledger) (g : G)
    : completion RedemptionResult * (Ledger * G) :=
  let st := sweep maxRetries l g in
  (Ret (counts st), (sweepLedger st, sweepOutside st)).

End Sweep.

End Redeem.

(** ** Helpers modelled from the spec, and a scripted outside world *)

Module Scripted.

(** Modelled from the spec: [tradeToMarketOrder] of
    [src/order-builder/helpers.ts] is not among the sources.  The intended
    spend is price times size, scaled by the size multiplier and capped at
    the maximum order amount when one is configured. *)
Definition intendedSpend (o : CopyTradeOptions) : number :=
  let spend :=
    mul (mul (price (trade o)) (size (trade o))) (default one (sizeMultiplier o)) in
  match maxAmount o with
  | Some cap => min spend cap
  | None => spend
  end.

Definition tradeToMarketOrder (o : CopyTradeOptions) : completion UserMarketOrder :=
  Ret {| tokenID := asset (trade o); orderSide := BUY; amount := intendedSpend o;
         orderPrice := None; moOrderType := orderType o |}.

(** Modelled from the spec: [validateBuyOrderBalance] of
    [src/utils/balance.ts] is not among the sources.  The order is valid
    when the available balance covers the required amount. *)
Definition validateBuyOrderBalance (availableBalance requiredAmount : number) : BalanceCheck :=
  {| valid := ge availableBalance requiredAmount;
     required := requiredAmount;
     available := availableBalance |}.

(** The answers of the outside world, fixed in advance. *)
Record Script := {
  postAnswer : completion (option OrderResponse);
  availableBalance : number;
  allowanceAnswer : completion unit;
  displayAnswer : completion unit;
  approveAnswer : completion unit;
  clobClientAnswer : completion unit;
  resolutionOf : string -> Redeem.Resolution;
  redeemAnswer : string -> completion unit;
}.

#[global] Instance redeemGateway : Redeem.Gateway Script := {
  Redeem.resolutionStatus marketId _ g := (resolutionOf g marketId, g);
  Redeem.redeemPositions marketId g := (redeemAnswer g marketId, g);
}.

#[global] Instance collaborators : Collaborators Script := {
  createAndPostMarketOrder _ _ _ g := (postAnswer g, g);
  updateBalanceAllowance g := (allowanceAnswer g, g);
  displayWalletBalance g := (displayAnswer g, g);
  validateBuyOrderBalance requiredAmount g :=
    (Ret (validateBuyOrderBalance (availableBalance g) requiredAmount), g);
  approveTokensAfterBuy g := (approveAnswer g, g);
  tradeToMarketOrder := tradeToMarketOrder;
  createCredential g := (true, g);
  mcpServerRip g := (Ret tt, g);
  getClobClient g := (clobClientAnswer g, g);
  approveUSDCAllowance g := (Ret tt, g);
  connect g := (Ret tt, g);
  autoRedeemResolvedMarkets := Redeem.autoRedeemResolvedMarkets;
  showNumber _ := "";
  nullPropertyMessage name := "Cannot read properties of null (reading '" ++ name ++ "')";
  invalidTimeMessage := "Invalid time value";
}.

Definition response (making taking : option string) : OrderResponse :=
  {| status := Some "FILLED"; respOrderID := Some "0xorder";
     makingAmount := making; takingAmount := taking; transactionsHashes := None |}.

Definition script (answer : completion (option OrderResponse)) (balance : number) : Script :=
  {| postAnswer := answer; availableBalance := balance;
     allowanceAnswer := Ret tt; displayAnswer := Ret tt; approveAnswer := Ret tt;
     clobClientAnswer := Ret tt;
     resolutionOf := fun _ => Redeem.Unresolved; redeemAnswer := fun _ => Ret tt |}.

Definition world (l : Ledger) (g : Script) : World Script :=
  {| ledger := l; outside := g; calls := []; logs := [];
     isCopyTradingPaused := false; intervals := [] |}.

Definition event (sideName : string) (p s : number) : TradePayload :=
  {| proxyWallet := Some "0xAbC"; conditionId := "m"; asset := "t"; side := sideName;
     price := p; size := s; outcome := "Yes"; timestamp := ofZ 1700000000;
     transactionHash := "0xhash"; title := None; slug := None |}.

Definition options (t : TradePayload) : CopyTradeOptions :=
  {| trade := t; sizeMultiplier := None; maxAmount := None; orderType := None;
     tickSize := None; negRisk := None; feeRateBps := None |}.

Definition holding (q : number) : Ledger := {[ "m" := {[ "t" := q ]} ]}.

Definition env (redeemDuration : option string) : Env :=
  {| TARGET_WALLET := Some "0xabc"; SIZE_MULTIPLIER := None; MAX_ORDER_AMOUNT := None;
     ORDER_TYPE := None; TICK_SIZE := None; NEG_RISK := None;
     ENABLE_COPY_TRADING := None; REDEEM_DURATION := redeemDuration |}.

(** An outside world in which [getClobClient] throws. *)
Definition noClient : Script :=
  {| postAnswer := Ret None; availableBalance := ofZ 10;
     allowanceAnswer := Ret tt; displayAnswer := Ret tt; approveAnswer := Ret tt;
     clobClientAnswer := Throw "Credential file not found. Run createCredential() first.";
     resolutionOf := fun _ => Redeem.Unresolved; redeemAnswer := fun _ => Ret tt |}.

(** Three markets: A is resolved and every redemption attempt fails, B is
    resolved and redeems, C is unresolved. *)
Definition threeMarkets : Ledger :=
  {[ "A" := {[ "a" := ofZ 1 ]}; "B" := {[ "b" := ofZ 2 ]}; "C" := {[ "c" := ofZ 3 ]} ]}.

Definition sweepScript : Script :=
  {| postAnswer := Ret None; availableBalance := zero;
     allowanceAnswer := Ret tt; displayAnswer := Ret tt; approveAnswer := Ret tt;
     clobClientAnswer := Ret tt;
     resolutionOf := fun m => if bool_decide (m = "C") then Redeem.Unresolved
                              else Redeem.Resolved true;
     redeemAnswer := fun m => if bool_decide (m = "A") then Throw "transaction reverted"
                              else Ret tt |}.

Definition tradeMessage (t : TradePayload) : Message :=
  {| topic := "activity"; type := "trades"; payload := t |}.

(** A BUY of 8 tokens at 0.5, an intended spend of 4. *)
Definition buyEvent (sideName : string) : TradePayload :=
  event sideName (Num (Q2Qc (1 # 2))) (ofZ 8).

Definition spend : Qc :=
  (Q2Qc (1 # 2) * Q2Qc (inject_Z 8) * 1)%Qc.

Definition buyOrder : UserMarketOrder :=
  {| tokenID := "t"; orderSide := BUY; amount := Num (spend); orderPrice := None;
     moOrderType := None |}.


Definition bot : Bot :=
  {| targetWalletAddress := "0xABC"; botSizeMultiplier := one; botMaxAmount := None;
     botOrderType := FAK; botTickSize := "0.01"; botNegRisk := false;
     enableCopyTrading := true; redeemDurationMinutes := Some (ofZ 60);
     orderBuilder := true |}.

(** The bot [main] starts from [env]. *)
Definition plainBot (minutes : option number) : Bot :=
  {| targetWalletAddress := "0xabc"; botSizeMultiplier := one; botMaxAmount := None;
     botOrderType := FAK; botTickSize := "0.01"; botNegRisk := false;
     enableCopyTrading := true; redeemDurationMinutes := minutes;
     orderBuilder := true |}.

End Scripted.

(** ** Manual placement ([placeMarketBuy], [placeMarketSell]) *)

(** The optional last argument of [placeMarketBuy] and [placeMarketSell]. *)
Record PlaceOptions := {
  placeTickSize : option string;
  placeNegRisk : option bool;
  placeOrderType : option OrderType;
  placePrice : option number;
}.

Section ManualOrders.
Context {G : Type} `{Collaborators G}.

(** [getDefaultOrderOptions] as the two functions call it, with arguments
    that may be [undefined]; [src/order-builder/helpers.ts] is not among the
    sources, so what it makes of an undefined argument is left open. *)
Variable defaultOrderOptions : option string -> option bool -> CreateOrderOptions.

Definition placeMarketBuy (tokenID : string) (amount : number) (options : option PlaceOptions)
    : M G CopyTradeResult :=
  let marketOrder :=
    {| tokenID := tokenID; orderSide := BUY; amount := amount;
       orderPrice := options ≫= placePrice;
       moOrderType := Some (default FAK (options ≫= placeOrderType)) |} in
  let orderOptions :=
    defaultOrderOptions (options ≫= placeTickSize) (options ≫= placeNegRisk) in
  tryCatch
    (let orderType := default FAK (moOrderType marketOrder) in
     response ← perform (CallCreateAndPostMarketOrder marketOrder orderOptions orderType)
                  (createAndPostMarketOrder marketOrder orderOptions orderType);
     r ← property response "orderID" id;
     ret (succeeded r marketOrder))
    (fun errorMessage => ret (failure errorMessage)).

Definition placeMarketSell (tokenID : string) (amount : number) (options : option PlaceOptions)
    : M G CopyTradeResult :=
  let marketOrder :=
    {| tokenID := tokenID; orderSide := SELL; amount := amount;
       orderPrice := options ≫= placePrice;
       moOrderType := Some (default FAK (options ≫= placeOrderType)) |} in
  let orderOptions :=
    defaultOrderOptions (options ≫= placeTickSize) (options ≫= placeNegRisk) in
  tryCatch
    (let orderType := default FAK (moOrderType marketOrder) in
     response ← perform (CallCreateAndPostMarketOrder marketOrder orderOptions orderType)
                  (createAndPostMarketOrder marketOrder orderOptions orderType);
     r ← property response "orderID" id;
     ret (succeeded r marketOrder))
    (fun errorMessage => ret (failure errorMessage)).

End ManualOrders.

(** ** More JavaScript values *)

Module JsMore.

(** [a === b] on numbers: NaN equals nothing. *)
Definition eqNum (a b : number) : bool :=
  match a, b with
  | Num x, Num y => bool_decide (x = y)
  | _, _ => false
  end.

Definition hexDigitOf (c : ascii) : option N :=
  let n := N_of_ascii c in
  if (48 <=? n)%N && (n <=? 57)%N then Some (n - 48)%N
  else if (97 <=? n)%N && (n <=? 102)%N then Some (n - 87)%N
  else if (65 <=? n)%N && (n <=? 70)%N then Some (n - 55)%N
  else None.

Fixpoint readHexDigits (s : string) (acc : N) (len : nat) : N * nat :=
  match s with
  | String c r =>
      match hexDigitOf c with
      | Some d => readHexDigits r (16 * acc + d)%N (S len)
      | None => (acc, len)
      end
  | EmptyString => (acc, len)
  end.

(** [parseInt(s)] without a radix: after white space and a sign, a prefix
    [0x] or [0X] selects base 16, anything else base 10. *)
Definition parseIntAuto (s : string) : number :=
  let '(neg, s0) := readSign (skipWhite s) in
  let signed (v : N) := ofZ (if neg : bool then (- Z.of_N v)%Z else Z.of_N v) in
  match s0 with
  | String "0" (String x r) =>
      if (nat_of_ascii x =? 120)%nat || (nat_of_ascii x =? 88)%nat then
        let '(v, len) := readHexDigits r 0%N 0%nat in
        match len with
        | O => NaN
        | S _ => signed v
        end
      else
        let '(v, _, _) := readDigits s0 0%N 0%nat in signed v
  | _ =>
      let '(v, len, _) := readDigits s0 0%N 0%nat in
      match len with
      | O => NaN
      | S _ => signed v
      end
  end.

(** [s.replace(/c/g, d)] for single characters. *)
Definition replaceAll (c d : ascii) : string -> string :=
  mapString (fun x => if bool_decide (x = c) then d else x).

End JsMore.

(** ** Process environment of the helper modules *)

Module Process.

(** The variables [src/security/allowance.ts], [src/providers/clobclient.ts]
    and [src/security/createCredential.ts] read. *)
Record Vars := {
  PRIVATE_KEY : option string;
  CHAIN_ID : option string;
  RPC_TOKEN : option string;
  CLOB_API_URL : option string;
  NEG_RISK : option string;
}.

(** [parseInt(`${process.env.CHAIN_ID || Chain.POLYGON}`)]; [Chain.POLYGON]
    is 137. *)
Definition chainId (v : Vars) : number :=
  JsMore.parseIntAuto (orStr (CHAIN_ID v) "137").

(** [process.env.CLOB_API_URL || "https://clob.polymarket.com"]. *)
Definition host (v : Vars) : string :=
  orStr (CLOB_API_URL v) "https://clob.polymarket.com".

End Process.

(** ** Token approvals ([src/security/allowance.ts]) *)

Module Allowance.

Import JsMore.

(** [getContractConfig] of the exchange client gives these addresses. *)
Record ContractConfig := {
  exchange : string;
  negRiskAdapter : string;
  negRiskExchange : string;
  collateral : string;
  conditionalTokens : string;
}.

Record GasOptions := {
  gasPrice : Z;
  gasLimit : Z;
}.

(** A wallet bound to a provider. *)
Record Signer := {
  signerKey : string;
  signerRpc : string;
}.

Definition MaxUint256 : Z := 2 ^ 256 - 1.

(** [parseUnits("100", "gwei")]. *)
Definition hundredGwei : Z := 100 * 10 ^ 9.

(** The calls that reach the chain, in program order. *)
Inductive ChainCall :=
| CallGetGasPrice (s : Signer)
| CallAllowance (s : Signer) (token owner spender : string)
| CallApprove (s : Signer) (token spender : string) (amount : Z) (gas : GasOptions)
| CallIsApprovedForAll (s : Signer) (token owner operator : string)
| CallSetApprovalForAll (s : Signer) (token operator : string) (approved : bool) (gas : GasOptions)
| CallWait (hash : string).

(** The chain and the libraries in front of it: [C] is the state of the
    chain; every call returns or throws.  [walletAddress] is
    [new Wallet(privateKey, provider)] followed by [getAddress()]. *)
Class Chain (C : Type) := {
  getContractConfig : number -> completion ContractConfig;
  walletAddress : Signer -> completion string;
  getGasPrice : Signer -> C -> completion Z * C;
  allowance : Signer -> string -> string -> string -> C -> completion Z * C;
  approve : Signer -> string -> string -> Z -> GasOptions -> C -> completion string * C;
  isApprovedForAll : Signer -> string -> string -> string -> C -> completion bool * C;
  setApprovalForAll :
    Signer -> string -> string -> bool -> GasOptions -> C -> completion string * C;
  wait : string -> C -> completion unit * C;
  showChainId : number -> string;
}.

(** The outside world of this module: the chain and the calls sent to it. *)
Record Net (C : Type) := {
  chain : C;
  sent : list ChainCall;
}.
Arguments chain {C} _.
Arguments sent {C} _.

Section Approvals.
Context {C : Type} `{Chain C}.

Definition onChain {A} (c : ChainCall) (f : C -> completion A * C) : M (Net C) A :=
  fun w =>
    let (r, c') := f (chain (outside w)) in
    (r, withOutside {| chain := c'; sent := (sent (outside w) ++ [c])%list |} w).

Definition lift {A} (x : completion A) : M (Net C) A := fun w => (x, w).

(** [getRpcUrl]. *)
Definition getRpcUrl (rpcToken : option string) (chainId : number) : completion string :=
  if eqNum chainId (ofZ 137) then
    if truthyOptStr rpcToken
    then Ret ("https://polygon-mainnet.g.alchemy.com/v2/" ++ default "" rpcToken)
    else Ret "https://polygon-rpc.com"
  else if eqNum chainId (ofZ 80002) then
    if truthyOptStr rpcToken
    then Ret ("https://polygon-amoy.g.alchemy.com/v2/" ++ default "" rpcToken)
    else Ret "https://rpc-amoy.polygon.technology"
  else
    Throw ("Unsupported chain ID: " ++ showChainId chainId
           ++ ". Supported: 137 (Polygon), 80002 (Amoy)").

(** One USDC allowance of [approveUSDCAllowance]: read it, and raise it to
    the maximum unless it is there already. *)
Definition raiseAllowance (s : Signer) (config : ContractConfig) (address spender : string)
    (gasOptions : GasOptions) (already : option string) (setting approved : string)
    : M (Net C) unit :=
  current ← onChain (CallAllowance s (collateral config) address spender)
              (allowance s (collateral config) address spender);
  if negb (bool_decide (current = MaxUint256)) then
    logAt Info setting;;
    tx ← onChain (CallApprove s (collateral config) spender MaxUint256 gasOptions)
           (approve s (collateral config) spender MaxUint256 gasOptions);
    logAt Info "Transaction hash";;
    onChain (CallWait tx) (wait tx);;
    logAt Success approved
  else
    match already with
    | Some text => logAt Info text
    | None => ret tt
    end.

(** One operator approval of the conditional tokens: read it, and grant it
    unless it is granted already. *)
Definition grantOperator (s : Signer) (config : ContractConfig) (address operator : string)
    (gasOptions : GasOptions) (already : option string) (approving approved : string)
    : M (Net C) unit :=
  isApproved ← onChain (CallIsApprovedForAll s (conditionalTokens config) address operator)
                 (isApprovedForAll s (conditionalTokens config) address operator);
  if negb isApproved then
    logAt Info approving;;
    tx ← onChain (CallSetApprovalForAll s (conditionalTokens config) operator true gasOptions)
           (setApprovalForAll s (conditionalTokens config) operator true gasOptions);
    logAt Info "Transaction hash";;
    onChain (CallWait tx) (wait tx);;
    logAt Success approved
  else
    match already with
    | Some text => logAt Info text
    | None => ret tt
    end.

(** The gas options both functions compute: the price of the network plus
    20 %, or 100 gwei when the price cannot be fetched; the limit is
    200000. *)
Definition gasFor (answer : completion Z) : GasOptions :=
  match answer with
  | Ret gasPrice => {| gasPrice := Z.quot (gasPrice * 120) 100; gasLimit := 200000 |}
  | Throw _ => {| gasPrice := hundredGwei; gasLimit := 200000 |}
  end.

(** [approveUSDCAllowance] from its first allowance check on, once the
    wallet, its address and the gas options are known. *)
Definition usdcApprovals (wallet : Signer) (contractConfig : ContractConfig)
    (address : string) (gasOptions : GasOptions) (negRisk : bool) : M (Net C) unit :=
  raiseAllowance wallet contractConfig address (conditionalTokens contractConfig) gasOptions
    (Some "USDC already approved for ConditionalTokens contract (MaxUint256)")
    "Current CTF allowance, setting to MaxUint256..."
    "USDC approved for ConditionalTokens contract";;
  raiseAllowance wallet contractConfig address (exchange contractConfig) gasOptions
    (Some "USDC already approved for Exchange contract (MaxUint256)")
    "Current Exchange allowance, setting to MaxUint256..."
    "USDC approved for Exchange contract";;
  grantOperator wallet contractConfig address (exchange contractConfig) gasOptions
    (Some "ConditionalTokens already approved for Exchange contract")
    "Approving ConditionalTokens for Exchange contract..."
    "ConditionalTokens approved for Exchange contract";;
  when_ negRisk
    (raiseAllowance wallet contractConfig address (negRiskAdapter contractConfig) gasOptions
       None "Current NegRiskAdapter allowance, setting to MaxUint256..."
       "USDC approved for NegRiskAdapter";;
     raiseAllowance wallet contractConfig address (negRiskExchange contractConfig) gasOptions
       None "Current NegRiskExchange allowance, setting to MaxUint256..."
       "USDC approved for NegRiskExchange";;
     grantOperator wallet contractConfig address (negRiskExchange contractConfig) gasOptions
       None "Approving ConditionalTokens for NegRiskExchange..."
       "ConditionalTokens approved for NegRiskExchange";;
     grantOperator wallet contractConfig address (negRiskAdapter contractConfig) gasOptions
       None "Approving ConditionalTokens for NegRiskAdapter..."
       "ConditionalTokens approved for NegRiskAdapter");;
  logAt Success "All allowances approved successfully!".

Definition approveUSDCAllowance (v : Process.Vars) : M (Net C) unit :=
  if negb (truthyOptStr (Process.PRIVATE_KEY v)) then
    throw "PRIVATE_KEY not found in environment"
  else
    let privateKey := default "" (Process.PRIVATE_KEY v) in
    let chainId := Process.chainId v in
    contractConfig ← lift (getContractConfig chainId);
    rpcUrl ← lift (getRpcUrl (Process.RPC_TOKEN v) chainId);
    let wallet := {| signerKey := privateKey; signerRpc := rpcUrl |} in
    address ← lift (walletAddress wallet);
    logAt Info "Approving USDC allowances for address";;
    logAt Info "USDC Contract";;
    logAt Info "ConditionalTokens Contract";;
    logAt Info "Exchange Contract";;
    gasOptions ←
      tryCatch
        (gasPrice ← onChain (CallGetGasPrice wallet) (getGasPrice wallet);
         ret (gasFor (Ret gasPrice)))
        (fun e => logAt Warning "Could not fetch gas price, using fallback";;
                  ret (gasFor (Throw e)));
    usdcApprovals wallet contractConfig address gasOptions
      (bool_decide (Process.NEG_RISK v = Some "true")).

(** [approveTokensAfterBuy] from its approval check on. *)
Definition tokenApprovals (wallet : Signer) (contractConfig : ContractConfig)
    (address : string) (gasOptions : GasOptions) (negRisk : bool) : M (Net C) unit :=
  grantOperator wallet contractConfig address (exchange contractConfig) gasOptions
    None "Approving ConditionalTokens for Exchange (after buy)..."
    "ConditionalTokens approved for Exchange";;
  when_ negRisk
    (grantOperator wallet contractConfig address (negRiskExchange contractConfig) gasOptions
       None "Approving ConditionalTokens for NegRiskExchange (after buy)..."
       "ConditionalTokens approved for NegRiskExchange").

Definition approveTokensAfterBuy (v : Process.Vars) : M (Net C) unit :=
  if negb (truthyOptStr (Process.PRIVATE_KEY v)) then
    throw "PRIVATE_KEY not found in environment"
  else
    let privateKey := default "" (Process.PRIVATE_KEY v) in
    let chainId := Process.chainId v in
    contractConfig ← lift (getContractConfig chainId);
    rpcUrl ← lift (getRpcUrl (Process.RPC_TOKEN v) chainId);
    let wallet := {| signerKey := privateKey; signerRpc := rpcUrl |} in
    address ← lift (walletAddress wallet);
    gasOptions ←
      tryCatch
        (gasPrice ← onChain (CallGetGasPrice wallet) (getGasPrice wallet);
         ret (gasFor (Ret gasPrice)))
        (fun e => ret (gasFor (Throw e)));
    tokenApprovals wallet contractConfig address gasOptions
      (bool_decide (Process.NEG_RISK v = Some "true")).

End Approvals.

End Allowance.

(** ** Exchange client and credentials
       ([src/providers/clobclient.ts], [src/security/createCredential.ts]) *)

Module Clob.

Import JsMore.

Record ApiKeyCreds := {
  key : string;
  secret : string;
  passphrase : string;
}.

(** A [ClobClient] object: the arguments of its constructor, and [clientRef],
    which tells one object from another. *)
Record ClobClient := {
  clientHost : string;
  clientChainId : number;
  clientWallet : string;
  clientCreds : option ApiKeyCreds;
  clientRef : nat;
}.

(** What the two files work on.  [credentialFile] is [None] when
    [src/data/credential.json] does not exist, and else what
    [JSON.parse(readFileSync(...))] makes of it; [dataWritable] tells whether
    [writeFileSync] to that path succeeds; [cachedClient] and [cachedConfig]
    are the module variables of [clobclient.ts]; [allocated] counts the
    clients constructed so far; [network] is the state of the exchange. *)
Record Sys (N : Type) := {
  credentialFile : option (completion ApiKeyCreds);
  dataWritable : bool;
  cachedClient : option ClobClient;
  cachedConfig : option (number * string);
  allocated : nat;
  network : N;
}.
Arguments credentialFile {N} _.
Arguments dataWritable {N} _.
Arguments cachedClient {N} _.
Arguments cachedConfig {N} _.
Arguments allocated {N} _.
Arguments network {N} _.

(** The libraries: [new Wallet(privateKey)], which throws on a malformed
    key, and [createOrDeriveApiKey] of a client. *)
Class Library (N : Type) := {
  newWallet : string -> completion string;
  createOrDeriveApiKey : ClobClient -> N -> completion ApiKeyCreds * N;
}.

Section Client.
Context {N : Type} `{Library N}.

Definition lift {A} (x : completion A) : M (Sys N) A := fun w => (x, w).

Definition update (f : Sys N -> Sys N) : M (Sys N) unit :=
  modify (fun w => withOutside (f (outside w)) w).

(** [new ClobClient(host, chainId, wallet, creds)]. *)
Definition newClobClient (host : string) (chainId : number) (wallet : string)
    (creds : option ApiKeyCreds) : M (Sys N) ClobClient :=
  sys ← readWorld outside;
  update (fun sys =>
            {| credentialFile := credentialFile sys; dataWritable := dataWritable sys;
               cachedClient := cachedClient sys; cachedConfig := cachedConfig sys;
               allocated := S (allocated sys); network := network sys |});;
  ret {| clientHost := host; clientChainId := chainId; clientWallet := wallet;
         clientCreds := creds; clientRef := allocated sys |}.

(** [cachedClient && cachedConfig && cachedConfig.chainId === chainId &&
    cachedConfig.host === host]. *)
Definition cacheHit (sys : Sys N) (chainId : number) (host : string) : option ClobClient :=
  match cachedClient sys, cachedConfig sys with
  | Some client, Some (cachedChainId, cachedHost) =>
      if eqNum cachedChainId chainId && bool_decide (cachedHost = host)
      then Some client else None
  | _, _ => None
  end.

Definition getClobClient (v : Process.Vars) : M (Sys N) ClobClient :=
  sys ← readWorld outside;
  match credentialFile sys with
  | None => throw "Credential file not found. Run createCredential() first."
  | Some parsed =>
      creds ← lift parsed;
      let chainId := Process.chainId v in
      let host := Process.host v in
      match cacheHit sys chainId host with
      | Some client => ret client
      | None =>
          if negb (truthyOptStr (Process.PRIVATE_KEY v)) then
            throw "PRIVATE_KEY not found"
          else
            wallet ← lift (newWallet (default "" (Process.PRIVATE_KEY v)));
            let secretBase64 := replaceAll "_" "/" (replaceAll "-" "+" (secret creds)) in
            let apiKeyCreds :=
              {| key := key creds; secret := secretBase64; passphrase := passphrase creds |} in
            client ← newClobClient host chainId wallet (Some apiKeyCreds);
            update (fun sys =>
                      {| credentialFile := credentialFile sys;
                         dataWritable := dataWritable sys;
                         cachedClient := Some client;
                         cachedConfig := Some (chainId, host);
                         allocated := allocated sys; network := network sys |});;
            ret client
      end
  end.

Definition clearClobClientCache : M (Sys N) unit :=
  update (fun sys =>
            {| credentialFile := credentialFile sys; dataWritable := dataWritable sys;
               cachedClient := None; cachedConfig := None;
               allocated := allocated sys; network := network sys |}).

(** [saveCredential]: the file then parses to the credential written. *)
Definition saveCredential (credential : ApiKeyCreds) : M (Sys N) unit :=
  sys ← readWorld outside;
  if dataWritable sys then
    update (fun sys =>
              {| credentialFile := Some (Ret credential); dataWritable := dataWritable sys;
                 cachedClient := cachedClient sys; cachedConfig := cachedConfig sys;
                 allocated := allocated sys; network := network sys |})
  else throw "ENOENT: no such file or directory".

Definition createCredential (v : Process.Vars) : M (Sys N) (option ApiKeyCreds) :=
  if negb (truthyOptStr (Process.PRIVATE_KEY v)) then
    logAt Error "PRIVATE_KEY not found";;
    ret None
  else
    tryCatch
      (wallet ← lift (newWallet (default "" (Process.PRIVATE_KEY v)));
       let chainId := Process.chainId v in
       let host := Process.host v in
       clobClient ← newClobClient host chainId wallet None;
       credential ←
         (fun w =>
            let (r, n') := createOrDeriveApiKey clobClient (network (outside w)) in
            (r, withOutside
                  {| credentialFile := credentialFile (outside w);
                     dataWritable := dataWritable (outside w);
                     cachedClient := cachedClient (outside w);
                     cachedConfig := cachedConfig (outside w);
                     allocated := allocated (outside w); network := n' |} w));
       saveCredential credential;;
       logAt Success "Credential created successfully";;
       ret (Some credential))
      (fun error => logAt Error ("Error creating credential: " ++ error);; ret None).

End Client.

End Clob.

(** ** Further scripted worlds *)

Module Scenarios.

Import Scripted.

(** An outside world whose best-effort calls throw: the allowance refresh
    and the approval after a buy. *)
Definition flaky (answer : completion (option OrderResponse)) (balance : number) : Script :=
  {| postAnswer := answer; availableBalance := balance;
     allowanceAnswer := Throw "allowance refresh timed out"; displayAnswer := Ret tt;
     approveAnswer := Throw "replacement fee too low";
     clobClientAnswer := Ret tt;
     resolutionOf := fun _ => Redeem.Unresolved; redeemAnswer := fun _ => Ret tt |}.

(** An outside world whose balance display throws. *)
Definition blind (answer : completion (option OrderResponse)) (balance : number) : Script :=
  {| postAnswer := answer; availableBalance := balance;
     allowanceAnswer := Ret tt; displayAnswer := Throw "balance query failed";
     approveAnswer := Ret tt; clobClientAnswer := Ret tt;
     resolutionOf := fun _ => Redeem.Unresolved; redeemAnswer := fun _ => Ret tt |}.

(** [getDefaultOrderOptions] with the defaults of [CopyTradeOptions]. *)
Definition orderOptionsOrDefault (tickSize : option string) (negRisk : option bool)
    : CreateOrderOptions :=
  getDefaultOrderOptions (default "0.01" tickSize) (default false negRisk).

(** A world whose redemption timer is registered and whose flag is clear. *)
Definition ticking : World Script :=
  {| ledger := holding (ofZ 5); outside := script (Ret None) (ofZ 10); calls := [];
     logs := []; isCopyTradingPaused := false; intervals := [ofZ 3600000] |}.

(** An environment without a tracked wallet. *)
Definition noTarget : Env :=
  {| TARGET_WALLET := None; SIZE_MULTIPLIER := None; MAX_ORDER_AMOUNT := None;
     ORDER_TYPE := None; TICK_SIZE := None; NEG_RISK := None;
     ENABLE_COPY_TRADING := None; REDEEM_DURATION := None |}.

(** The variables of the helper modules: a key, a chain, the neg-risk
    switch; the RPC token and the host are left unset. *)
Definition vars (privateKey chainName negRiskName : option string) : Process.Vars :=
  {| Process.PRIVATE_KEY := privateKey; Process.CHAIN_ID := chainName;
     Process.RPC_TOKEN := None; Process.CLOB_API_URL := None;
     Process.NEG_RISK := negRiskName |}.

Definition contracts : Allowance.ContractConfig :=
  {| Allowance.exchange := "0xExchange";
     Allowance.negRiskAdapter := "0xNegRiskAdapter";
     Allowance.negRiskExchange := "0xNegRiskExchange";
     Allowance.collateral := "0xUSDC";
     Allowance.conditionalTokens := "0xConditionalTokens" |}.

(** How a chain identifier prints in a template string. *)
Definition showChain (chainId : number) : string :=
  match chainId with
  | NaN => "NaN"
  | Num q => pretty (Qnum (this q))
  end.

(** [getContractConfig] of the exchange client: it knows Polygon (137) and
    Amoy (80002) and throws for any other chain. *)
Definition contractsOf (chainId : number) : completion Allowance.ContractConfig :=
  if JsMore.eqNum chainId (ofZ 137) || JsMore.eqNum chainId (ofZ 80002)
  then Ret contracts else Throw "Invalid network".

(** A chain on which every allowance and every approval is in place. *)
Definition settled : Allowance.Chain unit :=
  {| Allowance.getContractConfig := contractsOf;
     Allowance.walletAddress := fun _ => Ret "0xWallet";
     Allowance.getGasPrice := fun _ c => (Ret 30000000000%Z, c);
     Allowance.allowance := fun _ _ _ _ c => (Ret Allowance.MaxUint256, c);
     Allowance.approve := fun _ _ _ _ _ c => (Ret "0xtx", c);
     Allowance.isApprovedForAll := fun _ _ _ _ c => (Ret true, c);
     Allowance.setApprovalForAll := fun _ _ _ _ _ c => (Ret "0xtx", c);
     Allowance.wait := fun _ c => (Ret tt, c);
     Allowance.showChainId := showChain |}.

(** A chain that keeps what was granted, as pairs of a token and a spender
    or operator; [price] is what it answers when asked for the gas price. *)
Definition granted (token spender : string) (c : list (string * string)) : bool :=
  bool_decide ((token, spender) ∈ c).

Definition keeping (price : completion Z) : Allowance.Chain (list (string * string)) :=
  {| Allowance.getContractConfig := contractsOf;
     Allowance.walletAddress := fun _ => Ret "0xWallet";
     Allowance.getGasPrice := fun _ c => (price, c);
     Allowance.allowance := fun _ token _ spender c =>
       (Ret (if granted token spender c then Allowance.MaxUint256 else 0%Z), c);
     Allowance.approve := fun _ token spender _ _ c => (Ret "0xtx", (token, spender) :: c);
     Allowance.isApprovedForAll := fun _ token _ operator c =>
       (Ret (granted token operator c), c);
     Allowance.setApprovalForAll := fun _ token operator approved _ c =>
       (Ret "0xtx", if approved then (token, operator) :: c else c);
     Allowance.wait := fun _ c => (Ret tt, c);
     Allowance.showChainId := showChain |}.

(** Its gas price cannot be fetched. *)
Definition fresh : Allowance.Chain (list (string * string)) := keeping (Throw "timeout").

(** Its gas price is 30 gwei. *)
Definition busy : Allowance.Chain (list (string * string)) := keeping (Ret 30000000000%Z).

Definition net {C} (c : C) : World (Allowance.Net C) :=
  {| ledger := ∅; outside := {| Allowance.chain := c; Allowance.sent := [] |};
     calls := []; logs := []; isCopyTradingPaused := false; intervals := [] |}.

(** The credential the exchange derives, with a base64url secret. *)
Definition derived : Clob.ApiKeyCreds :=
  {| Clob.key := "api-key"; Clob.secret := "c2Vj-cmV0_w=="; Clob.passphrase := "pass" |}.

(** Libraries whose wallet wants a key that starts with 0x. *)
Definition library : Clob.Library unit :=
  {| Clob.newWallet := fun privateKey =>
       if String.prefix "0x" privateKey then Ret "0xWallet"
       else Throw "invalid hexlify value";
     Clob.createOrDeriveApiKey := fun _ n => (Ret derived, n) |}.

(** A system with the given credential file and nothing cached. *)
Definition sys (file : option (completion Clob.ApiKeyCreds)) : World (Clob.Sys unit) :=
  {| ledger := ∅;
     outside := {| Clob.credentialFile := file; Clob.dataWritable := true;
                   Clob.cachedClient := None; Clob.cachedConfig := None;
                   Clob.allocated := 0; Clob.network := tt |};
     calls := []; logs := []; isCopyTradingPaused := false; intervals := [] |}.

End Scenarios.

(** ** Vocabulary of the statements *)

(** The figure a response reports in [makingAmount] or [takingAmount]:
    absent when the field is missing or empty, else what [parseFloat] reads. *)
Definition reportedFigure (reported : option string) : option number :=
  if truthyOptStr reported then Some (parseFloat (default "" reported)) else None.

Definition sellOrder (o : CopyTradeOptions) (q : number) : UserMarketOrder :=
  {| tokenID := asset (trade o); orderSide := SELL; amount := q;
     orderPrice := None; moOrderType := Some (default FAK (orderType o)) |}.

Definition orderOptionsOf (o : CopyTradeOptions) : CreateOrderOptions :=
  getDefaultOrderOptions (default "0.01" (tickSize o)) (default false (negRisk o)).

Definition postCall (o : CopyTradeOptions) (mo : UserMarketOrder) : Call :=
  CallCreateAndPostMarketOrder mo (orderOptionsOf o) (default FAK (orderType o)).

(** The tokens the BUY branch credits for a response: the reported
    tokens-received figure when it is positive, else the estimate when that
    is positive, else nothing. *)
Definition creditedTokens (t : TradePayload) (mo : UserMarketOrder) (r : OrderResponse)
    : option number :=
  let tokensReceived := default zero (reportedFigure (takingAmount r)) in
  if gt tokensReceived zero then Some tokensReceived
  else
    let estimatedTokens := div (amount mo) (orNum (price t) one) in
    if gt estimatedTokens zero then Some estimatedTokens else None.

Definition credit (l : Ledger) (marketId tokenId : string) (a : option number) : Ledger :=
  match a with
  | Some x => addHoldings l marketId tokenId x
  | None => l
  end.

(** The order the BUY branch submits once the balance has been checked. *)
Definition clampedOrder (mo : UserMarketOrder) (bc : BalanceCheck) : UserMarketOrder :=
  if valid bc then mo else withAmount mo (available bc).

Definition insufficientBalance `{Collaborators G} (bc : BalanceCheck) : CopyTradeResult :=
  failure ("Insufficient USDC balance. Available: " ++ showNumber (available bc))%string.

(** The calls the BUY branch makes before it decides on the order amount. *)
Definition balanceCalls (mo : UserMarketOrder) : list Call :=
  [CallUpdateBalanceAllowance; CallDisplayWalletBalance;
   CallValidateBuyOrderBalance (amount mo)].

(** The test of the [catch] block: the message tells of a balance or
    allowance problem. *)
Definition balanceOrAllowanceError (errorMessage : string) : bool :=
  includes errorMessage "not enough balance" || includes errorMessage "allowance".

(** The collaborator calls of the diagnostic pass: the balance display, then
    the allowance refresh unless the display threw. *)
Definition diagnosticCalls (display : completion unit) : list Call :=
  CallDisplayWalletBalance ::
  match display with
  | Ret _ => [CallUpdateBalanceAllowance]
  | Throw _ => []
  end.


Definition isSweepCall (c : Call) : bool :=
  match c with
  | CallAutoRedeemResolvedMarkets _ => true
  | _ => false
  end.

(** The configured redemption interval is absent (unset or empty) or zero. *)
Definition noRedeemInterval (env : Env) : Prop :=
  truthyOptStr (REDEEM_DURATION env) = false
  \/ parseInt (default "" (REDEEM_DURATION env)) = zero.


(** The invariant of the counts of a sweep. *)
Definition countsOk (c : RedemptionResult) : Prop :=
  (redeemed c + failed c <= resolved c)%nat /\ (resolved c <= total c)%nat.

(** A step from [w] to [w'] is quiet when it leaves the pause flag and the
    timers alone and only appends calls, none of them a sweep. *)
Definition quiet {G} (w w' : World G) : Prop :=
  isCopyTradingPaused w' = isCopyTradingPaused w
  /\ intervals w' = intervals w
  /\ exists rest, calls w' = (calls w ++ rest)%list
                  /\ forallb (fun c => negb (isSweepCall c)) rest = true.

Definition preserves {G A} (m : M G A) : Prop :=
  forall w, quiet w (snd (m w)).

(** The orders posted among some calls. *)
Definition isPostCall (c : Call) : bool :=
  match c with
  | CallCreateAndPostMarketOrder _ _ _ => true
  | _ => false
  end.

Definition postsOf (l : list Call) : list Call := List.filter isPostCall l.

(** Two ledgers agree on every key but one. *)
Definition sameElsewhere (marketId tokenId : string) (l l' : Ledger) : Prop :=
  forall m t, (m, t) ≠ (marketId, tokenId) -> getHoldings l' m t = getHoldings l m t.

(** How one call of [copyTrade] may leave the ledger: as it was, or with a
    positive amount removed from the event's key by a SELL, or added to it
    by a BUY. *)
Definition ledgerMove (o : CopyTradeOptions) (l l' : Ledger) : Prop :=
  l' = l
  \/ exists x, gt x zero = true
       /\ l' = (if isSell (trade o)
               then removeHoldings l (conditionId (trade o)) (asset (trade o)) x
               else addHoldings l (conditionId (trade o)) (asset (trade o)) x).

(** What holds at the end of the [try] block, on every path: the calls made
    are appended, at most one of them posts an order, the ledger moved at
    most once; a thrown error or a failure result leaves the ledger alone, a
    failure result has posted nothing, and a success returns the one order
    that was posted. *)
Definition tryOutcome {G} (o : CopyTradeOptions) (w : World G)
    (out : completion CopyTradeResult * World G) : Prop :=
  exists rest,
    calls (snd out) = (calls w ++ rest)%list
    /\ (length (postsOf rest) <= 1)%nat
    /\ ledgerMove o (ledger w) (ledger (snd out))
    /\ isCopyTradingPaused (snd out) = isCopyTradingPaused w
    /\ match fst out with
       | Throw _ => ledger (snd out) = ledger w
       | Ret r =>
           if success r
           then exists mo, marketOrder r = Some mo /\ postsOf rest = [postCall o mo]
           else ledger (snd out) = ledger w /\ postsOf rest = []
       end.

(** A message [onMessage] takes for a trade of the tracked wallet. *)
Definition isTrackedTrade (b : Bot) (m : Message) : bool :=
  bool_decide (topic m = "activity") && bool_decide (type m = "trades")
  && fromTarget b (payload m).

(** The world in which [main] calls [getClobClient]: after
    [createCredential] and [mcpServerRip]. *)
Definition clientWorld `{Collaborators G} (g : G) : G :=
  snd (mcpServerRip (snd (createCredential g))).

(** A call that sends a transaction. *)
Definition isTransaction (c : Allowance.ChainCall) : bool :=
  match c with
  | Allowance.CallApprove _ _ _ _ _ => true
  | Allowance.CallSetApprovalForAll _ _ _ _ _ => true
  | _ => false
  end.

(** A call that, if it is a transaction, grants: an allowance of
    [MaxUint256] or an operator approval set to [true], sent with the gas
    options [gas]. *)
Definition grants (gas : Allowance.GasOptions) (c : Allowance.ChainCall) : Prop :=
  match c with
  | Allowance.CallApprove _ _ _ amount g => amount = Allowance.MaxUint256 /\ g = gas
  | Allowance.CallSetApprovalForAll _ _ _ approved g => approved = true /\ g = gas
  | _ => True
  end.

(** A call that, if it is a transaction, grants, and is sent with the gas
    options that go with the answer [price] of the network to the gas price
    query: a limit of 200000 and the price of the network plus 20 %, or 100
    gwei when the query failed. *)
Definition grantsAt (price : completion Z) (c : Allowance.ChainCall) : Prop :=
  let paid (g : Allowance.GasOptions) :=
    Allowance.gasLimit g = 200000%Z
    /\ Allowance.gasPrice g
       = match price with
         | Ret p => Z.quot (p * 120) 100
         | Throw _ => 100000000000%Z
         end in
  match c with
  | Allowance.CallApprove _ _ _ amount g => amount = (2 ^ 256 - 1)%Z /\ paid g
  | Allowance.CallSetApprovalForAll _ _ _ approved g => approved = true /\ paid g
  | _ => True
  end.

(** From [w] to [w'] calls were only appended to the chain trace, each
    satisfying [P]. *)
Definition sends {C} (P : Allowance.ChainCall -> Prop)
    (w w' : World (Allowance.Net C)) : Prop :=
  exists rest,
    Allowance.sent (outside w') = (Allowance.sent (outside w) ++ rest)%list
    /\ Forall P rest.

Definition keepsSent {C A} (P : Allowance.ChainCall -> Prop)
    (m : M (Allowance.Net C) A) : Prop :=
  forall w, sends P w (snd (m w)).

(** A call that, if it reads or writes an allowance or an approval, is
    about the conditional tokens contract or the exchange of [config]. *)
Definition targetsMain (config : Allowance.ContractConfig) (c : Allowance.ChainCall) : Prop :=
  let main x := x = Allowance.conditionalTokens config \/ x = Allowance.exchange config in
  match c with
  | Allowance.CallAllowance _ _ _ spender => main spender
  | Allowance.CallApprove _ _ spender _ _ => main spender
  | Allowance.CallIsApprovedForAll _ _ _ operator => main operator
  | Allowance.CallSetApprovalForAll _ _ operator _ _ => main operator
  | _ => True
  end.

(** The same system with another credential file. *)
Definition withFile {N} (file : option (completion Clob.ApiKeyCreds))
    (w : World (Clob.Sys N)) : World (Clob.Sys N) :=
  withOutside
    {| Clob.credentialFile := file;
       Clob.dataWritable := Clob.dataWritable (outside w);
       Clob.cachedClient := Clob.cachedClient (outside w);
       Clob.cachedConfig := Clob.cachedConfig (outside w);
       Clob.allocated := Clob.allocated (outside w);
       Clob.network := Clob.network (outside w) |} w.

(** The secret as [getClobClient] hands it to the client. *)
Definition standardBase64 (s : string) : string :=
  JsMore.replaceAll "_" "/" (JsMore.replaceAll "-" "+" s).

(** * Properties *)

Local Open Scope list_scope.

Ltac monad_unfold :=
  unfold mbind, mret, M_bind, M_ret, bind, ret, throw, tryCatch, tryFinally, when_,
    logAt, record, writeLedger, readWorld, modify, perform, property in *.

(** Equality of two closed numbers: the rationals are compared. *)
Ltac num_eq :=
  match goal with
  | |- ?a = ?b =>
      let a' := eval vm_compute in a in
      let b' := eval vm_compute in b in
      change (a' = b')
  end;
  first [ reflexivity | apply (f_equal Num), Qc_is_canon; reflexivity ].

Ltac split_ifs :=
  repeat match goal with
         | |- context [if ?b then _ else _] => destruct b; cbn
         end.

(** ** JavaScript values *)

Section JsFacts.

Example parseFloat_integer : parseFloat "5" = ofZ 5.
Proof. reflexivity. Qed.

Example parseFloat_fraction : parseFloat ".5" = Num (Q2Qc (1 # 2)).
Proof. reflexivity. Qed.

Example parseFloat_prefix : parseFloat " -12.50e1xyz" = ofZ (-125).
Proof. reflexivity. Qed.

Example parseFloat_exponent : parseFloat "25e-1" = Num (Q2Qc (5 # 2)).
Proof. num_eq. Qed.

Example parseFloat_not_a_number : parseFloat "abc" = NaN /\ parseFloat "" = NaN.
Proof. split; reflexivity. Qed.

Example parseInt_minutes : parseInt "60" = ofZ 60 /\ parseInt "0" = zero /\ parseInt "x" = NaN.
Proof. repeat split; reflexivity. Qed.

Example includes_allowance :
  includes "not enough balance / allowance" "allowance" = true
  /\ includes "insufficient funds" "allowance" = false.
Proof. split; reflexivity. Qed.

Example toUpperCase_sell : toUpperCase "Sell" = "SELL" /\ toLowerCase "0xAbC" = "0xabc".
Proof. split; reflexivity. Qed.

(** The long s (U+017F) has upper case S, the sharp s (U+00DF) has SS, the
    Kelvin sign (U+212A) has lower case k. *)
Example toUpperCase_long_s :
  toUpperCase (bytes [197; 191] ++ "ell") = "SELL"
  /\ toUpperCase (bytes [195; 159] ++ "ell") = "SSELL"
  /\ toLowerCase ("0x" ++ bytes [226; 132; 170]) = "0xk".
Proof. by repeat split. Qed.

(** White space outside ASCII is skipped as well. *)
Example parseFloat_no_break_space : parseFloat (bytes [194; 160] ++ "5") = ofZ 5.
Proof. reflexivity. Qed.

(** Comparisons with NaN are false, both ways. *)
Lemma nan_compares_false (a : number) :
  gt NaN a = false /\ le NaN a = false /\ gt a NaN = false /\ le a NaN = false.
Proof. by destruct a. Qed.

Lemma orNum_truthy (a : number) : truthy (orNum a one) = true.
Proof.
  unfold orNum. destruct (truthy a) eqn:Ha; [done|]. reflexivity.
Qed.

End JsFacts.

(** ** Ledger *)

Section LedgerFacts.

Lemma getHoldings_present (l : Ledger) (m t : string) (q : Qc) :
  getHoldings l m t = Num q -> q ≠ 0%Qc ->
  exists tm, l !! m = Some tm /\ tm !! t = Some (Num q).
Proof.
  unfold getHoldings, tokensOf. intros Hget Hq.
  destruct (l !! m) as [tm|] eqn:Hm; cbn in Hget.
  - exists tm. split; [done|].
    destruct (tm !! t) as [v|]; cbn in Hget; [by subst|].
    unfold zero in Hget. congruence.
  - rewrite lookup_empty in Hget. cbn in Hget. unfold zero in Hget. congruence.
Qed.

Lemma setHoldings_id (l : Ledger) (m t : string) (tm : gmap string number) (v : number) :
  l !! m = Some tm -> tm !! t = Some v -> setHoldings l m t v = l.
Proof.
  intros Hm Ht. unfold setHoldings, tokensOf. rewrite Hm. cbn.
  rewrite (insert_id tm t v Ht). by apply insert_id.
Qed.

Lemma getHoldings_setHoldings (l : Ledger) (m t : string) (v : number) :
  getHoldings (setHoldings l m t v) m t = v.
Proof.
  unfold getHoldings, setHoldings, tokensOf.
  rewrite lookup_insert_eq. cbn. by rewrite lookup_insert_eq.
Qed.

Lemma getHoldings_addHoldings (l : Ledger) (m t : string) (a : number) :
  getHoldings (addHoldings l m t a) m t = add (getHoldings l m t) a.
Proof. apply getHoldings_setHoldings. Qed.

Lemma getHoldings_removeHoldings (l : Ledger) (m t : string) (tm : gmap string number)
    (v a : number) :
  l !! m = Some tm -> tm !! t = Some v ->
  getHoldings (removeHoldings l m t a) m t = max zero (sub v a).
Proof.
  intros Hm Ht. unfold removeHoldings. unfold tokensOf at 1. rewrite Hm. cbn. rewrite Ht.
  apply getHoldings_setHoldings.
Qed.

Lemma removeHoldings_zero (l : Ledger) (m t : string) (tm : gmap string number) (q : Qc) :
  l !! m = Some tm -> tm !! t = Some (Num q) -> (0 <= q)%Qc ->
  removeHoldings l m t zero = l.
Proof.
  intros Hm Ht Hq. unfold removeHoldings. unfold tokensOf at 1. rewrite Hm. cbn. rewrite Ht.
  cbn. replace (q - 0)%Qc with q by ring.
  rewrite bool_decide_true by done. by apply (setHoldings_id l m t tm).
Qed.

End LedgerFacts.

(** ** Order builder *)

Section OrderBuilderFacts.
Context {G : Type} `{Collaborators G}.

#[local] Arguments mayNotHaveSucceeded : simpl never.

(** The [catch] block returns the failure carrying the message it was given,
    leaves the ledger alone, and calls collaborators only for the diagnostic
    pass. *)
Lemma copyTradeCatch_spec (e : string) (w : World G) :
  fst (copyTradeCatch e w) = Ret (failure e)
  /\ ledger (snd (copyTradeCatch e w)) = ledger w
  /\ calls (snd (copyTradeCatch e w))
     = calls w ++ (if balanceOrAllowanceError e
                   then diagnosticCalls (fst (displayWalletBalance (outside w)))
                   else []).
Proof.
  unfold copyTradeCatch, balanceOrAllowanceError, diagnosticCalls. monad_unfold.
  destruct (includes e "not enough balance" || includes e "allowance"); cbn.
  - destruct (displayWalletBalance (outside w)) as [[[]|e1] g1]; cbn.
    + destruct (updateBalanceAllowance g1) as [[[]|e2] g2]; cbn;
        rewrite <- ?app_assoc; auto.
    + auto.
  - rewrite app_nil_r. auto.
Qed.

(** C3: a SELL event whose key holds nothing (zero or less) fails with the
    "no holdings" message; the execution gateway is not called and the
    ledger, like the rest of the outside world, is as before. *)
Theorem copyTrade_sell_no_holdings (o : CopyTradeOptions) (w : World G) (q : Qc) :
  isSell (trade o) = true ->
  getHoldings (ledger w) (conditionId (trade o)) (asset (trade o)) = Num q ->
  (q <= 0)%Qc ->
  fst (copyTrade o w) = Ret (failure "No holdings available to sell")
  /\ calls (snd (copyTrade o w)) = calls w
  /\ ledger (snd (copyTrade o w)) = ledger w
  /\ outside (snd (copyTrade o w)) = outside w.
Proof.
  intros Hsell Hget Hq.
  unfold copyTrade, copyTradeTry, copyTradeSell. rewrite Hsell.
  monad_unfold. rewrite Hget. cbn.
  rewrite bool_decide_true by done. cbn. auto.
Qed.

(** C1: a SELL event whose key holds a positive quantity submits that whole
    quantity; when the gateway answers, the ledger is decremented by the
    reported making amount when one is reported, and by the requested
    amount otherwise. *)
Theorem copyTrade_sell_full_exit (o : CopyTradeOptions) (w : World G) (q : Qc) :
  isSell (trade o) = true ->
  getHoldings (ledger w) (conditionId (trade o)) (asset (trade o)) = Num q ->
  (0 < q)%Qc ->
  let out := copyTrade o w in
  let mo := sellOrder o (Num q) in
  (exists rest, calls (snd out) = calls w ++ postCall o mo :: rest)
  /\ forall (r : OrderResponse) (g' : G) (sold : number),
       createAndPostMarketOrder mo (orderOptionsOf o) (default FAK (orderType o)) (outside w)
         = (Ret (Some r), g') ->
       sold = default (Num q) (reportedFigure (makingAmount r)) ->
       ge sold zero = true ->
       fst out = Ret (succeeded r mo)
       /\ calls (snd out) = calls w ++ [postCall o mo]
       /\ ledger (snd out)
          = removeHoldings (ledger w) (conditionId (trade o)) (asset (trade o)) sold
       /\ getHoldings (ledger (snd out)) (conditionId (trade o)) (asset (trade o))
          = max zero (sub (Num q) sold).
Proof.
  intros Hsell Hget Hq out mo.
  destruct (getHoldings_present _ _ _ _ Hget) as (tm & Hm & Ht).
  { intros ->. by apply (Qcle_not_lt 0 0) in Hq. }
  assert (Hle : le (Num q) zero = false).
  { cbn. apply bool_decide_false. by apply Qclt_not_le. }
  subst out. unfold copyTrade, copyTradeTry, copyTradeSell. rewrite Hsell.
  monad_unfold. rewrite Hget, Hle. subst mo. unfold postCall, sellOrder. cbn.
  fold (orderOptionsOf o).
  split.
  - match goal with |- context [createAndPostMarketOrder ?a ?b ?c ?d] =>
      destruct (createAndPostMarketOrder a b c d) as [[[r|]|e] g'] eqn:Hpost end.
    all: cbn.
    all: split_ifs.
    all: rewrite <- ?app_assoc; cbn; eauto.
    all: match goal with |- context [copyTradeCatch ?e ?w0] =>
           destruct (copyTradeCatch_spec e w0) as (_ & _ & ->) end.
    all: cbn; rewrite <- ?app_assoc; cbn; eauto.
  - intros r g' sold Hpost -> Hsold. unfold sellOrder in Hpost. rewrite Hpost. cbn.
    unfold reportedFigure in *.
    destruct (truthyOptStr (makingAmount r)) eqn:Htr; cbn in *.
    + destruct (parseFloat (default "" (makingAmount r))) as [|x] eqn:Hpf; [done|].
      cbn in Hsold. apply bool_decide_eq_true in Hsold.
      destruct (gt (Num x) zero) eqn:Hgt; cbn.
      * destruct (mayNotHaveSucceeded (Some r)); cbn.
        all: repeat split; try done.
        all: by rewrite (getHoldings_removeHoldings _ _ _ tm (Num q)).
      * apply bool_decide_eq_false in Hgt.
        assert (x = 0%Qc) as -> by (apply Qcle_antisym; [by apply Qcnot_lt_le|done]).
        assert (Hq0 : (0 <= q)%Qc) by (by apply Qclt_le_weak).
        destruct (mayNotHaveSucceeded (Some r)); cbn.
        all: repeat split; try done.
        all: try by rewrite (removeHoldings_zero _ _ _ tm q).
        all: rewrite Hget; cbn; replace (q - 0)%Qc with q by ring.
        all: by rewrite bool_decide_true.
    + assert (Hgt : gt (Num q) zero = true) by (by apply bool_decide_eq_true).
      cbn in Hgt. rewrite Hgt.
      destruct (mayNotHaveSucceeded (Some r)); cbn.
      all: repeat split; try done.
      all: by rewrite (getHoldings_removeHoldings _ _ _ tm (Num q)).
Qed.

End OrderBuilderFacts.

Section BuyFacts.
Context {G : Type} `{Collaborators G}.

#[local] Arguments mayNotHaveSucceeded : simpl never.
#[local] Arguments gt : simpl never.
#[local] Arguments le : simpl never.
#[local] Arguments div : simpl never.
#[local] Arguments copyTradeBuySubmit : simpl never.
#[local] Arguments copyTradeCatch : simpl never.

Lemma gt_zero_zero : gt zero zero = false.
Proof. reflexivity. Qed.

(** The BUY branch once the order is posted and answered. *)
Lemma copyTradeBuySubmit_spec (o : CopyTradeOptions) (mo : UserMarketOrder) (w : World G)
    (r : OrderResponse) (g' : G) :
  createAndPostMarketOrder mo (orderOptionsOf o) (default FAK (orderType o)) (outside w)
    = (Ret (Some r), g') ->
  let out := copyTradeBuySubmit o (conditionId (trade o)) (asset (trade o))
               (default "0.01" (tickSize o)) (default false (negRisk o))
               (default FAK (orderType o)) mo w in
  fst out = Ret (succeeded r mo)
  /\ calls (snd out) = calls w ++ [postCall o mo; CallApproveTokensAfterBuy]
  /\ ledger (snd out)
     = credit (ledger w) (conditionId (trade o)) (asset (trade o))
         (creditedTokens (trade o) mo r).
Proof.
  intros Hpost out. subst out.
  unfold copyTradeBuySubmit, creditedTokens, reportedFigure, credit, postCall.
  monad_unfold. fold (orderOptionsOf o). cbn. rewrite Hpost. cbn.
  destruct (mayNotHaveSucceeded (Some r)); cbn.
  all: destruct (truthyOptStr (takingAmount r)); cbn.
  all: rewrite ?gt_zero_zero.
  all: repeat match goal with
         | |- context [if gt ?a ?b then _ else _] => destruct (gt a b); cbn
         end.
  all: destruct (approveTokensAfterBuy g') as [[[]|e] g'']; cbn.
  all: rewrite <- ?app_assoc; cbn; auto.
Qed.

(** Whatever the gateway answers, the order has been posted. *)
Lemma copyTradeBuySubmit_posts (o : CopyTradeOptions) (mo : UserMarketOrder) (w : World G) :
  let out := tryCatch
               (copyTradeBuySubmit o (conditionId (trade o)) (asset (trade o))
                  (default "0.01" (tickSize o)) (default false (negRisk o))
                  (default FAK (orderType o)) mo)
               copyTradeCatch w in
  exists rest, calls (snd out) = calls w ++ postCall o mo :: rest.
Proof.
  unfold copyTradeBuySubmit, postCall. monad_unfold. fold (orderOptionsOf o). cbn.
  destruct (createAndPostMarketOrder mo (orderOptionsOf o) (default FAK (orderType o))
              (outside w)) as [[[r|]|e] g'] eqn:Hpost; cbn.
  all: split_ifs.
  all: repeat match goal with
         | |- context [approveTokensAfterBuy ?g] =>
             destruct (approveTokensAfterBuy g) as [[[]|?] ?]; cbn
         end.
  all: try match goal with |- context [copyTradeCatch ?e ?w0] =>
             destruct (copyTradeCatch_spec e w0) as (_ & _ & ->) end.
  all: cbn; rewrite <- ?app_assoc; cbn; eauto.
Qed.

(** The BUY branch up to the balance check: with a balance check that fails
    and nothing available the call fails before any order is posted;
    otherwise the order, clamped when the check failed, is submitted. *)
Lemma copyTrade_buy_path (o : CopyTradeOptions) (w : World G) (mo : UserMarketOrder)
    (bc : BalanceCheck) (g2 g3 : G) :
  isSell (trade o) = false ->
  tradeToMarketOrder o = Ret mo ->
  displayWalletBalance (snd (updateBalanceAllowance (outside w))) = (Ret tt, g2) ->
  validateBuyOrderBalance (amount mo) g2 = (Ret bc, g3) ->
  let out := copyTrade o w in
  if negb (valid bc) && le (available bc) zero then
    fst out = Ret (insufficientBalance bc)
    /\ calls (snd out) = calls w ++ balanceCalls mo
    /\ ledger (snd out) = ledger w
  else
    (exists rest,
        calls (snd out) = calls w ++ balanceCalls mo ++ postCall o (clampedOrder mo bc) :: rest)
    /\ forall (r : OrderResponse) (g4 : G),
         createAndPostMarketOrder (clampedOrder mo bc) (orderOptionsOf o)
           (default FAK (orderType o)) g3 = (Ret (Some r), g4) ->
         fst out = Ret (succeeded r (clampedOrder mo bc))
         /\ calls (snd out)
            = calls w ++ balanceCalls mo
                ++ [postCall o (clampedOrder mo bc); CallApproveTokensAfterBuy]
         /\ ledger (snd out)
            = credit (ledger w) (conditionId (trade o)) (asset (trade o))
                (creditedTokens (trade o) (clampedOrder mo bc) r).
Proof.
  intros Hside Hmo Hdisp Hval out. subst out.
  unfold copyTrade, copyTradeTry. rewrite Hside. unfold copyTradeBuy, clampedOrder, balanceCalls.
  monad_unfold. rewrite Hmo. cbn.
  destruct (updateBalanceAllowance (outside w)) as [[[]|e] g1]; cbn in Hdisp |- *.
  all: rewrite Hdisp; cbn; rewrite Hval; cbn.
  all: destruct (valid bc); cbn; [|destruct (le (available bc) zero); cbn].
  all: try (rewrite <- ?app_assoc; cbn; by auto).
  all: match goal with
       | |- context [copyTradeBuySubmit ?o' ?m ?t ?ts ?nr ?ot ?mo' ?w1] =>
           pose proof (copyTradeBuySubmit_posts o' mo' w1) as Hposts;
           pose proof (copyTradeBuySubmit_spec o' mo' w1) as Hspec;
           unfold tryCatch in Hposts; cbn in Hposts, Hspec;
           destruct (copyTradeBuySubmit o' m t ts nr ot mo' w1) as [c w']
       end.
  all: split;
    [ destruct Hposts as [rest ->]; exists rest; by rewrite <- ?app_assoc
    | intros r g4 Hpost; destruct (Hspec r g4 Hpost) as (Hr & Hc & Hl);
      cbn in Hr, Hc, Hl; subst c; cbn; rewrite Hc, Hl; by rewrite <- ?app_assoc ].
Qed.



End BuyFacts.

Section CatchFacts.
Context {G : Type} `{Collaborators G}.

(** C7: [copyTrade] always returns.  When its [try] block throws, the
    result is the failure carrying the message thrown; the ledger is as the
    exception left it; and when the message tells of a balance or allowance
    problem the diagnostic pass has run before: the balance display, then
    the allowance refresh unless the display threw. *)
Theorem copyTrade_never_throws (o : CopyTradeOptions) (w : World G) :
  (exists r, fst (copyTrade o w) = Ret r)
  /\ forall (e : string) (w1 : World G),
       copyTradeTry o w = (Throw e, w1) ->
       fst (copyTrade o w) = Ret (failure e)
       /\ success (failure e) = false
       /\ error (failure e) = Some e
       /\ ledger (snd (copyTrade o w)) = ledger w1
       /\ calls (snd (copyTrade o w))
          = calls w1 ++ (if balanceOrAllowanceError e
                         then diagnosticCalls (fst (displayWalletBalance (outside w1)))
                         else []).
Proof.
  unfold copyTrade, tryCatch.
  destruct (copyTradeTry o w) as [[r|e] w1] eqn:Htry; cbn.
  - split; [by exists r|]. intros e w1' [=].
  - destruct (copyTradeCatch_spec e w1) as (Hr & Hl & Hc).
    split; [by exists (failure e)|].
    intros e' w1' [= <- <-]. by rewrite Hr, Hl, Hc.
Qed.

End CatchFacts.

(** ** Quiet computations *)

Section Quiet.
Context {G : Type} `{Collaborators G}.

Lemma quiet_refl (w : World G) : quiet w w.
Proof. repeat split. exists []. by rewrite app_nil_r. Qed.

Lemma quiet_trans (w1 w2 w3 : World G) : quiet w1 w2 -> quiet w2 w3 -> quiet w1 w3.
Proof.
  intros (Hp1 & Hi1 & r1 & Hc1 & Hf1) (Hp2 & Hi2 & r2 & Hc2 & Hf2).
  repeat split; [congruence..|].
  exists (r1 ++ r2). split.
  - by rewrite Hc2, Hc1, app_assoc.
  - by rewrite forallb_app, Hf1, Hf2.
Qed.

Lemma preserves_ret {A} (a : A) : preserves (G:=G) (mret a).
Proof. intros w. apply quiet_refl. Qed.

Lemma preserves_throw {A} (e : string) : preserves (G:=G) (A:=A) (throw e).
Proof. intros w. apply quiet_refl. Qed.

Lemma preserves_bind {A B} (m : M G A) (k : A -> M G B) :
  preserves m -> (forall a, preserves (k a)) -> preserves (m ≫= k).
Proof.
  intros Hm Hk w. specialize (Hm w). monad_unfold.
  destruct (m w) as [[a|e] w1]; cbn in *; [|done].
  eapply quiet_trans; [exact Hm|apply Hk].
Qed.

Lemma preserves_tryCatch {A} (m : M G A) (h : string -> M G A) :
  preserves m -> (forall e, preserves (h e)) -> preserves (tryCatch m h).
Proof.
  intros Hm Hh w. specialize (Hm w). unfold tryCatch.
  destruct (m w) as [[a|e] w1]; cbn in *; [done|].
  eapply quiet_trans; [exact Hm|apply Hh].
Qed.

Lemma preserves_logAt (lv : Level) (text : string) : preserves (G:=G) (logAt lv text).
Proof. intros w. cbn. repeat split. exists []. by rewrite app_nil_r. Qed.

Lemma preserves_perform {A} (c : Call) (f : G -> completion A * G) :
  isSweepCall c = false -> preserves (perform c f).
Proof.
  intros Hc w. unfold perform. destruct (f (outside w)) as [r g']; cbn.
  repeat split. exists [c]. split; [done|]. cbn. by rewrite Hc.
Qed.

Lemma preserves_writeLedger (f : Ledger -> Ledger) : preserves (G:=G) (writeLedger f).
Proof. intros w. cbn. repeat split. exists []. by rewrite app_nil_r. Qed.

Lemma preserves_readWorld {A} (f : World G -> A) : preserves (readWorld f).
Proof. intros w. apply quiet_refl. Qed.

Lemma preserves_pure {A} (x : completion A) : preserves (G:=G) (fun w => (x, w)).
Proof. intros w. apply quiet_refl. Qed.

Lemma preserves_when (b : bool) (m : M G unit) : preserves m -> preserves (when_ b m).
Proof. intros Hm. destruct b; [done|]. apply preserves_ret. Qed.

Lemma preserves_property {A} (response : option OrderResponse) (name : string)
    (f : OrderResponse -> A) :
  preserves (G:=G) (property response name f).
Proof. destruct response; [apply preserves_ret|apply preserves_throw]. Qed.

Ltac quiet_step :=
  first
    [ apply preserves_bind; [|intros ?]
    | apply preserves_tryCatch; [|intros ?]
    | apply preserves_when
    | apply preserves_logAt
    | apply preserves_ret
    | apply preserves_throw
    | apply preserves_writeLedger
    | apply preserves_readWorld
    | apply preserves_property
    | apply preserves_pure
    | apply preserves_perform; reflexivity
    | match goal with
      | |- preserves (if ?b then _ else _) => destruct b
      end ].

(** [copyTrade] is quiet: it neither touches the pause flag nor the timers,
    and it starts no sweep. *)
Lemma preserves_copyTrade (o : CopyTradeOptions) : preserves (copyTrade o).
Proof.
  unfold copyTrade, copyTradeTry, copyTradeCatch, copyTradeSell, copyTradeBuy,
    copyTradeBuySubmit.
  repeat quiet_step.
Qed.

End Quiet.

(** ** The bot *)

Section IndexFacts.
Context {G : Type} `{Collaborators G}.

(** C5: however the sweep ends, returned counts or exception,
    [performRedemption] returns with the pause flag cleared; so does the
    part of it that remains once the sweep is under way. *)
Theorem performRedemption_clears_pause (w : World G) :
  fst (performRedemption w) = Ret tt
  /\ isCopyTradingPaused (snd (performRedemption w)) = false
  /\ fst (redemptionResume w) = Ret tt
  /\ isCopyTradingPaused (snd (redemptionResume w)) = false.
Proof.
  unfold performRedemption, redemptionResume, redemptionBegin, redemptionSweep,
    redemptionCatch, redemptionFinally.
  monad_unfold. cbn.
  repeat match goal with
         | |- context [autoRedeemResolvedMarkets ?n ?l ?g] =>
             destruct (autoRedeemResolvedMarkets n l g) as [[r|e] [l' g']]; cbn
         end.
  all: split_ifs.
  all: auto.
Qed.

Lemma preserves_record (c : Call) : isSweepCall c = false -> preserves (G:=G) (record c).
Proof.
  intros Hc w. cbn. repeat split. exists [c]. split; [done|]. cbn. by rewrite Hc.
Qed.

Lemma preserves_onMessage (b : Bot) (m : Message) : preserves (onMessage b m).
Proof.
  pose proof (@preserves_copyTrade G _) as Hcopy.
  unfold onMessage, toISOString.
  repeat first
    [ apply Hcopy
    | apply preserves_record; reflexivity
    | apply preserves_bind; [|intros ?]
    | apply preserves_tryCatch; [|intros ?]
    | apply preserves_when
    | apply preserves_logAt
    | apply preserves_ret
    | apply preserves_throw
    | apply preserves_readWorld
    | match goal with
      | |- preserves (if ?c then _ else _) => destruct c
      end ].
Qed.

Lemma quiet_no_sweep (w w' : World G) :
  quiet w w' ->
  List.filter isSweepCall (calls w') = List.filter isSweepCall (calls w).
Proof.
  intros (_ & _ & rest & -> & Hrest).
  rewrite List.filter_app.
  assert (List.filter isSweepCall rest = []) as ->; [|by rewrite app_nil_r].
  induction rest as [|c rest IH]; [done|].
  cbn in *. apply andb_prop in Hrest as [Hc Hrest].
  destruct (isSweepCall c); [done|]. by apply IH.
Qed.


Lemma noRedeemInterval_off (env : Env) :
  noRedeemInterval env ->
  let redeemDurationMinutes :=
    if truthyOptStr (REDEEM_DURATION env)
    then Some (parseInt (default "" (REDEEM_DURATION env))) else None in
  truthyOptNum redeemDurationMinutes && gt (default NaN redeemDurationMinutes) zero = false.
Proof.
  intros [Habsent|Hzero]; cbn.
  - by rewrite Habsent.
  - destruct (truthyOptStr (REDEEM_DURATION env)); [|done]. by rewrite Hzero.
Qed.

(** [main] without a redemption interval registers no timer, starts no
    sweep, and leaves the pause flag clear. *)
Lemma main_without_interval (env : Env) (w0 w1 : World G) (b : Bot) :
  noRedeemInterval env ->
  main env w0 = (Ret (Some b), w1) ->
  intervals w1 = intervals w0
  /\ isCopyTradingPaused w1 = false
  /\ List.filter isSweepCall (calls w1) = List.filter isSweepCall (calls w0).
Proof.
  intros Hoff%noRedeemInterval_off. cbv zeta in Hoff.
  unfold main, updateClobBalanceAllowance. rewrite Hoff.
  monad_unfold. cbn.
  destruct (truthyOptStr (TARGET_WALLET env)); cbn; [|by intros [=]].
  destruct (createCredential (outside w0)) as [cred g1]; cbn.
  destruct cred; cbn.
  all: destruct (mcpServerRip g1) as [[[]|e2] g2]; cbn; [|by intros [=]].
  all: destruct (bool_decide (ENABLE_COPY_TRADING env ≠ Some "false")); cbn.
  all: repeat match goal with
         | |- context [getClobClient ?g] =>
             destruct (getClobClient g) as [[[]|?] ?]; cbn
         | |- context [approveUSDCAllowance ?g] =>
             destruct (approveUSDCAllowance g) as [[[]|?] ?]; cbn
         | |- context [updateBalanceAllowance ?g] =>
             destruct (updateBalanceAllowance g) as [[[]|?] ?]; cbn
         | |- context [displayWalletBalance ?g] =>
             destruct (displayWalletBalance g) as [[[]|?] ?]; cbn
         | |- context [connect ?g] =>
             destruct (connect g) as [[[]|?] ?]; cbn
         end.
  all: intros [= <- <-]; cbn.
  all: rewrite <- ?app_assoc, ?List.filter_app; cbn.
  all: by rewrite ?app_nil_r.
Qed.

(** C9: with the redemption interval absent or zero, [main] registers no
    timer; in every run of the started bot no timer fires, no sweep is
    started, and the pause flag stays clear. *)
Theorem main_without_interval_never_pauses (env : Env) (w0 w1 : World G) (b : Bot) :
  noRedeemInterval env ->
  intervals w0 = [] ->
  main env w0 = (Ret (Some b), w1) ->
  intervals w1 = []
  /\ isCopyTradingPaused w1 = false
  /\ forall w n, steps b (w1, 0) (w, n) ->
       intervals w = []
       /\ isCopyTradingPaused w = false
       /\ n = 0
       /\ List.filter isSweepCall (calls w) = List.filter isSweepCall (calls w0).
Proof.
  intros Hoff Hnone Hmain.
  destruct (main_without_interval env w0 w1 b Hoff Hmain) as (Hi & Hp & Hc).
  rewrite Hnone in Hi.
  split; [done|]. split; [done|].
  assert (Hinv : forall s, steps b (w1, 0) s ->
            intervals (fst s) = []
            /\ isCopyTradingPaused (fst s) = false
            /\ snd s = 0
            /\ List.filter isSweepCall (calls (fst s)) = List.filter isSweepCall (calls w0)).
  { intros s Hsteps.
    remember (w1, 0) as s0 eqn:Hs0.
    induction Hsteps as [s|s1 s2 s3 Hsteps IH Hstep]; subst.
    - by cbn.
    - destruct (IH eq_refl) as (IHi & IHp & IHn & IHc). clear IH.
      destruct Hstep as [m w n|ms w n Hin|w n]; cbn in *.
      + pose proof (preserves_onMessage b m w) as Hq.
        pose proof (quiet_no_sweep _ _ Hq) as Hs.
        destruct Hq as (Hqp & Hqi & _).
        repeat split; congruence.
      + rewrite IHi in Hin. by apply not_elem_of_nil in Hin.
      + discriminate. }
  intros w n Hsteps. exact (Hinv (w, n) Hsteps).
Qed.

End IndexFacts.

(** ** Redemption sweep *)

Section SweepFacts.
Context {G : Type} `{Redeem.Gateway G}.

Import Redeem.

Lemma count_occ_replicate (m x : string) (k : nat) :
  count_occ string_dec (replicate k x) m = if string_dec x m then k else 0.
Proof.
  induction k as [|k IH]; cbn.
  - by destruct (string_dec x m).
  - destruct (string_dec x m); cbn; by rewrite IH.
Qed.

(** A redemption makes at most [n] attempts, logs each, and reports failure
    only after [n] failed attempts. *)
Lemma redeemWithRetry_spec (n : nat) (marketId : string) (g : G) (log : list string) :
  exists k, k <= n
    /\ (redeemWithRetry n marketId g log).2 = log ++ replicate k marketId
    /\ ((redeemWithRetry n marketId g log).1.1 = false -> k = n).
Proof.
  revert g log. induction n as [|n IH]; intros g log; cbn.
  - exists 0. cbn. by rewrite app_nil_r.
  - destruct (redeemPositions marketId g) as [[[]|e] g'].
    + exists 1. cbn. repeat split; [lia|done].
    + destruct (IH g' (log ++ [marketId])) as (k & Hk & Hlog & Hfail).
      exists (S k). repeat split; [lia| |by intros ->%Hfail].
      rewrite Hlog, <- app_assoc. done.
Qed.

Lemma sweepMarket_spec (n : nat) (st : Sweep G) (entry : string * gmap string number) :
  countsOk (counts st) ->
  countsOk (counts (sweepMarket n st entry))
  /\ total (counts (sweepMarket n st entry)) = S (total (counts st))
  /\ exists k, k <= n
       /\ attempts (sweepMarket n st entry) = attempts st ++ replicate k entry.1.
Proof.
  intros [Hsum Hres]. destruct entry as [marketId tokens]. unfold sweepMarket, countsOk.
  destruct (resolutionStatus marketId tokens (sweepOutside st)) as [[|[|]] g]; cbn.
  - split; [lia|]. split; [done|]. exists 0. cbn. split; [lia|]. by rewrite app_nil_r.
  - destruct (redeemWithRetry_spec n marketId g (attempts st)) as (k & Hk & Hlog & _).
    destruct (redeemWithRetry n marketId g (attempts st)) as [[[|] g'] log]; cbn in *.
    all: split; [lia|]; split; [done|]; exists k; by subst.
  - split; [lia|]. split; [done|]. exists 0. cbn. split; [lia|]. by rewrite app_nil_r.
Qed.

Lemma sweep_fold_spec (n : nat) (entries : list (string * gmap string number)) (st : Sweep G) :
  countsOk (counts st) ->
  NoDup entries.*1 ->
  let st' := foldl (sweepMarket n) st entries in
  countsOk (counts st')
  /\ total (counts st') = total (counts st) + length entries
  /\ forall m, count_occ string_dec (attempts st') m
               <= count_occ string_dec (attempts st) m
                  + (if bool_decide (m ∈ entries.*1) then n else 0).
Proof.
  revert st. induction entries as [|entry entries IH]; intros st Hok Hnd; cbn.
  - repeat split; [apply Hok..|lia|intros m; lia].
  - rewrite fmap_cons in Hnd. apply list.NoDup_cons in Hnd as [Hfresh Hnd].
    destruct (sweepMarket_spec n st entry Hok) as (Hok1 & Htot1 & k & Hk & Hatt1).
    destruct (IH (sweepMarket n st entry) Hok1 Hnd) as (Hok2 & Htot2 & Hatt2).
    split; [done|]. split; [lia|].
    intros m. specialize (Hatt2 m).
    rewrite Hatt1, count_occ_app, count_occ_replicate in Hatt2.
    destruct (string_dec entry.1 m) as [<-|Hne].
    + rewrite bool_decide_false in Hatt2 by done.
      rewrite bool_decide_true by (rewrite ?fmap_cons; apply list_elem_of_here). lia.
    + destruct (bool_decide (m ∈ entries.*1)) eqn:Hin.
      * apply bool_decide_eq_true in Hin.
        rewrite bool_decide_true by (rewrite ?fmap_cons; by apply list_elem_of_further). lia.
      * case_bool_decide; lia.
Qed.

(** C8: the counts of a sweep satisfy [redeemed + failed <= resolved <=
    total]; every market of the ledger is examined, whatever happened to the
    markets before it; no market is attempted more than [maxRetries] times,
    and a redemption is given up only after [maxRetries] failed attempts.
    With three markets, of which one fails every attempt, one redeems and
    one is unresolved, the counts are 3, 2, 1, 1, the redeemed market leaves
    the ledger and the failed one stays. *)
Theorem sweep_counts_invariant (maxRetries : nat) (l : Ledger) (g : G) :
  let st := sweep maxRetries l g in
  let c := counts st in
  redeemed c + failed c <= resolved c
  /\ resolved c <= total c
  /\ total c = base.size l
  /\ (forall m, count_occ string_dec (attempts st) m <= maxRetries)
  /\ (forall m g0 log, (redeemWithRetry maxRetries m g0 log).1.1 = false ->
        (redeemWithRetry maxRetries m g0 log).2 = log ++ replicate maxRetries m)
  /\ (let st3 := sweep 3 Scripted.threeMarkets Scripted.sweepScript in
      counts st3 = {| total := 3; resolved := 2; redeemed := 1; failed := 1 |}
      /\ sweepLedger st3 !! "B" = None
      /\ sweepLedger st3 !! "A" = Scripted.threeMarkets !! "A"
      /\ attempts st3 = ["A"; "A"; "A"; "B"]).
Proof.
  intros st c. subst c st. unfold sweep.
  match goal with
  | |- context [foldl _ ?st0 _] =>
      destruct (sweep_fold_spec maxRetries (map_to_list l) st0) as ((Hsum & Hres) & Htot & Hatt)
  end.
  { split; cbn; lia. }
  { apply NoDup_fst_map_to_list. }
  cbn in Htot. rewrite length_map_to_list in Htot.
  split; [done|]. split; [done|]. split; [done|]. split.
  { intros m. specialize (Hatt m). cbn in Hatt. case_bool_decide; lia. }
  split.
  { intros m g0 log Hfail.
    destruct (redeemWithRetry_spec maxRetries m g0 log) as (k & _ & Hlog & Hk).
    by rewrite Hlog, (Hk Hfail). }
  by vm_compute.
Qed.

End SweepFacts.

(** ** The claims on concrete runs *)

Section Runs.

Import Scripted.

(** C2, on a run: a BUY of intended spend 4 at price 0.5 is answered with a
    reported tokens-received figure of "0".  The figure is there, yet the
    ledger is credited with the estimate 4 / 0.5 = 8, and the log says the
    amount was not in the response. *)
Theorem copyTrade_buy_zero_fill_credits_estimate :
  let o := options (buyEvent "BUY") in
  let w := world ∅ (script (Ret (Some (response (Some "4") (Some "0")))) (ofZ 10)) in
  reportedFigure (takingAmount (response (Some "4") (Some "0"))) = Some zero
  /\ getHoldings (ledger w) "m" "t" = zero
  /\ getHoldings (ledger (snd (copyTrade o w))) "m" "t" = ofZ 8
  /\ (Warning, "Using estimated token amount (actual amount not in response)")
     ∈ logs (snd (copyTrade o w)).
Proof.
  cbv zeta. repeat split; try by vm_compute.
  apply list_elem_of_In. vm_compute. tauto.
Qed.


Lemma copyTrade_sell_no_holdings_witness :
  let o := options (event "sell" one one) in
  let w := world ∅ (script (Ret None) zero) in
  fst (copyTrade o w) = Ret (failure "No holdings available to sell")
  /\ calls (snd (copyTrade o w)) = []
  /\ ledger (snd (copyTrade o w)) = ∅.
Proof.
  intros o w.
  destruct (copyTrade_sell_no_holdings o w 0%Qc eq_refl eq_refl) as (Hr & Hc & Hl & _).
  - by vm_compute.
  - by rewrite Hr, Hc, Hl.
Defined.

Lemma copyTrade_sell_full_exit_witness :
  let o := options (event "SELL" one (ofZ 2)) in
  let reported := world (holding (ofZ 5)) (script (Ret (Some (response (Some "5") None))) zero) in
  let silent := world (holding (ofZ 5)) (script (Ret (Some (response None None))) zero) in
  getHoldings (ledger (snd (copyTrade o reported))) "m" "t" = zero
  /\ getHoldings (ledger (snd (copyTrade o silent))) "m" "t" = zero.
Proof.
  intros o reported silent.
  assert (Hq : (0 < Q2Qc 5)%Qc) by (by vm_compute).
  split.
  - destruct (copyTrade_sell_full_exit o reported (Q2Qc 5) eq_refl eq_refl Hq) as [_ Hrec].
    destruct (Hrec (response (Some "5") None) (outside reported) (ofZ 5)
                eq_refl eq_refl eq_refl) as (_ & _ & _ & Hget).
    refine (eq_trans Hget _). by vm_compute.
  - destruct (copyTrade_sell_full_exit o silent (Q2Qc 5) eq_refl eq_refl Hq) as [_ Hrec].
    destruct (Hrec (response None None) (outside silent) (ofZ 5)
                eq_refl eq_refl eq_refl) as (_ & _ & _ & Hget).
    refine (eq_trans Hget _). by vm_compute.
Defined.




(** A side written with the long s (U+017F) is a SELL, as in JavaScript. *)
Example copyTrade_long_s_side_sells :
  isSell (event (bytes [197; 191] ++ "ell") one (ofZ 2)) = true
  /\ isSell (event "hold" one (ofZ 2)) = false.
Proof. by split. Qed.

Lemma copyTrade_never_throws_witness :
  let o := options (buyEvent "BUY") in
  let e := "not enough balance / allowance" in
  let w := world (holding (ofZ 5)) (script (Throw e) (ofZ 10)) in
  balanceOrAllowanceError e = true
  /\ fst (copyTrade o w) = Ret (failure e)
  /\ calls (snd (copyTrade o w))
     = balanceCalls buyOrder ++ [postCall o buyOrder]
       ++ [CallDisplayWalletBalance; CallUpdateBalanceAllowance]
  /\ ledger (snd (copyTrade o w)) = holding (ofZ 5).
Proof.
  intros o e w. split; [done|].
  destruct (@copyTrade_never_throws Script collaborators o w) as [_ Hcatch].
  assert (Htry : copyTradeTry o w = (Throw e, snd (copyTradeTry o w))) by (by vm_compute).
  destruct (Hcatch e (snd (copyTradeTry o w)) Htry) as (Hr & _ & _ & Hl & Hc).
  split; [exact Hr|]. split; [rewrite Hc|rewrite Hl]; by vm_compute.
Defined.


Lemma main_without_interval_never_pauses_witness :
  let w0 := world ∅ (script (Ret None) (ofZ 10)) in
  let w1 := snd (main (env (Some "0")) w0) in
  let b := plainBot (Some zero) in
  let m := tradeMessage (buyEvent "BUY") in
  noRedeemInterval (env (Some "0"))
  /\ intervals w1 = []
  /\ isCopyTradingPaused (snd (onMessage b m w1)) = false.
Proof.
  intros w0 w1 b m.
  assert (Hoff : noRedeemInterval (env (Some "0"))) by (by right).
  split; [exact Hoff|].
  assert (Hmain : main (env (Some "0")) w0 = (Ret (Some b), w1)) by (by vm_compute).
  clearbody w1 b m.
  destruct (@main_without_interval_never_pauses Script collaborators
              (env (Some "0")) w0 w1 b Hoff eq_refl Hmain) as (Hi & _ & Hrun).
  split; [exact Hi|].
  assert (Hsteps : steps b (w1, 0) (snd (onMessage b m w1), 0)).
  { eapply steps_step; [apply steps_refl|apply step_message]. }
  destruct (Hrun _ _ Hsteps) as (_ & Hp & _). exact Hp.
Defined.

Lemma sweep_counts_invariant_witness :
  (Redeem.redeemWithRetry 3 "A" sweepScript []).2 = ["A"; "A"; "A"]
  /\ total (Redeem.counts (Redeem.sweep 3 threeMarkets sweepScript)) = 3.
Proof.
  destruct (@sweep_counts_invariant Script redeemGateway 3 threeMarkets sweepScript)
    as (_ & _ & Htotal & _ & Hgiveup & _).
  split; [exact (Hgiveup "A" sweepScript [] eq_refl)|].
  rewrite Htotal. by vm_compute.
Defined.

End Runs.

(** * Further properties of the code *)

(** ** Order builder: every path of [copyTrade] *)

Section CopyTradePaths.
Context {G : Type} `{Collaborators G}.

#[local] Arguments mayNotHaveSucceeded : simpl never.
#[local] Arguments gt : simpl never.
#[local] Arguments le : simpl never.
#[local] Arguments div : simpl never.
#[local] Arguments parseFloat : simpl never.
#[local] Arguments copyTradeCatch : simpl never.
#[local] Arguments removeHoldings : simpl never.
#[local] Arguments addHoldings : simpl never.

Ltac open_path :=
  cbn;
  first [ exists []; split; [by rewrite app_nil_r|]
        | eexists; split; [rewrite <- ?app_assoc; cbn; reflexivity|] ].

Ltac finish_path :=
  open_path; cbn; repeat split; try lia; try (by left); try done; eauto.

Lemma copyTradeTry_sell_paths (o : CopyTradeOptions) (w : World G) :
  isSell (trade o) = true -> tryOutcome o w (copyTradeTry o w).
Proof.
  intros Hsell. unfold tryOutcome, copyTradeTry, copyTradeSell, ledgerMove, postCall.
  rewrite Hsell. monad_unfold. fold (orderOptionsOf o). cbn.
  destruct (le _ zero); [finish_path|]. cbn.
  match goal with |- context [createAndPostMarketOrder ?a ?b ?c ?d] =>
    destruct (createAndPostMarketOrder a b c d) as [[[r|]|e] g'] end; cbn.
  all: repeat match goal with
         | |- context [if mayNotHaveSucceeded ?x then _ else _] =>
             destruct (mayNotHaveSucceeded x); cbn
         | |- context [if truthyOptStr ?x then _ else _] =>
             destruct (truthyOptStr x); cbn
         | |- context [if gt ?x zero then _ else _] =>
             destruct (gt x zero) eqn:?; cbn
         end.
  all: open_path.
  all: cbn; repeat split; try lia; try (by left); eauto.
  all: right; eexists; split; [eassumption|done].
Qed.

Lemma copyTradeTry_buy_paths (o : CopyTradeOptions) (w : World G) :
  isSell (trade o) = false -> tryOutcome o w (copyTradeTry o w).
Proof.
  intros Hsell.
  unfold tryOutcome, copyTradeTry, copyTradeBuy, copyTradeBuySubmit, ledgerMove, postCall.
  rewrite Hsell. monad_unfold. fold (orderOptionsOf o). cbn.
  destruct (tradeToMarketOrder o) as [mo|e0]; cbn; [|finish_path].
  destruct (updateBalanceAllowance (outside w)) as [[[]|e1] g1]; cbn.
  all: destruct (displayWalletBalance g1) as [[[]|e2] g2]; cbn; [|finish_path].
  all: destruct (validateBuyOrderBalance (amount mo) g2) as [[bc|e3] g3]; cbn; [|finish_path].
  all: destruct (valid bc); cbn; [|destruct (le (available bc) zero); cbn; [finish_path|]].
  all: match goal with |- context [createAndPostMarketOrder ?a ?b ?c ?d] =>
         destruct (createAndPostMarketOrder a b c d) as [[[r|]|e] g'] end; cbn.
  all: repeat match goal with
         | |- context [gt zero zero] => rewrite gt_zero_zero; cbn
         | |- context [if mayNotHaveSucceeded ?x then _ else _] =>
             destruct (mayNotHaveSucceeded x); cbn
         | |- context [if truthyOptStr ?x then _ else _] =>
             destruct (truthyOptStr x); cbn
         | |- context [if gt ?x zero then _ else _] =>
             destruct (gt x zero) eqn:?; cbn
         | |- context [approveTokensAfterBuy ?g] =>
             destruct (approveTokensAfterBuy g) as [[[]|?] ?]; cbn
         end.
  all: open_path.
  all: cbn; repeat split; try lia; try (by left); eauto.
  all: right; eexists; split; [eassumption|done].
Qed.

Lemma copyTradeTry_paths (o : CopyTradeOptions) (w : World G) :
  tryOutcome o w (copyTradeTry o w).
Proof.
  destruct (isSell (trade o)) eqn:Hsell;
    [by apply copyTradeTry_sell_paths|by apply copyTradeTry_buy_paths].
Qed.

(** The diagnostic pass posts no order. *)
Lemma postsOf_diagnostic (e : string) (display : completion unit) :
  postsOf (if balanceOrAllowanceError e then diagnosticCalls display else []) = [].
Proof. destruct (balanceOrAllowanceError e), display; reflexivity. Qed.

(** Every path of [copyTrade], [catch] block included. *)
Lemma copyTrade_paths (o : CopyTradeOptions) (w : World G) :
  exists r rest,
    fst (copyTrade o w) = Ret r
    /\ calls (snd (copyTrade o w)) = calls w ++ rest
    /\ length (postsOf rest) <= 1
    /\ ledgerMove o (ledger w) (ledger (snd (copyTrade o w)))
    /\ if success r
       then exists mo, marketOrder r = Some mo /\ postsOf rest = [postCall o mo]
       else ledger (snd (copyTrade o w)) = ledger w.
Proof.
  pose proof (copyTradeTry_paths o w) as (rest & Hc & Hn & Hmove & _ & Hout).
  unfold copyTrade, tryCatch.
  destruct (copyTradeTry o w) as [[r|e] w1]; cbn in *.
  - exists r, rest. repeat split; try done.
    destruct (success r); [done|]. by destruct Hout.
  - destruct (copyTradeCatch_spec e w1) as (Hr & Hl & Hcc).
    exists (failure e), (rest ++ (if balanceOrAllowanceError e
                                  then diagnosticCalls (fst (displayWalletBalance (outside w1)))
                                  else [])).
    rewrite Hr, Hl, Hcc, Hc, Hout. cbn.
    repeat split; try done.
    + by rewrite app_assoc.
    + unfold postsOf in *. rewrite List.filter_app.
      fold (postsOf (if balanceOrAllowanceError e
                     then diagnosticCalls (fst (displayWalletBalance (outside w1)))
                     else [])).
      by rewrite postsOf_diagnostic, app_nil_r.
    + by left.
Qed.

Lemma getHoldings_setHoldings_other (l : Ledger) (m t m' t' : string) (v : number) :
  (m', t') ≠ (m, t) ->
  getHoldings (setHoldings l m t v) m' t' = getHoldings l m' t'.
Proof.
  intros Hne. unfold getHoldings, setHoldings, tokensOf.
  destruct (decide (m = m')) as [<-|Hm].
  - rewrite lookup_insert_eq. cbn.
    rewrite lookup_insert_ne; [done|]. intros <-. by apply Hne.
  - by rewrite lookup_insert_ne.
Qed.

Lemma ledgerMove_elsewhere (o : CopyTradeOptions) (l l' : Ledger) :
  ledgerMove o l l' ->
  sameElsewhere (conditionId (trade o)) (asset (trade o)) l l'.
Proof.
  intros [->|(x & _ & ->)] m t Hne; [done|].
  destruct (isSell (trade o)).
  - unfold removeHoldings.
    destruct (tokensOf l (conditionId (trade o)) !! asset (trade o)); [|done].
    by apply getHoldings_setHoldings_other.
  - by apply getHoldings_setHoldings_other.
Qed.

(** X1: a call of [copyTrade] that reports failure has left the ledger as
    it was, whatever went wrong and wherever. *)
Theorem copyTrade_failure_keeps_ledger (o : CopyTradeOptions) (w : World G) :
  match fst (copyTrade o w) with
  | Ret r => success r = true \/ ledger (snd (copyTrade o w)) = ledger w
  | Throw _ => False
  end.
Proof.
  destruct (copyTrade_paths o w) as (r & rest & -> & _ & _ & _ & Hout).
  destruct (success r); [by left|by right].
Qed.

(** X2: one call of [copyTrade] posts at most one order, with no second
    attempt; when it reports success it has posted exactly one order, the
    one its result carries. *)
Theorem copyTrade_posts_at_most_once (o : CopyTradeOptions) (w : World G) :
  exists rest,
    calls (snd (copyTrade o w)) = calls w ++ rest
    /\ length (postsOf rest) <= 1
    /\ match fst (copyTrade o w) with
       | Ret r =>
           if success r
           then exists mo, marketOrder r = Some mo /\ postsOf rest = [postCall o mo]
           else True
       | Throw _ => False
       end.
Proof.
  destruct (copyTrade_paths o w) as (r & rest & -> & Hc & Hn & _ & Hout).
  exists rest. repeat split; [done..|]. by destruct (success r).
Qed.

(** X3: one call of [copyTrade] changes the ledger at most at the key of the
    event, and at most once: a SELL removes a positive amount, a BUY adds
    one; every other holding reads as before. *)
Theorem copyTrade_moves_one_key (o : CopyTradeOptions) (w : World G) :
  ledgerMove o (ledger w) (ledger (snd (copyTrade o w)))
  /\ sameElsewhere (conditionId (trade o)) (asset (trade o))
       (ledger w) (ledger (snd (copyTrade o w))).
Proof.
  destruct (copyTrade_paths o w) as (r & rest & _ & _ & _ & Hmove & _).
  split; [done|by apply ledgerMove_elsewhere].
Qed.

(** X4: when the gateway answers a SELL with [null], the order has been
    posted but the call reports failure, with the message of the TypeError,
    and the ledger keeps the whole holding. *)
Theorem copyTrade_sell_null_response (o : CopyTradeOptions) (w : World G) (q : Qc) (g' : G) :
  isSell (trade o) = true ->
  getHoldings (ledger w) (conditionId (trade o)) (asset (trade o)) = Num q ->
  (0 < q)%Qc ->
  createAndPostMarketOrder (sellOrder o (Num q)) (orderOptionsOf o)
    (default FAK (orderType o)) (outside w) = (Ret None, g') ->
  let out := copyTrade o w in
  fst out = Ret (failure (nullPropertyMessage "makingAmount"))
  /\ ledger (snd out) = ledger w
  /\ exists rest, calls (snd out) = calls w ++ postCall o (sellOrder o (Num q)) :: rest
                  /\ postsOf rest = [].
Proof.
  intros Hsell Hget Hq Hpost out. subst out.
  assert (Hle : le (Num q) zero = false).
  { apply bool_decide_eq_false. by apply Qclt_not_le. }
  unfold copyTrade, copyTradeTry, copyTradeSell, postCall, sellOrder in *.
  rewrite Hsell. monad_unfold. fold (orderOptionsOf o). cbn.
  rewrite Hget, Hle. cbn. rewrite Hpost. cbn.
  change (mayNotHaveSucceeded None) with true. cbn.
  match goal with |- context [copyTradeCatch ?e ?w0] =>
    destruct (copyTradeCatch_spec e w0) as (-> & -> & ->) end.
  cbn. repeat split.
  eexists. split; [by rewrite <- app_assoc|]. apply postsOf_diagnostic.
Qed.

(** X5: the allowance refresh before a BUY and the token approval after it
    are best effort: when both throw, the BUY still succeeds, the ledger is
    credited, and each failure is logged as a warning. *)
Theorem copyTrade_buy_best_effort (o : CopyTradeOptions) (w : World G) (mo : UserMarketOrder)
    (bc : BalanceCheck) (r : OrderResponse) (e1 e2 : string) (g1 g2 g3 g4 g5 : G) :
  isSell (trade o) = false ->
  tradeToMarketOrder o = Ret mo ->
  updateBalanceAllowance (outside w) = (Throw e1, g1) ->
  displayWalletBalance g1 = (Ret tt, g2) ->
  validateBuyOrderBalance (amount mo) g2 = (Ret bc, g3) ->
  valid bc = true ->
  createAndPostMarketOrder mo (orderOptionsOf o) (default FAK (orderType o)) g3
    = (Ret (Some r), g4) ->
  approveTokensAfterBuy g4 = (Throw e2, g5) ->
  let out := copyTrade o w in
  fst out = Ret (succeeded r mo)
  /\ ledger (snd out)
     = credit (ledger w) (conditionId (trade o)) (asset (trade o))
         (creditedTokens (trade o) mo r)
  /\ outside (snd out) = g5
  /\ (Warning, "Failed to update balance allowance") ∈ logs (snd out)
  /\ (Warning, "Failed to approve tokens after buy") ∈ logs (snd out).
Proof.
  intros Hsell Hmo Hup Hdisp Hval Hvalid Hpost Happ out. subst out.
  unfold copyTrade, copyTradeTry, copyTradeBuy, copyTradeBuySubmit, creditedTokens,
    reportedFigure, credit.
  rewrite Hsell. monad_unfold. fold (orderOptionsOf o). cbn.
  rewrite Hmo. cbn. rewrite Hup. cbn. rewrite Hdisp. cbn. rewrite Hval. cbn.
  rewrite Hvalid. cbn. rewrite Hpost. cbn.
  destruct (mayNotHaveSucceeded (Some r)); cbn.
  all: destruct (truthyOptStr (takingAmount r)); cbn.
  all: rewrite ?gt_zero_zero.
  all: repeat match goal with
         | |- context [if gt ?a ?b then _ else _] => destruct (gt a b); cbn
         end.
  all: rewrite Happ; cbn.
  all: repeat split.
  all: rewrite ?elem_of_app, ?list_elem_of_singleton; set_solver.
Qed.

(** X6: the balance display before a BUY is not best effort: when it throws,
    the call fails with its message before the balance is validated and
    before any order is posted, and the ledger is as it was. *)
Theorem copyTrade_buy_display_fatal (o : CopyTradeOptions) (w : World G) (mo : UserMarketOrder)
    (e : string) (g2 : G) :
  isSell (trade o) = false ->
  tradeToMarketOrder o = Ret mo ->
  displayWalletBalance (snd (updateBalanceAllowance (outside w))) = (Throw e, g2) ->
  let out := copyTrade o w in
  fst out = Ret (failure e)
  /\ ledger (snd out) = ledger w
  /\ exists rest,
       calls (snd out)
       = calls w ++ [CallUpdateBalanceAllowance; CallDisplayWalletBalance] ++ rest
       /\ postsOf rest = []
       /\ List.filter (fun c => match c with CallValidateBuyOrderBalance _ => true
                                           | _ => false end) rest = [].
Proof.
  intros Hsell Hmo Hdisp out. subst out.
  unfold copyTrade, copyTradeTry, copyTradeBuy.
  rewrite Hsell. monad_unfold. cbn. rewrite Hmo. cbn.
  destruct (updateBalanceAllowance (outside w)) as [[[]|e1] g1]; cbn in Hdisp |- *.
  all: rewrite Hdisp; cbn.
  all: match goal with |- context [copyTradeCatch ?e ?w0] =>
         destruct (copyTradeCatch_spec e w0) as (-> & -> & ->) end.
  all: cbn; repeat split.
  all: eexists; split; [by rewrite <- !app_assoc|].
  all: by destruct (balanceOrAllowanceError e), (displayWalletBalance g2) as [[[]|?] ?].
Qed.

(** X7: a BUY answered with a positive tokens-received figure credits the
    ledger with exactly that figure, whatever the price and the amount of
    the order. *)
Theorem copyTrade_buy_credits_reported (o : CopyTradeOptions) (w : World G)
    (mo : UserMarketOrder) (bc : BalanceCheck) (g2 g3 g4 : G) (r : OrderResponse) (x : Qc) :
  isSell (trade o) = false ->
  tradeToMarketOrder o = Ret mo ->
  displayWalletBalance (snd (updateBalanceAllowance (outside w))) = (Ret tt, g2) ->
  validateBuyOrderBalance (amount mo) g2 = (Ret bc, g3) ->
  negb (valid bc) && le (available bc) zero = false ->
  createAndPostMarketOrder (clampedOrder mo bc) (orderOptionsOf o)
    (default FAK (orderType o)) g3 = (Ret (Some r), g4) ->
  reportedFigure (takingAmount r) = Some (Num x) ->
  (0 < x)%Qc ->
  let l' := ledger (snd (copyTrade o w)) in
  l' = addHoldings (ledger w) (conditionId (trade o)) (asset (trade o)) (Num x)
  /\ getHoldings l' (conditionId (trade o)) (asset (trade o))
     = add (getHoldings (ledger w) (conditionId (trade o)) (asset (trade o))) (Num x).
Proof.
  intros Hsell Hmo Hdisp Hval Hgo Hpost Hfig Hx l'. subst l'.
  pose proof (copyTrade_buy_path o w mo bc g2 g3 Hsell Hmo Hdisp Hval) as Hpath.
  cbv zeta in Hpath. rewrite Hgo in Hpath. destruct Hpath as [_ Hdone].
  destruct (Hdone r g4 Hpost) as (_ & _ & ->).
  unfold creditedTokens. rewrite Hfig. cbn.
  assert (Hgt : gt (Num x) zero = true) by (by apply bool_decide_eq_true).
  rewrite Hgt. cbn. split; [done|]. apply getHoldings_addHoldings.
Qed.

End CopyTradePaths.

(** ** Manual placement *)

Section ManualFacts.
Context {G : Type} `{Collaborators G}.
Variable defaultOrderOptions : option string -> option bool -> CreateOrderOptions.

(** The order [placeMarketBuy] and [placeMarketSell] build. *)
Lemma placeMarket_paths (side : Side) (tokenID : string) (amount : number)
    (options : option PlaceOptions) (w : World G) :
  let place := match side with
               | BUY => placeMarketBuy defaultOrderOptions
               | SELL => placeMarketSell defaultOrderOptions
               end in
  let mo := {| tokenID := tokenID; orderSide := side; amount := amount;
               orderPrice := options ≫= placePrice;
               moOrderType := Some (default FAK (options ≫= placeOrderType)) |} in
  let post := CallCreateAndPostMarketOrder mo
                (defaultOrderOptions (options ≫= placeTickSize) (options ≫= placeNegRisk))
                (default FAK (options ≫= placeOrderType)) in
  let answer := createAndPostMarketOrder mo
                  (defaultOrderOptions (options ≫= placeTickSize) (options ≫= placeNegRisk))
                  (default FAK (options ≫= placeOrderType)) (outside w) in
  let out := place tokenID amount options w in
  fst out = Ret (match fst answer with
                 | Ret (Some r) => succeeded r mo
                 | Ret None => failure (nullPropertyMessage "orderID")
                 | Throw e => failure e
                 end)
  /\ snd out = withOutside (snd answer) (withCall post w).
Proof.
  destruct side; cbn; unfold placeMarketBuy, placeMarketSell; monad_unfold; cbn.
  all: match goal with |- context [createAndPostMarketOrder ?a ?b ?c ?d] =>
         destruct (createAndPostMarketOrder a b c d) as [[[r|]|e] g'] end; by cbn.
Qed.

(** X8: [placeMarketBuy] and [placeMarketSell] always return.  The result
    is a success exactly when the gateway returned a response; when the
    gateway throws, the failure carries its message; when it returns
    [null], the message of the TypeError. *)
Theorem placeMarket_always_returns (tokenID : string) (amount : number)
    (options : option PlaceOptions) (w : World G) :
  let orderOptions :=
    defaultOrderOptions (options ≫= placeTickSize) (options ≫= placeNegRisk) in
  let orderType := default FAK (options ≫= placeOrderType) in
  let order side :=
    {| tokenID := tokenID; orderSide := side; amount := amount;
       orderPrice := options ≫= placePrice; moOrderType := Some orderType |} in
  let result side answer :=
    Ret (match answer with
         | Ret (Some r) => succeeded r (order side)
         | Ret None => failure (nullPropertyMessage "orderID")
         | Throw e => failure e
         end) in
  fst (placeMarketBuy defaultOrderOptions tokenID amount options w)
  = result BUY (fst (createAndPostMarketOrder (order BUY) orderOptions orderType (outside w)))
  /\ fst (placeMarketSell defaultOrderOptions tokenID amount options w)
     = result SELL (fst (createAndPostMarketOrder (order SELL) orderOptions orderType (outside w))).
Proof.
  intros orderOptions orderType order result. split.
  - exact (proj1 (placeMarket_paths BUY tokenID amount options w)).
  - exact (proj1 (placeMarket_paths SELL tokenID amount options w)).
Qed.

(** X9: [placeMarketBuy] and [placeMarketSell] go round the ledger: they
    make one call, the post of the order as given, and whether it succeeds
    or not the ledger, the log, the pause flag and the timers are as
    before.  A manual sale does not reduce the recorded holding. *)
Theorem placeMarket_bypasses_ledger (tokenID : string) (amount : number)
    (options : option PlaceOptions) (w : World G) :
  let orderOptions :=
    defaultOrderOptions (options ≫= placeTickSize) (options ≫= placeNegRisk) in
  let orderType := default FAK (options ≫= placeOrderType) in
  let order side :=
    {| tokenID := tokenID; orderSide := side; amount := amount;
       orderPrice := options ≫= placePrice; moOrderType := Some orderType |} in
  let untouched side (w' : World G) :=
    ledger w' = ledger w
    /\ logs w' = logs w
    /\ isCopyTradingPaused w' = isCopyTradingPaused w
    /\ intervals w' = intervals w
    /\ calls w' = calls w ++ [CallCreateAndPostMarketOrder (order side) orderOptions orderType] in
  untouched BUY (snd (placeMarketBuy defaultOrderOptions tokenID amount options w))
  /\ untouched SELL (snd (placeMarketSell defaultOrderOptions tokenID amount options w)).
Proof.
  intros orderOptions orderType order untouched. split.
  - destruct (placeMarket_paths BUY tokenID amount options w) as [_ Hw].
    cbv zeta in Hw. cbn in Hw. by rewrite Hw.
  - destruct (placeMarket_paths SELL tokenID amount options w) as [_ Hw].
    cbv zeta in Hw. cbn in Hw. by rewrite Hw.
Qed.

End ManualFacts.

(** ** The bot: messages, sweeps, start-up *)

Section BotFacts.
Context {G : Type} `{Collaborators G}.

#[local] Arguments copyTrade : simpl never.

Lemma copyTrade_returns (o : CopyTradeOptions) (w : World G) :
  exists r, fst (copyTrade o w) = Ret r.
Proof. destruct (copyTrade_paths o w) as (r & _ & Hr & _). by exists r. Qed.

(** X10: the handler contains every error of the copy.  It throws in one
    case only: on a trade of the tracked wallet whose timestamp is outside
    the range of dates, where it throws the RangeError of [toISOString];
    then the trade has been logged as detected, and nothing has been
    copied. *)
Theorem onMessage_throws_only_on_bad_timestamp (b : Bot) (m : Message) (w : World G) :
  let bad := isTrackedTrade b m
             && negb (validTime (mul (timestamp (payload m)) (ofZ 1000))) in
  fst (onMessage b m w) = (if bad then Throw invalidTimeMessage else Ret tt)
  /\ (if bad
      then snd (onMessage b m w) = withLog (Warning, "Trade detected!") w
      else True).
Proof.
  unfold isTrackedTrade, onMessage, toISOString.
  destruct (bool_decide (topic m = "activity")) eqn:Ht; cbn.
  2:{ rewrite bool_decide_true by (by apply bool_decide_eq_false in Ht). by cbn. }
  rewrite bool_decide_false by (apply bool_decide_eq_true in Ht; by intros []).
  destruct (bool_decide (type m = "trades")) eqn:Hy; cbn.
  2:{ rewrite bool_decide_true by (by apply bool_decide_eq_false in Hy). by cbn. }
  rewrite bool_decide_false by (apply bool_decide_eq_true in Hy; by intros []). cbn.
  destruct (fromTarget b (payload m)); cbn; [|done].
  monad_unfold. cbn.
  destruct (validTime (mul (timestamp (payload m)) (ofZ 1000))); cbn; [|done].
  split; [|done].
  destruct (orderBuilder b), (enableCopyTrading b), (isCopyTradingPaused w); cbn; try done.
  match goal with |- context [copyTrade ?o ?w0] =>
    destruct (copyTrade_returns o w0) as [r Hr]; destruct (copyTrade o w0) as [c w1] end.
  cbn in Hr. subst c. cbn. by split_ifs.
Qed.

(** X11: handling a message never sets or clears the pause flag, never
    registers a timer and never starts a sweep; it only appends calls. *)
Theorem onMessage_keeps_pause_and_timers (b : Bot) (m : Message) (w : World G) :
  let w' := snd (onMessage b m w) in
  isCopyTradingPaused w' = isCopyTradingPaused w
  /\ intervals w' = intervals w
  /\ exists rest, calls w' = calls w ++ rest /\ List.filter isSweepCall rest = [].
Proof.
  destruct (preserves_onMessage b m w) as (Hp & Hi & rest & Hc & Hrest).
  repeat split; [done..|]. exists rest. split; [done|].
  clear Hc. induction rest as [|c rest IH]; [done|].
  cbn in *. apply andb_prop in Hrest as [Hc Hrest].
  destruct (isSweepCall c); [done|]. by apply IH.
Qed.

(** While the pause flag is set no message calls a collaborator or touches
    the ledger. *)
Lemma onMessage_paused (b : Bot) (m : Message) (w : World G) :
  isCopyTradingPaused w = true ->
  let w' := snd (onMessage b m w) in
  calls w' = calls w /\ ledger w' = ledger w /\ outside w' = outside w
  /\ isCopyTradingPaused w' = true.
Proof.
  intros Hp. unfold onMessage, toISOString.
  destruct (bool_decide (topic m ≠ "activity") || bool_decide (type m ≠ "trades")); [done|].
  destruct (fromTarget b (payload m)); [|done].
  monad_unfold. cbn.
  destruct (validTime (mul (timestamp (payload m)) (ofZ 1000))); cbn; [|done].
  rewrite Hp.
  by destruct (orderBuilder b), (enableCopyTrading b).
Qed.

(** X12: from the moment [performRedemption] has set the flag, that is
    while its sweep is under way, a message is never copied: it makes no
    call and leaves the ledger and the flag alone. *)
Theorem no_copy_while_sweeping (b : Bot) (m : Message) (w : World G) :
  let w1 := snd (redemptionBegin w) in
  let w2 := snd (onMessage b m w1) in
  isCopyTradingPaused w1 = true
  /\ calls w1 = calls w
  /\ calls w2 = calls w1
  /\ ledger w2 = ledger w
  /\ isCopyTradingPaused w2 = true.
Proof.
  cbv zeta.
  assert (Hb : isCopyTradingPaused (snd (redemptionBegin w)) = true
               /\ calls (snd (redemptionBegin w)) = calls w
               /\ ledger (snd (redemptionBegin w)) = ledger w) by done.
  destruct Hb as (Hp & Hc & Hl).
  destruct (onMessage_paused b m _ Hp) as (Hc2 & Hl2 & _ & Hp2).
  repeat split; [done..|congruence|done].
Qed.

(** What is left of [performRedemption] after its [await]: the sweep is
    called once, with 3 retries; its ledger and its outside world are taken
    over; the flag is cleared and the timers stay. *)
Lemma redemptionResume_effects (w : World G) :
  let answer := autoRedeemResolvedMarkets 3 (ledger w) (outside w) in
  let w' := snd (redemptionResume w) in
  fst (redemptionResume w) = Ret tt
  /\ calls w' = calls w ++ [CallAutoRedeemResolvedMarkets 3]
  /\ ledger w' = fst (snd answer)
  /\ outside w' = snd (snd answer)
  /\ intervals w' = intervals w
  /\ isCopyTradingPaused w' = false.
Proof.
  unfold redemptionResume, redemptionSweep, redemptionCatch, redemptionFinally.
  monad_unfold. cbn.
  destruct (autoRedeemResolvedMarkets 3 (ledger w) (outside w)) as [[r|e] [l' g']]; cbn.
  all: split_ifs; by repeat split.
Qed.

(** X13: the pause flag is a flag, not a count.  When the timer fires again
    while a sweep is still under way, the first sweep to end clears the flag
    although the other is still running. *)
Theorem pause_flag_is_not_counted (b : Bot) (w : World G) (ms : number) :
  ms ∈ intervals w ->
  let w1 := snd (redemptionBegin w) in
  let w2 := snd (redemptionBegin w1) in
  let w3 := snd (redemptionResume w2) in
  steps b (w, 0) (w3, 1)
  /\ isCopyTradingPaused w2 = true
  /\ isCopyTradingPaused w3 = false.
Proof.
  intros Hin w1 w2 w3.
  assert (Hi1 : intervals w1 = intervals w) by done.
  split; [|split; [done|]].
  - eapply steps_step; [eapply steps_step; [eapply steps_step; [apply steps_refl|]|]|].
    + apply (step_timer b ms w 0 Hin).
    + apply (step_timer b ms w1 1). by rewrite Hi1.
    + apply (step_sweep b w2 1).
  - by destruct (redemptionResume_effects w2) as (_ & _ & _ & _ & _ & ?).
Qed.

(** X14: one run of [performRedemption] is its beginning followed by its
    resumption; it calls the sweep exactly once, with [maxRetries] 3, takes
    over the ledger the sweep leaves, keeps the timers, and calls no other
    collaborator. *)
Theorem performRedemption_runs_one_sweep (w : World G) :
  let answer := autoRedeemResolvedMarkets 3 (ledger w) (outside w) in
  let w' := snd (performRedemption w) in
  w' = snd (redemptionResume (snd (redemptionBegin w)))
  /\ calls w' = calls w ++ [CallAutoRedeemResolvedMarkets 3]
  /\ ledger w' = fst (snd answer)
  /\ outside w' = snd (snd answer)
  /\ intervals w' = intervals w.
Proof.
  cbv zeta.
  assert (Hsplit : snd (performRedemption w) = snd (redemptionResume (snd (redemptionBegin w)))).
  { unfold performRedemption, redemptionResume, redemptionBegin. monad_unfold. cbn.
    by destruct (redemptionSweep _) as [[[]|e] w1]. }
  rewrite Hsplit.
  destruct (redemptionResume_effects (snd (redemptionBegin w))) as (_ & Hc & Hl & Ho & Hi & _).
  by repeat split.
Qed.

Ltac run_main :=
  repeat match goal with
         | |- context [createCredential ?g] =>
             destruct (createCredential g) as [[|] ?] eqn:?; cbn
         | |- context [mcpServerRip ?g] =>
             destruct (mcpServerRip g) as [[[]|?] ?] eqn:?; cbn
         | |- context [getClobClient ?g] =>
             destruct (getClobClient g) as [[[]|?] ?] eqn:?; cbn
         | |- context [approveUSDCAllowance ?g] =>
             destruct (approveUSDCAllowance g) as [[[]|?] ?] eqn:?; cbn
         | |- context [updateBalanceAllowance ?g] =>
             destruct (updateBalanceAllowance g) as [[[]|?] ?] eqn:?; cbn
         | |- context [displayWalletBalance ?g] =>
             destruct (displayWalletBalance g) as [[[]|?] ?] eqn:?; cbn
         | |- context [connect ?g] =>
             destruct (connect g) as [[[]|?] ?] eqn:?; cbn
         end.

(** X15: without a tracked wallet [main] stops at once: it logs the error
    and exits before it creates credentials, loads the extra package,
    builds a client or connects; no timer is registered. *)
Theorem main_without_target_wallet (env : Env) (w : World G) :
  truthyOptStr (TARGET_WALLET env) = false ->
  main env w
  = (Ret None,
     withLog (Error, "TARGET_WALLET environment variable is not set")
       (withLog (Info, "Starting the bot...") w)).
Proof. intros Hno. unfold main. monad_unfold. cbn. by rewrite Hno. Qed.

(** X16: with a redemption interval that parses to a positive number of
    minutes, a [main] that starts registers exactly one timer, of that many
    minutes times 60000 milliseconds, and does not run a sweep itself: the
    first sweep waits for the first tick, and the flag is clear. *)
Theorem main_with_interval_registers_timer (env : Env) (w0 w1 : World G) (b : Bot) (q : Qc) :
  truthyOptStr (REDEEM_DURATION env) = true ->
  parseInt (default "" (REDEEM_DURATION env)) = Num q ->
  (0 < q)%Qc ->
  main env w0 = (Ret (Some b), w1) ->
  intervals w1 = intervals w0 ++ [mul (mul (Num q) (ofZ 60)) (ofZ 1000)]
  /\ isCopyTradingPaused w1 = false
  /\ redeemDurationMinutes b = Some (Num q)
  /\ List.filter isSweepCall (calls w1) = List.filter isSweepCall (calls w0).
Proof.
  intros Hset Hparse Hq.
  assert (Hon : truthyOptNum
                  (if truthyOptStr (REDEEM_DURATION env)
                   then Some (parseInt (default "" (REDEEM_DURATION env))) else None)
                && gt (default NaN
                         (if truthyOptStr (REDEEM_DURATION env)
                          then Some (parseInt (default "" (REDEEM_DURATION env))) else None))
                     zero = true).
  { rewrite Hset, Hparse. cbn. rewrite bool_decide_false.
    - by rewrite bool_decide_true.
    - intros ->. by apply (Qcle_not_lt 0 0) in Hq. }
  unfold main, updateClobBalanceAllowance. rewrite Hon.
  monad_unfold. cbn -[mul].
  destruct (truthyOptStr (TARGET_WALLET env)); cbn -[mul]; [|by intros [=]].
  destruct (bool_decide (ENABLE_COPY_TRADING env ≠ Some "false")); cbn -[mul].
  all: repeat match goal with
         | |- context [createCredential ?g] =>
             destruct (createCredential g) as [[|] ?]; cbn -[mul]
         | |- context [mcpServerRip ?g] =>
             destruct (mcpServerRip g) as [[[]|?] ?]; cbn -[mul]
         | |- context [getClobClient ?g] =>
             destruct (getClobClient g) as [[[]|?] ?]; cbn -[mul]
         | |- context [approveUSDCAllowance ?g] =>
             destruct (approveUSDCAllowance g) as [[[]|?] ?]; cbn -[mul]
         | |- context [updateBalanceAllowance ?g] =>
             destruct (updateBalanceAllowance g) as [[[]|?] ?]; cbn -[mul]
         | |- context [displayWalletBalance ?g] =>
             destruct (displayWalletBalance g) as [[[]|?] ?]; cbn -[mul]
         | |- context [connect ?g] =>
             destruct (connect g) as [[[]|?] ?]; cbn -[mul]
         end.
  all: try (by intros [=]).
  all: intros [= <- <-]; cbn -[mul].
  all: rewrite Hset, Hparse; cbn -[mul].
  all: rewrite <- ?app_assoc, ?List.filter_app; cbn -[mul].
  all: by rewrite ?app_nil_r.
Qed.

(** X17: the bot [main] starts has an order builder exactly when copy
    trading is enabled and [getClobClient] returned; a failure of the
    allowance approval, of the balance sync or of the balance display does
    not take the builder away.  With copy trading disabled [main] neither
    builds a client nor approves allowances: besides the credentials and
    the extra package it only connects. *)
Theorem main_order_builder (env : Env) (w0 w1 : World G) (b : Bot) :
  main env w0 = (Ret (Some b), w1) ->
  enableCopyTrading b = bool_decide (ENABLE_COPY_TRADING env ≠ Some "false")
  /\ (orderBuilder b = true
      <-> enableCopyTrading b = true
          /\ fst (getClobClient (clientWorld (outside w0))) = Ret tt)
  /\ (enableCopyTrading b = false ->
      calls w1 = calls w0 ++ [CallCreateCredential; CallMcpServerRip; CallConnect]).
Proof.
  unfold main, updateClobBalanceAllowance, clientWorld.
  monad_unfold. cbn.
  destruct (truthyOptStr (TARGET_WALLET env)); cbn; [|by intros [=]].
  destruct (createCredential (outside w0)) as [cred g1]; cbn.
  destruct cred; cbn.
  all: destruct (mcpServerRip g1) as [[[]|e2] g2]; cbn; [|by intros [=]].
  all: destruct (bool_decide (ENABLE_COPY_TRADING env ≠ Some "false")); cbn.
  all: try destruct (getClobClient g2) as [[[]|e3] g3] eqn:Hclient; cbn.
  all: run_main.
  all: split_ifs.
  all: intros [= <- <-]; cbn.
  all: rewrite <- ?app_assoc; cbn.
  all: repeat split; try done; try (by intros [? ?]); try (by intros [=]).
Qed.

(** X18: start-up is fatal in two places only.  When neither the extra
    package call nor the connection throws, [main] returns a running bot
    whatever the credentials, the client, the allowance approval and the
    balance calls do; when the extra package call throws, [main] throws
    before it builds a client or connects. *)
Theorem main_fatal_calls (env : Env) (w : World G) :
  truthyOptStr (TARGET_WALLET env) = true ->
  ((forall g, fst (mcpServerRip g) = Ret tt) ->
   (forall g, fst (connect g) = Ret tt) ->
   exists b, fst (main env w) = Ret (Some b))
  /\ (forall e, fst (mcpServerRip (snd (createCredential (outside w)))) = Throw e ->
      fst (main env w) = Throw e
      /\ calls (snd (main env w)) = calls w ++ [CallCreateCredential; CallMcpServerRip]).
Proof.
  intros Htarget. unfold main, updateClobBalanceAllowance.
  monad_unfold. cbn. rewrite Htarget. cbn.
  destruct (createCredential (outside w)) as [cred g1]; cbn.
  split.
  - intros Hrip Hconnect.
    destruct cred; cbn.
    all: specialize (Hrip g1) as Hrip1.
    all: destruct (mcpServerRip g1) as [[[]|e2] g2]; cbn in *; [|done].
    all: destruct (bool_decide (ENABLE_COPY_TRADING env ≠ Some "false")); cbn.
    all: repeat match goal with
           | |- context [getClobClient ?g] =>
               destruct (getClobClient g) as [[[]|?] ?]; cbn
           | |- context [approveUSDCAllowance ?g] =>
               destruct (approveUSDCAllowance g) as [[[]|?] ?]; cbn
           | |- context [updateBalanceAllowance ?g] =>
               destruct (updateBalanceAllowance g) as [[[]|?] ?]; cbn
           | |- context [displayWalletBalance ?g] =>
               destruct (displayWalletBalance g) as [[[]|?] ?]; cbn
           end.
    all: match goal with
         | |- context [connect ?g] =>
             specialize (Hconnect g); destruct (connect g) as [[[]|?] ?]; cbn in *; [|done]
         end.
    all: split_ifs; eauto.
  - intros e He.
    destruct cred; cbn.
    all: destruct (mcpServerRip g1) as [[[]|e2] g2]; cbn in *; [done|].
    all: injection He as ->.
    all: by rewrite <- ?app_assoc.
Qed.

End BotFacts.

(** ** Token approvals *)

Section AllowanceFacts.
Context {C : Type} `{Allowance.Chain C}.

Import Allowance JsMore.

Lemma bind_run {G0 A B} (m : M G0 A) (k : A -> M G0 B) (w : World G0) :
  (m ≫= k) w = match m w with
               | (Ret a, w') => k a w'
               | (Throw e, w') => (Throw e, w')
               end.
Proof. reflexivity. Qed.

Lemma sends_refl (P : ChainCall -> Prop) (w : World (Net C)) : sends P w w.
Proof. exists []. by rewrite app_nil_r. Qed.

Lemma sends_trans (P : ChainCall -> Prop) (w1 w2 w3 : World (Net C)) :
  sends P w1 w2 -> sends P w2 w3 -> sends P w1 w3.
Proof.
  intros (r1 & Hs1 & Hf1) (r2 & Hs2 & Hf2). exists (r1 ++ r2).
  split; [by rewrite Hs2, Hs1, app_assoc|by apply Forall_app].
Qed.

Lemma keepsSent_ret (P : ChainCall -> Prop) {A} (a : A) : keepsSent (C:=C) P (mret a).
Proof. intros w. apply sends_refl. Qed.

Lemma keepsSent_throw (P : ChainCall -> Prop) {A} (e : string) :
  keepsSent (C:=C) (A:=A) P (throw e).
Proof. intros w. apply sends_refl. Qed.

Lemma keepsSent_lift (P : ChainCall -> Prop) {A} (x : completion A) :
  keepsSent (C:=C) P (lift x).
Proof. intros w. apply sends_refl. Qed.

Lemma keepsSent_logAt (P : ChainCall -> Prop) (lv : Level) (text : string) :
  keepsSent (C:=C) P (logAt lv text).
Proof. intros w. exists []. cbn. by rewrite app_nil_r. Qed.

Lemma keepsSent_bind (P : ChainCall -> Prop) {A B} (m : M (Net C) A) (k : A -> M (Net C) B) :
  keepsSent P m -> (forall a, keepsSent P (k a)) -> keepsSent P (m ≫= k).
Proof.
  intros Hm Hk w. specialize (Hm w). rewrite bind_run.
  destruct (m w) as [[a|e] w1]; cbn in *; [|done].
  eapply sends_trans; [exact Hm|apply Hk].
Qed.

Lemma keepsSent_tryCatch (P : ChainCall -> Prop) {A} (m : M (Net C) A)
    (h : string -> M (Net C) A) :
  keepsSent P m -> (forall e, keepsSent P (h e)) -> keepsSent P (tryCatch m h).
Proof.
  intros Hm Hh w. specialize (Hm w). unfold tryCatch.
  destruct (m w) as [[a|e] w1]; cbn in *; [done|].
  eapply sends_trans; [exact Hm|apply Hh].
Qed.

Lemma keepsSent_when (P : ChainCall -> Prop) (b : bool) (m : M (Net C) unit) :
  keepsSent P m -> keepsSent P (when_ b m).
Proof. intros Hm. destruct b; [done|]. apply keepsSent_ret. Qed.

Lemma keepsSent_onChain (P : ChainCall -> Prop) {A} (c : ChainCall)
    (f : C -> completion A * C) :
  P c -> keepsSent P (onChain c f).
Proof.
  intros Hc w. unfold onChain. destruct (f (chain (outside w))) as [r c']; cbn.
  exists [c]. split; [done|]. by apply Forall_singleton.
Qed.

Ltac sent_step :=
  first
    [ apply keepsSent_bind; [|intros ?]
    | apply keepsSent_tryCatch; [|intros ?]
    | apply keepsSent_when
    | apply keepsSent_logAt
    | apply keepsSent_ret
    | apply keepsSent_throw
    | apply keepsSent_lift
    | apply keepsSent_onChain; by cbn
    | match goal with
      | |- keepsSent _ (if ?b then _ else _) => destruct b
      | |- keepsSent _ (match ?x with _ => _ end) => destruct x
      end ].

Lemma raiseAllowance_grants (s : Signer) (config : ContractConfig) (address spender : string)
    (gas : GasOptions) (already : option string) (setting approved : string) :
  keepsSent (grants gas)
    (raiseAllowance s config address spender gas already setting approved).
Proof. unfold raiseAllowance. repeat sent_step. Qed.

Lemma grantOperator_grants (s : Signer) (config : ContractConfig) (address operator : string)
    (gas : GasOptions) (already : option string) (approving approved : string) :
  keepsSent (grants gas)
    (grantOperator s config address operator gas already approving approved).
Proof. unfold grantOperator. repeat sent_step. Qed.

#[local] Arguments usdcApprovals : simpl never.
#[local] Arguments tokenApprovals : simpl never.
#[local] Arguments getRpcUrl : simpl never.

Lemma usdcApprovals_grants (s : Signer) (config : ContractConfig) (address : string)
    (gas : GasOptions) (negRisk : bool) :
  keepsSent (grants gas) (usdcApprovals s config address gas negRisk).
Proof.
  unfold usdcApprovals.
  repeat first [ apply raiseAllowance_grants | apply grantOperator_grants | sent_step ].
Qed.

Lemma tokenApprovals_grants (s : Signer) (config : ContractConfig) (address : string)
    (gas : GasOptions) (negRisk : bool) :
  keepsSent (grants gas) (tokenApprovals s config address gas negRisk).
Proof.
  unfold tokenApprovals.
  repeat first [ apply grantOperator_grants | sent_step ].
Qed.

Lemma sends_impl (P Q : ChainCall -> Prop) (w w' : World (Net C)) :
  (forall c, P c -> Q c) -> sends P w w' -> sends Q w w'.
Proof.
  intros HPQ (rest & Hs & Hf). exists rest. split; [done|].
  eapply Forall_impl; [exact Hf|exact HPQ].
Qed.

Lemma grants_gasFor (answer : completion Z) (c : ChainCall) :
  grants (gasFor answer) c -> grantsAt answer c.
Proof. destruct c, answer; cbn; try done; by intros [-> ->]. Qed.

(** X19: the two approval functions only ever grant.  Every transaction
    they send is an allowance of 2^256 - 1 or an operator approval set to
    [true], never a smaller allowance or a revocation; and every transaction
    carries a gas limit of 200000 and, as gas price, what the network
    answered to the one gas price query of the run times 120 / 100, or 100
    gwei when that query failed. *)
Theorem approvals_only_grant (v : Process.Vars) (w : World (Net C)) (url : string) :
  getRpcUrl (Process.RPC_TOKEN v) (Process.chainId v) = Ret url ->
  let wallet := {| signerKey := default "" (Process.PRIVATE_KEY v); signerRpc := url |} in
  let price := fst (getGasPrice wallet (chain (outside w))) in
  sends (grantsAt price) w (snd (approveUSDCAllowance v w))
  /\ sends (grantsAt price) w (snd (approveTokensAfterBuy v w)).
Proof.
  intros Hrpc wallet price. split.
  - unfold approveUSDCAllowance.
    destruct (truthyOptStr (Process.PRIVATE_KEY v)); cbn [negb]; [|apply sends_refl].
    monad_unfold. unfold lift. cbn.
    destruct (getContractConfig (Process.chainId v)) as [config|e1]; cbn;
      [|apply sends_refl].
    rewrite Hrpc. cbn. fold wallet.
    destruct (walletAddress wallet) as [address|e3]; cbn; [|apply sends_refl].
    unfold onChain. cbn. subst price.
    destruct (getGasPrice wallet (chain (outside w))) as [[p|e4] c1]; cbn.
    all: match goal with
         | |- context [usdcApprovals ?s ?cfg ?a ?gas ?nr ?w0] =>
             pose proof (usdcApprovals_grants s cfg a gas nr w0) as Htail;
             destruct (usdcApprovals s cfg a gas nr w0) as [r w1]
         end.
    all: cbn in *; eapply sends_trans;
      [|eapply sends_impl; [apply grants_gasFor|exact Htail]].
    all: eexists; cbn; split; [reflexivity|by apply Forall_singleton].
  - unfold approveTokensAfterBuy.
    destruct (truthyOptStr (Process.PRIVATE_KEY v)); cbn [negb]; [|apply sends_refl].
    monad_unfold. unfold lift. cbn.
    destruct (getContractConfig (Process.chainId v)) as [config|e1]; cbn;
      [|apply sends_refl].
    rewrite Hrpc. cbn. fold wallet.
    destruct (walletAddress wallet) as [address|e3]; cbn; [|apply sends_refl].
    unfold onChain. cbn. subst price.
    destruct (getGasPrice wallet (chain (outside w))) as [[p|e4] c1]; cbn.
    all: match goal with
         | |- context [tokenApprovals ?s ?cfg ?a ?gas ?nr ?w0] =>
             pose proof (tokenApprovals_grants s cfg a gas nr w0) as Htail;
             destruct (tokenApprovals s cfg a gas nr w0) as [r w1]
         end.
    all: cbn in *; eapply sends_trans;
      [|eapply sends_impl; [apply grants_gasFor|exact Htail]].
    all: eexists; cbn; split; [reflexivity|by apply Forall_singleton].
Qed.

Lemma raiseAllowance_reads (s : Signer) (config : ContractConfig) (address spender : string)
    (gas : GasOptions) (already : option string) (setting approved : string) :
  (forall s token owner spender c, fst (allowance s token owner spender c) = Ret MaxUint256) ->
  keepsSent (fun c => isTransaction c = false)
    (raiseAllowance s config address spender gas already setting approved).
Proof.
  intros Hmax w. unfold raiseAllowance, onChain. monad_unfold. cbn.
  specialize (Hmax s (collateral config) address spender (chain (outside w))).
  destruct (allowance s (collateral config) address spender (chain (outside w)))
    as [[current|e] c']; cbn in *; [|discriminate].
  injection Hmax as ->. rewrite bool_decide_true by done. cbn.
  destruct already; cbn; (eexists; split; [reflexivity|by apply Forall_singleton]).
Qed.

Lemma grantOperator_reads (s : Signer) (config : ContractConfig) (address operator : string)
    (gas : GasOptions) (already : option string) (approving approved : string) :
  (forall s token owner operator c,
      fst (isApprovedForAll s token owner operator c) = Ret true) ->
  keepsSent (fun c => isTransaction c = false)
    (grantOperator s config address operator gas already approving approved).
Proof.
  intros Hyes w. unfold grantOperator, onChain. monad_unfold. cbn.
  specialize (Hyes s (conditionalTokens config) address operator (chain (outside w))).
  destruct (isApprovedForAll s (conditionalTokens config) address operator (chain (outside w)))
    as [[isApproved|e] c']; cbn in *; [|discriminate].
  injection Hyes as ->. cbn.
  destruct already; cbn; (eexists; split; [reflexivity|by apply Forall_singleton]).
Qed.

(** X20: the approval functions are safe to run again.  On a chain where
    every allowance already reads [MaxUint256] and every operator approval
    already reads [true], neither function sends a transaction: all they do
    is read. *)
Theorem approvals_idempotent (v : Process.Vars) (w : World (Net C)) :
  (forall s token owner spender c, fst (allowance s token owner spender c) = Ret MaxUint256) ->
  (forall s token owner operator c,
      fst (isApprovedForAll s token owner operator c) = Ret true) ->
  sends (fun c => isTransaction c = false) w (snd (approveUSDCAllowance v w))
  /\ sends (fun c => isTransaction c = false) w (snd (approveTokensAfterBuy v w)).
Proof.
  intros Hmax Hyes. split; revert w.
  - change (keepsSent (fun c => isTransaction c = false) (approveUSDCAllowance v)).
    unfold approveUSDCAllowance, usdcApprovals.
    repeat first [ apply raiseAllowance_reads; exact Hmax
                 | apply grantOperator_reads; exact Hyes
                 | sent_step ].
  - change (keepsSent (fun c => isTransaction c = false) (approveTokensAfterBuy v)).
    unfold approveTokensAfterBuy, tokenApprovals.
    repeat first [ apply grantOperator_reads; exact Hyes | sent_step ].
Qed.

(** X21: the approval functions check before they touch the chain.  Without
    a private key they throw at once; with a key, when [getContractConfig]
    throws, as it does for a chain it does not know, they throw its error,
    whatever [getRpcUrl] would have said; in both cases nothing was logged
    and no call reached the chain. *)
Theorem approvals_fail_fast (v : Process.Vars) (w : World (Net C)) :
  (truthyOptStr (Process.PRIVATE_KEY v) = false ->
   approveUSDCAllowance v w = (Throw "PRIVATE_KEY not found in environment", w)
   /\ approveTokensAfterBuy v w = (Throw "PRIVATE_KEY not found in environment", w))
  /\ (forall e,
        truthyOptStr (Process.PRIVATE_KEY v) = true ->
        getContractConfig (Process.chainId v) = Throw e ->
        approveUSDCAllowance v w = (Throw e, w)
        /\ approveTokensAfterBuy v w = (Throw e, w)).
Proof.
  split.
  - intros Hkey. unfold approveUSDCAllowance, approveTokensAfterBuy. by rewrite Hkey.
  - intros e Hkey Hconfig.
    unfold approveUSDCAllowance, approveTokensAfterBuy. rewrite Hkey.
    monad_unfold. unfold lift. cbn. by rewrite Hconfig.
Qed.

(** X22: [getRpcUrl] serves chain 137 and chain 80002 and nothing else: for
    these two it returns a URL, for every other chain identifier, NaN
    included, it throws.  An empty RPC token counts as none: the public
    endpoint is used. *)
Theorem getRpcUrl_supported (rpcToken : option string) (chainId : number) :
  ((exists url, getRpcUrl rpcToken chainId = Ret url)
   <-> chainId = ofZ 137 \/ chainId = ofZ 80002)
  /\ getRpcUrl (Some "") chainId = getRpcUrl None chainId
  /\ getRpcUrl None (ofZ 137) = Ret "https://polygon-rpc.com"
  /\ getRpcUrl None (ofZ 80002) = Ret "https://rpc-amoy.polygon.technology".
Proof.
  split; [|by repeat split].
  unfold getRpcUrl, eqNum.
  destruct chainId as [|q]; cbn.
  - split; [by intros [url [=]]|by intros [[=]|[=]]].
  - destruct (decide (q = Q2Qc (inject_Z 137))) as [->|H137].
    { rewrite bool_decide_true by done. split; [by left|].
      intros _. destruct (truthyOptStr rpcToken); by eexists. }
    rewrite (bool_decide_false _ H137).
    destruct (decide (q = Q2Qc (inject_Z 80002))) as [->|H80002].
    { rewrite bool_decide_true by done. split; [by right|].
      intros _. destruct (truthyOptStr rpcToken); by eexists. }
    rewrite (bool_decide_false _ H80002).
    split; [by intros [url [=]]|].
    intros [[= ->]|[= ->]]; done.
Qed.

Lemma raiseAllowance_targets (s : Signer) (config : ContractConfig) (address spender : string)
    (gas : GasOptions) (already : option string) (setting approved : string) :
  spender = conditionalTokens config \/ spender = exchange config ->
  keepsSent (targetsMain config)
    (raiseAllowance s config address spender gas already setting approved).
Proof. intros Hs. unfold raiseAllowance. repeat sent_step. Qed.

Lemma grantOperator_targets (s : Signer) (config : ContractConfig) (address operator : string)
    (gas : GasOptions) (already : option string) (approving approved : string) :
  operator = conditionalTokens config \/ operator = exchange config ->
  keepsSent (targetsMain config)
    (grantOperator s config address operator gas already approving approved).
Proof. intros Hs. unfold grantOperator. repeat sent_step. Qed.

(** X23: unless NEG_RISK is exactly "true", the approval functions leave
    the neg-risk contracts alone: every allowance or approval they read or
    write is for the conditional tokens contract or for the exchange. *)
Theorem approvals_without_neg_risk (v : Process.Vars) (w : World (Net C))
    (config : ContractConfig) :
  Process.NEG_RISK v ≠ Some "true" ->
  getContractConfig (Process.chainId v) = Ret config ->
  sends (targetsMain config) w (snd (approveUSDCAllowance v w))
  /\ sends (targetsMain config) w (snd (approveTokensAfterBuy v w)).
Proof.
  intros Hoff Hconfig.
  assert (Husdc : forall s a gas,
            keepsSent (targetsMain config) (usdcApprovals s config a gas false)).
  { intros s a gas. unfold usdcApprovals, when_.
    repeat first [ apply raiseAllowance_targets; by auto
                 | apply grantOperator_targets; by auto
                 | sent_step ]. }
  assert (Htok : forall s a gas,
            keepsSent (targetsMain config) (tokenApprovals s config a gas false)).
  { intros s a gas. unfold tokenApprovals, when_.
    repeat first [ apply grantOperator_targets; by auto | sent_step ]. }
  split.
  - unfold approveUSDCAllowance. rewrite (bool_decide_false _ Hoff).
    destruct (truthyOptStr (Process.PRIVATE_KEY v)); cbn [negb]; [|apply sends_refl].
    monad_unfold. unfold lift. cbn. rewrite Hconfig. cbn.
    destruct (getRpcUrl (Process.RPC_TOKEN v) (Process.chainId v)) as [rpcUrl|e2]; cbn;
      [|apply sends_refl].
    destruct (walletAddress _) as [address|e3]; cbn; [|apply sends_refl].
    unfold onChain. cbn.
    destruct (getGasPrice _ (chain (outside w))) as [[p|e4] c1]; cbn.
    all: match goal with
         | |- context [usdcApprovals ?s ?cfg ?a ?gas false ?w0] =>
             pose proof (Husdc s a gas w0) as Htail;
             destruct (usdcApprovals s cfg a gas false w0) as [r w1]
         end.
    all: cbn in *; eapply sends_trans; [|exact Htail].
    all: eexists; cbn; split; [reflexivity|by apply Forall_singleton].
  - unfold approveTokensAfterBuy. rewrite (bool_decide_false _ Hoff).
    destruct (truthyOptStr (Process.PRIVATE_KEY v)); cbn [negb]; [|apply sends_refl].
    monad_unfold. unfold lift. cbn. rewrite Hconfig. cbn.
    destruct (getRpcUrl (Process.RPC_TOKEN v) (Process.chainId v)) as [rpcUrl|e2]; cbn;
      [|apply sends_refl].
    destruct (walletAddress _) as [address|e3]; cbn; [|apply sends_refl].
    unfold onChain. cbn.
    destruct (getGasPrice _ (chain (outside w))) as [[p|e4] c1]; cbn.
    all: match goal with
         | |- context [tokenApprovals ?s ?cfg ?a ?gas false ?w0] =>
             pose proof (Htok s a gas w0) as Htail;
             destruct (tokenApprovals s cfg a gas false w0) as [r w1]
         end.
    all: cbn in *; eapply sends_trans; [|exact Htail].
    all: eexists; cbn; split; [reflexivity|by apply Forall_singleton].
Qed.

End AllowanceFacts.

(** ** Exchange client and credentials *)

Section ClobFacts.
Context {N : Type} `{Clob.Library N}.

Import Clob JsMore.

Lemma eqNum_refl (q : Qc) : eqNum (Num q) (Num q) = true.
Proof. cbn. by rewrite bool_decide_true. Qed.

(** A call that returns leaves a cache that answers for its configuration
    with the client returned. *)
Lemma getClobClient_caches (v : Process.Vars) (w w1 : World (Sys N)) (c : ClobClient) (q : Qc) :
  getClobClient v w = (Ret c, w1) ->
  Process.chainId v = Num q ->
  cacheHit (outside w1) (Num q) (Process.host v) = Some c
  /\ is_Some (credentialFile (outside w1)).
Proof.
  unfold getClobClient, newClobClient, update, lift. monad_unfold. cbn.
  intros Hrun Hq. rewrite Hq in Hrun.
  destruct (credentialFile (outside w)) as [[creds|e]|] eqn:Hfile; cbn in Hrun; try done.
  destruct (cacheHit (outside w) (Num q) (Process.host v)) as [c0|] eqn:Hhit; cbn in Hrun.
  - injection Hrun as <- <-. rewrite Hfile. eauto.
  - destruct (truthyOptStr (Process.PRIVATE_KEY v)); cbn in Hrun; [|done].
    destruct (newWallet _) as [wallet|e]; cbn in Hrun; [|done].
    injection Hrun as <- <-. cbn. unfold cacheHit. cbn.
    rewrite !bool_decide_true by done. by rewrite Hfile.
Qed.

(** X24: the client is cached by chain and host alone.  After a call that
    returned, a second call for the same (parsable) chain and the same host
    returns the very same client object and changes nothing, even if the
    credential file or the private key have changed in between: the cached
    client keeps the credentials it was built with. *)
Theorem getClobClient_cache_hit (v v' : Process.Vars) (w w1 : World (Sys N))
    (c : ClobClient) (q : Qc) (creds' : ApiKeyCreds) :
  getClobClient v w = (Ret c, w1) ->
  Process.chainId v = Num q ->
  Process.chainId v' = Num q ->
  Process.host v' = Process.host v ->
  getClobClient v' (withFile (Some (Ret creds')) w1)
  = (Ret c, withFile (Some (Ret creds')) w1).
Proof.
  intros Hrun Hq Hq' Hhost.
  destruct (getClobClient_caches v w w1 c q Hrun Hq) as [Hhit _].
  unfold getClobClient, lift. monad_unfold. cbn.
  rewrite Hq', Hhost.
  change (cacheHit _ (Num q) (Process.host v))
    with (cacheHit (outside w1) (Num q) (Process.host v)).
  by rewrite Hhit.
Qed.

(** X25: the credential file is read before the cache is looked at.  When
    the file is missing, or does not parse, [getClobClient] throws, even
    with a client in the cache, and leaves the cache as it was. *)
Theorem getClobClient_reads_file_first (v : Process.Vars) (w : World (Sys N)) :
  match credentialFile (outside w) with
  | None =>
      getClobClient v w
      = (Throw "Credential file not found. Run createCredential() first.", w)
  | Some (Throw e) => getClobClient v w = (Throw e, w)
  | Some (Ret _) => True
  end.
Proof.
  unfold getClobClient, lift. monad_unfold. cbn.
  by destruct (credentialFile (outside w)) as [[creds|e]|].
Qed.

(** X26: a chain identifier that does not parse defeats the cache: NaN
    equals nothing, itself included, so every call that returns has built a
    new client object. *)
Theorem getClobClient_nan_chain_never_hits (v : Process.Vars) (w w1 : World (Sys N))
    (c : ClobClient) :
  Process.chainId v = NaN ->
  getClobClient v w = (Ret c, w1) ->
  clientRef c = allocated (outside w)
  /\ allocated (outside w1) = S (allocated (outside w))
  /\ cachedClient (outside w1) = Some c.
Proof.
  intros Hnan. unfold getClobClient, newClobClient, update, lift. monad_unfold. cbn.
  rewrite Hnan.
  assert (Hmiss : cacheHit (outside w) NaN (Process.host v) = None).
  { unfold cacheHit. destruct (cachedClient _); [|done].
    destruct (cachedConfig _) as [[[|cid] h]|]; done. }
  rewrite Hmiss.
  destruct (credentialFile (outside w)) as [[creds|e]|]; cbn; try done.
  destruct (truthyOptStr (Process.PRIVATE_KEY v)); cbn; [|done].
  destruct (newWallet _) as [wallet|e]; cbn; [|done].
  by intros [= <- <-].
Qed.

(** X27: after [clearClobClientCache] the next call that returns has built
    a new client, from the current environment and the current file, with
    the secret in standard base64, and has cached it. *)
Theorem clearClobClientCache_forces_new_client (v : Process.Vars) (w w1 : World (Sys N))
    (c : ClobClient) :
  getClobClient v (snd (clearClobClientCache w)) = (Ret c, w1) ->
  clientRef c = allocated (outside w)
  /\ allocated (outside w1) = S (allocated (outside w))
  /\ cachedClient (outside w1) = Some c
  /\ cachedConfig (outside w1) = Some (Process.chainId v, Process.host v)
  /\ clientHost c = Process.host v
  /\ clientChainId c = Process.chainId v
  /\ exists creds,
       credentialFile (outside w) = Some (Ret creds)
       /\ clientCreds c
          = Some {| key := key creds; secret := standardBase64 (secret creds);
                    passphrase := passphrase creds |}.
Proof.
  unfold getClobClient, clearClobClientCache, newClobClient, update, lift, standardBase64.
  monad_unfold. cbn.
  destruct (credentialFile (outside w)) as [[creds|e]|]; cbn; try done.
  destruct (truthyOptStr (Process.PRIVATE_KEY v)); cbn; [|done].
  destruct (newWallet _) as [wallet|e]; cbn; [|done].
  intros [= <- <-]. cbn. repeat split. by exists creds.
Qed.

Lemma replaceAll_length (c d : ascii) (s : string) :
  String.length (replaceAll c d s) = String.length s.
Proof. induction s as [|x s IH]; cbn; [done|]. by rewrite IH. Qed.

Lemma includes_char (c x : ascii) (r : string) :
  includes (String x r) (String c EmptyString)
  = bool_decide (c = x) || includes r (String c EmptyString).
Proof.
  cbn. destruct (ascii_dec c x) as [->|Hne].
  - rewrite bool_decide_true by done. by destruct r.
  - by rewrite bool_decide_false by done.
Qed.

Lemma replaceAll_cons (c d x : ascii) (s : string) :
  replaceAll c d (String x s)
  = String (if bool_decide (x = c) then d else x) (replaceAll c d s).
Proof. done. Qed.

Lemma replaceAll_absent (c d : ascii) (s : string) :
  c ≠ d -> includes (replaceAll c d s) (String c EmptyString) = false.
Proof.
  intros Hne. induction s as [|x s IH]; [done|].
  rewrite replaceAll_cons, includes_char, IH, orb_false_r.
  destruct (decide (x = c)) as [->|Hx].
  - rewrite (bool_decide_true (c = c)) by done. by rewrite bool_decide_false.
  - rewrite (bool_decide_false (x = c)) by done. by rewrite bool_decide_false.
Qed.

Lemma replaceAll_keeps_absent (c d e : ascii) (s : string) :
  e ≠ d ->
  includes s (String e EmptyString) = false ->
  includes (replaceAll c d s) (String e EmptyString) = false.
Proof.
  intros Hne. induction s as [|x s IH]; [done|].
  rewrite replaceAll_cons, !includes_char.
  intros Hs. apply orb_false_elim in Hs as [Hx Hs].
  rewrite (IH Hs), orb_false_r.
  destruct (decide (x = c)) as [->|Hxc].
  - rewrite (bool_decide_true (c = c)) by done. by rewrite bool_decide_false.
  - by rewrite (bool_decide_false (x = c)) by done.
Qed.

Lemma replaceAll_id (c d : ascii) (s : string) :
  includes s (String c EmptyString) = false -> replaceAll c d s = s.
Proof.
  induction s as [|x s IH]; [done|].
  rewrite replaceAll_cons, includes_char.
  intros Hs. apply orb_false_elim in Hs as [Hx Hs].
  rewrite (IH Hs). apply bool_decide_eq_false in Hx.
  by rewrite bool_decide_false by congruence.
Qed.

(** X28: the secret handed to the client is in standard base64: it has the
    length of the secret in the file, holds neither "-" nor "_", and a
    secret that holds neither is handed over unchanged; converting twice is
    converting once. *)
Theorem standardBase64_spec (s : string) :
  String.length (standardBase64 s) = String.length s
  /\ includes (standardBase64 s) "-" = false
  /\ includes (standardBase64 s) "_" = false
  /\ standardBase64 (standardBase64 s) = standardBase64 s
  /\ (includes s "-" = false -> includes s "_" = false -> standardBase64 s = s).
Proof.
  unfold standardBase64.
  assert (Hdash : includes (replaceAll "_" "/" (replaceAll "-" "+" s)) "-" = false).
  { apply replaceAll_keeps_absent; [done|]. by apply replaceAll_absent. }
  assert (Hunder : includes (replaceAll "_" "/" (replaceAll "-" "+" s)) "_" = false).
  { by apply replaceAll_absent. }
  repeat split; try done.
  - by rewrite !replaceAll_length.
  - by rewrite (replaceAll_id "-" "+" _ Hdash), (replaceAll_id "_" "/" _ Hunder).
  - intros H1 H2. by rewrite (replaceAll_id "-" "+" _ H1), (replaceAll_id "_" "/" _ H2).
Qed.

(** X29: [createCredential] never throws: a missing key, a malformed key, a
    failed key derivation and a failed write all end in [null] after one
    error log, with the credential file as it was.  It never touches the
    client cache, and when it returns a credential the file holds exactly
    that credential. *)
Theorem createCredential_never_throws (v : Process.Vars) (w : World (Sys N)) :
  exists r w1,
    createCredential v w = (Ret r, w1)
    /\ cachedClient (outside w1) = cachedClient (outside w)
    /\ cachedConfig (outside w1) = cachedConfig (outside w)
    /\ match r with
       | Some credential =>
           credentialFile (outside w1) = Some (Ret credential)
           /\ logs w1 = (logs w ++ [(Success, "Credential created successfully")])%list
       | None =>
           credentialFile (outside w1) = credentialFile (outside w)
           /\ exists text, logs w1 = (logs w ++ [(Error, text)])%list
       end.
Proof.
  unfold createCredential, saveCredential, newClobClient, update, lift, tryCatch.
  monad_unfold. cbn.
  destruct (truthyOptStr (Process.PRIVATE_KEY v)); cbn.
  - destruct (newWallet _) as [wallet|e]; cbn.
    + destruct (createOrDeriveApiKey _ _) as [[credential|e] n']; cbn.
      * destruct (dataWritable (outside w)); cbn; eauto 10.
      * eauto 10.
    + eauto 10.
  - eauto 10.
Qed.

(** X30: [createCredential] followed by [getClobClient] in the same
    environment.  When [createCredential] returned a credential,
    [getClobClient] returns; with a client cached for this chain and host it
    returns that client, built from the credentials of before, and otherwise
    a new client holding the new credential with its secret in standard
    base64. *)
Theorem createCredential_then_getClobClient (v : Process.Vars) (w w1 : World (Sys N))
    (credential : ApiKeyCreds) :
  createCredential v w = (Ret (Some credential), w1) ->
  exists c w2,
    getClobClient v w1 = (Ret c, w2)
    /\ match cacheHit (outside w) (Process.chainId v) (Process.host v) with
       | Some cached => c = cached /\ w2 = w1
       | None =>
           clientCreds c
           = Some {| key := key credential;
                     secret := standardBase64 (secret credential);
                     passphrase := passphrase credential |}
           /\ cachedClient (outside w2) = Some c
       end.
Proof.
  unfold createCredential, getClobClient, saveCredential, newClobClient, update, lift,
    tryCatch, standardBase64, cacheHit.
  monad_unfold. cbn.
  destruct (truthyOptStr (Process.PRIVATE_KEY v)) eqn:Hkey; cbn; [|by intros [=]].
  destruct (newWallet _) as [wallet|e] eqn:Hwallet; cbn; [|by intros [=]].
  destruct (createOrDeriveApiKey _ _) as [[made|e] n']; cbn; [|by intros [=]].
  destruct (dataWritable (outside w)); cbn; [|by intros [=]].
  intros [= <- <-]. cbn.
  destruct (cachedClient (outside w)) as [cached|]; cbn.
  - destruct (cachedConfig (outside w)) as [[cid h]|]; cbn.
    + destruct (eqNum cid (Process.chainId v) && bool_decide (h = Process.host v)); cbn.
      * eauto.
      * eauto.
    + eauto.
  - eauto.
Qed.

End ClobFacts.


(** ** Runs of the further properties *)

Section FurtherRuns.

Import Scripted Scenarios.

Lemma copyTrade_sell_null_response_witness :
  let o := options (event "SELL" one (ofZ 2)) in
  let w := world (holding (ofZ 5)) (script (Ret None) zero) in
  fst (copyTrade o w)
  = Ret (failure "Cannot read properties of null (reading 'makingAmount')")
  /\ ledger (snd (copyTrade o w)) = holding (ofZ 5).
Proof.
  intros o w.
  assert (Hq : (0 < Q2Qc 5)%Qc) by (by vm_compute).
  destruct (@copyTrade_sell_null_response Script collaborators o w (Q2Qc 5) (outside w)
              eq_refl eq_refl Hq eq_refl) as (Hr & Hl & _).
  by split.
Defined.

Lemma copyTrade_buy_best_effort_witness :
  let o := options (buyEvent "BUY") in
  let r := response None (Some "7") in
  let w := world ∅ (flaky (Ret (Some r)) (ofZ 10)) in
  fst (copyTrade o w) = Ret (succeeded r buyOrder)
  /\ getHoldings (ledger (snd (copyTrade o w))) "m" "t" = ofZ 7
  /\ (Warning, "Failed to update balance allowance") ∈ logs (snd (copyTrade o w)).
Proof.
  intros o r w.
  destruct (@copyTrade_buy_best_effort Script collaborators o w buyOrder
              (Scripted.validateBuyOrderBalance (ofZ 10) (amount buyOrder)) r
              "allowance refresh timed out" "replacement fee too low"
              (outside w) (outside w) (outside w) (outside w) (outside w)
              eq_refl eq_refl eq_refl eq_refl eq_refl eq_refl eq_refl eq_refl)
    as (Hr & Hl & _ & Hlog & _).
  split; [exact Hr|]. split; [|exact Hlog].
  rewrite Hl. by vm_compute.
Defined.

Lemma copyTrade_buy_display_fatal_witness :
  let o := options (buyEvent "BUY") in
  let w := world (holding (ofZ 5)) (blind (Ret (Some (response None (Some "7")))) (ofZ 10)) in
  fst (copyTrade o w) = Ret (failure "balance query failed")
  /\ ledger (snd (copyTrade o w)) = holding (ofZ 5).
Proof.
  intros o w.
  destruct (@copyTrade_buy_display_fatal Script collaborators o w buyOrder
              "balance query failed" (outside w) eq_refl eq_refl eq_refl)
    as (Hr & Hl & _).
  by split.
Defined.

Lemma copyTrade_buy_credits_reported_witness :
  let o := options (buyEvent "BUY") in
  let r := response None (Some "7") in
  let w := world (holding (ofZ 5)) (script (Ret (Some r)) (ofZ 10)) in
  getHoldings (ledger (snd (copyTrade o w))) "m" "t" = ofZ 12.
Proof.
  intros o r w.
  assert (Hx : (0 < Q2Qc (inject_Z 7))%Qc) by (by vm_compute).
  destruct (@copyTrade_buy_credits_reported Script collaborators o w buyOrder
              (Scripted.validateBuyOrderBalance (ofZ 10) (amount buyOrder))
              (outside w) (outside w) (outside w) r (Q2Qc (inject_Z 7))
              eq_refl eq_refl eq_refl eq_refl eq_refl eq_refl eq_refl Hx)
    as [_ Hget].
  refine (eq_trans Hget _). by vm_compute.
Defined.

Lemma pause_flag_is_not_counted_witness :
  let w2 := snd (redemptionBegin (snd (redemptionBegin ticking))) in
  let w3 := snd (redemptionResume w2) in
  steps bot (ticking, 0) (w3, 1)
  /\ isCopyTradingPaused w2 = true
  /\ isCopyTradingPaused w3 = false.
Proof.
  intros w2 w3.
  assert (Hin : ofZ 3600000 ∈ intervals ticking) by apply list_elem_of_here.
  exact (@pause_flag_is_not_counted Script collaborators bot ticking (ofZ 3600000) Hin).
Defined.

Lemma main_without_target_wallet_witness :
  fst (main noTarget (world ∅ (script (Ret None) (ofZ 10)))) = Ret None
  /\ calls (snd (main noTarget (world ∅ (script (Ret None) (ofZ 10))))) = [].
Proof.
  by rewrite (@main_without_target_wallet Script collaborators noTarget
                (world ∅ (script (Ret None) (ofZ 10))) eq_refl).
Defined.

Lemma main_with_interval_registers_timer_witness :
  let w0 := world ∅ (script (Ret None) (ofZ 10)) in
  let w1 := snd (main (env (Some "60")) w0) in
  intervals w1 = [ofZ 3600000]
  /\ isCopyTradingPaused w1 = false
  /\ List.filter isSweepCall (calls w1) = [].
Proof.
  intros w0 w1.
  pose (b := plainBot (Some (ofZ 60))).
  assert (Hmain : main (env (Some "60")) w0 = (Ret (Some b), w1)) by (by vm_compute).
  assert (Hq : (0 < Q2Qc (inject_Z 60))%Qc) by (by vm_compute).
  clearbody w1 b.
  destruct (@main_with_interval_registers_timer Script collaborators
              (env (Some "60")) w0 w1 b (Q2Qc (inject_Z 60)) eq_refl eq_refl Hq Hmain)
    as (Hi & Hp & _ & Hs).
  split; [|by split].
  rewrite Hi. reflexivity.
Defined.

Lemma main_order_builder_witness :
  let w0 := world ∅ noClient in
  match fst (main (env None) w0) with
  | Ret (Some b) => enableCopyTrading b = true /\ orderBuilder b = false
  | _ => False
  end.
Proof.
  intros w0.
  pose (w1 := snd (main (env None) w0)).
  pose (b := {| targetWalletAddress := "0xabc"; botSizeMultiplier := one;
                botMaxAmount := None; botOrderType := FAK; botTickSize := "0.01";
                botNegRisk := false; enableCopyTrading := true;
                redeemDurationMinutes := None; orderBuilder := false |}).
  assert (Hmain : main (env None) w0 = (Ret (Some b), w1)) by (by vm_compute).
  destruct (@main_order_builder Script collaborators (env None) w0 w1 b Hmain)
    as (He & Hb & _).
  rewrite Hmain. cbn [fst]. split; [by rewrite He|].
  destruct (orderBuilder b) eqn:Hob; [|done].
  destruct Hb as [Hb _]. by destruct (Hb eq_refl) as [_ Hclient].
Defined.

Lemma main_fatal_calls_witness :
  exists b, fst (main (env None) (world ∅ noClient)) = Ret (Some b).
Proof.
  destruct (@main_fatal_calls Script collaborators (env None) (world ∅ noClient) eq_refl)
    as [Hruns _].
  apply Hruns; intros g; reflexivity.
Defined.

Lemma approvals_idempotent_witness :
  let v := vars (Some "0xkey") None (Some "true") in
  sends (fun c => isTransaction c = false) (net tt)
    (snd (@Allowance.approveUSDCAllowance unit settled v (net tt)))
  /\ sends (fun c => isTransaction c = false) (net tt)
       (snd (@Allowance.approveTokensAfterBuy unit settled v (net tt))).
Proof.
  intros v.
  apply (@approvals_idempotent unit settled v (net tt)); intros; reflexivity.
Defined.

Lemma approvals_only_grant_witness :
  let v := vars (Some "0xkey") None None in
  let w := net (C:=list (string * string)) [] in
  let wallet := {| Allowance.signerKey := "0xkey";
                   Allowance.signerRpc := "https://polygon-rpc.com" |} in
  let w' := snd (@Allowance.approveTokensAfterBuy _ busy v w) in
  Forall (grantsAt (Ret 30000000000%Z)) (Allowance.sent (outside w'))
  /\ List.filter isTransaction (Allowance.sent (outside w'))
     = [Allowance.CallSetApprovalForAll wallet "0xConditionalTokens" "0xExchange" true
          {| Allowance.gasPrice := 36000000000; Allowance.gasLimit := 200000 |}].
Proof.
  intros v w wallet w'. split; [|by vm_compute].
  destruct (@approvals_only_grant _ busy v w "https://polygon-rpc.com" eq_refl)
    as [_ (rest & Hsent & Hall)].
  fold w' in Hsent. by rewrite Hsent.
Defined.

Lemma approvals_fail_fast_witness :
  let w := net (C:=list (string * string)) [] in
  @Allowance.approveUSDCAllowance _ fresh (vars None None None) w
  = (Throw "PRIVATE_KEY not found in environment", w)
  /\ @Allowance.approveTokensAfterBuy _ fresh (vars (Some "0xkey") (Some "1") None) w
     = (Throw "Invalid network", w).
Proof.
  intros w. split.
  - destruct (@approvals_fail_fast _ fresh (vars None None None) w) as [Hkey _].
    by destruct (Hkey eq_refl).
  - destruct (@approvals_fail_fast _ fresh (vars (Some "0xkey") (Some "1") None) w)
      as [_ Hchain].
    by destruct (Hchain "Invalid network" eq_refl eq_refl).
Defined.

Lemma approvals_without_neg_risk_witness :
  let v := vars (Some "0xkey") None (Some "TRUE") in
  let w := net (C:=list (string * string)) [] in
  sends (targetsMain contracts) w (snd (@Allowance.approveUSDCAllowance _ fresh v w))
  /\ sends (targetsMain contracts) w (snd (@Allowance.approveTokensAfterBuy _ fresh v w)).
Proof.
  intros v w.
  assert (Hoff : Process.NEG_RISK v ≠ Some "true") by done.
  exact (@approvals_without_neg_risk _ fresh v w contracts Hoff eq_refl).
Defined.

Lemma getClobClient_cache_hit_witness :
  let v := vars (Some "0xkey") None None in
  let w := sys (Some (Ret derived)) in
  let rotated := {| Clob.key := "other-key"; Clob.secret := "b3RoZXI="; Clob.passphrase := "p" |} in
  let first := @Clob.getClobClient unit library v w in
  let second :=
    @Clob.getClobClient unit library (vars None (Some "137") None)
      (withFile (Some (Ret rotated)) (snd first)) in
  match fst first with
  | Ret c =>
      fst second = Ret c
      /\ Clob.clientCreds c
         = Some {| Clob.key := "api-key"; Clob.secret := "c2Vj+cmV0/w==";
                   Clob.passphrase := "pass" |}
  | Throw _ => False
  end.
Proof.
  intros v w rotated first second.
  pose (c := {| Clob.clientHost := "https://clob.polymarket.com";
                Clob.clientChainId := Process.chainId v;
                Clob.clientWallet := "0xWallet";
                Clob.clientCreds :=
                  Some {| Clob.key := "api-key"; Clob.secret := "c2Vj+cmV0/w==";
                          Clob.passphrase := "pass" |};
                Clob.clientRef := 0 |}).
  pose (q := match Process.chainId v with Num q => q | NaN => 0%Qc end).
  assert (Hrun : @Clob.getClobClient unit library v w = (Ret c, snd first))
    by (by vm_compute).
  pose proof (@getClobClient_cache_hit unit library v (vars None (Some "137") None)
                w (snd first) c q rotated Hrun eq_refl eq_refl eq_refl) as Hhit.
  unfold first at 1. rewrite Hrun. cbn [fst]. split; [|done].
  unfold second. by rewrite Hhit.
Defined.

Lemma getClobClient_nan_chain_never_hits_witness :
  let v := vars (Some "0xkey") (Some "polygon") None in
  let w := sys (Some (Ret derived)) in
  let first := @Clob.getClobClient unit library v w in
  let second := @Clob.getClobClient unit library v (snd first) in
  Process.chainId v = NaN
  /\ match fst first, fst second with
     | Ret c1, Ret c2 => Clob.clientRef c1 = 0 /\ Clob.clientRef c2 = 1
     | _, _ => False
     end.
Proof.
  intros v w first second. split; [done|].
  destruct (fst first) as [c1|e] eqn:Hfirst; [|by vm_compute in Hfirst].
  destruct (fst second) as [c2|e] eqn:Hsecond; [|by vm_compute in Hsecond].
  assert (Hone : @Clob.getClobClient unit library v w = (Ret c1, snd first)).
  { rewrite <- Hfirst. apply surjective_pairing. }
  assert (Htwo : @Clob.getClobClient unit library v (snd first) = (Ret c2, snd second)).
  { rewrite <- Hsecond. apply surjective_pairing. }
  destruct (@getClobClient_nan_chain_never_hits unit library v w (snd first) c1
              eq_refl Hone) as (Href1 & _).
  destruct (@getClobClient_nan_chain_never_hits unit library v (snd first) (snd second) c2
              eq_refl Htwo) as (Href2 & _).
  by rewrite Href1, Href2.
Defined.

Lemma clearClobClientCache_forces_new_client_witness :
  let v := vars (Some "0xkey") None None in
  let w := snd (@Clob.getClobClient unit library v (sys (Some (Ret derived)))) in
  let again := @Clob.getClobClient unit library v (snd (Clob.clearClobClientCache w)) in
  Clob.cachedClient (outside w) ≠ None
  /\ match fst again with
     | Ret c => Clob.clientRef c = 1 /\ Clob.cachedClient (outside (snd again)) = Some c
     | Throw _ => False
     end.
Proof.
  intros v w again. split; [done|].
  destruct (fst again) as [c|e] eqn:Hagain; [|by vm_compute in Hagain].
  assert (Hrun : @Clob.getClobClient unit library v (snd (Clob.clearClobClientCache w))
                 = (Ret c, snd again)).
  { rewrite <- Hagain. apply surjective_pairing. }
  destruct (@clearClobClientCache_forces_new_client unit library v w (snd again) c Hrun)
    as (Href & _ & Hcache & _).
  by rewrite Href.
Defined.

Lemma createCredential_then_getClobClient_witness :
  let v := vars (Some "0xkey") None None in
  let w := sys None in
  let made := @Clob.createCredential unit library v w in
  fst made = Ret (Some derived)
  /\ exists c w2,
       @Clob.getClobClient unit library v (snd made) = (Ret c, w2)
       /\ Clob.clientCreds c
          = Some {| Clob.key := "api-key"; Clob.secret := "c2Vj+cmV0/w==";
                    Clob.passphrase := "pass" |}.
Proof.
  intros v w made. split; [done|].
  assert (Hmade : @Clob.createCredential unit library v w = (Ret (Some derived), snd made))
    by done.
  destruct (@createCredential_then_getClobClient unit library v w (snd made) derived Hmade)
    as (c & w2 & Hrun & Hfresh).
  exists c, w2. split; [exact Hrun|].
  by destruct Hfresh as [Hcreds _].
Defined.

End FurtherRuns.
